(** * aacharya-backend: sessions, authentication guard and enrollment lookup

    A shallow embedding of [helper.js] (the reference resolver and the
    enrollment aggregator) and of the Express application built by
    [createApp] (session clean-up, authentication middleware, the
    /login, /logout, /profile and /reset-password routes).

    JavaScript values are an inductive type, Firestore documents are
    field lists, collections are finite maps keyed by document id, and
    the handlers are written in a state-and-exception monad over the
    Firestore contents. *)

From stdpp Require Import gmap strings list fin_maps pretty relations.
From Stdlib Require Import ZArith Ascii String.

#[local] Set Warnings "-register-all".
#[local] Open Scope string_scope.
#[local] Open Scope list_scope.

(* ===================================================================== *)
(** ** JavaScript values *)
(* ===================================================================== *)

(** The values that travel through the handlers: JSON data of a request
    body, field values of a Firestore document, and the two Firestore
    classes the code inspects, [Timestamp] and [DocumentReference].
    Numbers are restricted to integers. *)
Inductive value :=
| VUndefined
| VNull
| VBool (b : bool)
| VNum (n : Z)
| VStr (s : string)
| VTimestamp (millis : Z)             (* admin.firestore.Timestamp *)
| VDate (millis : Z)                  (* Date, from Timestamp.toDate() *)
| VRef (path : string)                (* DocumentReference, has .path and .get() *)
| VArr (xs : list value)
| VObj (fields : list (string * value)).

(** A plain object: properties in insertion order. *)
Abbreviation object := (list (string * value)).

(** Exceptions a handler can see. *)
Inductive exn :=
| TypeError (msg : string)
| Error (msg : string).

Definition error_message (e : exn) : string :=
  match e with TypeError m | Error m => m end.

(** [!!v] *)
Definition truthy (v : value) : bool :=
  match v with
  | VUndefined | VNull => false
  | VBool b => b
  | VNum n => negb (Z.eqb n 0)
  | VStr s => negb (String.eqb s "")
  | VTimestamp _ | VDate _ | VRef _ | VArr _ | VObj _ => true
  end.

(** [typeof v === "object" && v !== null] *)
Definition is_object (v : value) : bool :=
  match v with
  | VTimestamp _ | VDate _ | VRef _ | VArr _ | VObj _ => true
  | _ => false
  end.

(** [a === b] for two values that were read from different places (a
    request body against a stored field, a field against a literal):
    primitives compare by type and content, objects by identity, and two
    such objects are never the same one. *)
Definition strict_eq (a b : value) : bool :=
  match a, b with
  | VUndefined, VUndefined => true
  | VNull, VNull => true
  | VBool x, VBool y => Bool.eqb x y
  | VNum x, VNum y => Z.eqb x y
  | VStr x, VStr y => String.eqb x y
  | _, _ => false
  end.

(** [o.k]: the first binding of [k], [undefined] when there is none. *)
Fixpoint get_field (k : string) (o : object) : value :=
  match o with
  | [] => VUndefined
  | (k', v) :: o' => if String.eqb k k' then v else get_field k o'
  end.

Fixpoint has_field (k : string) (o : object) : bool :=
  match o with
  | [] => false
  | (k', _) :: o' => String.eqb k k' || has_field k o'
  end.

(** [o.k = v]: overwrite in place, or append a new property. *)
Fixpoint set_field (k : string) (v : value) (o : object) : object :=
  match o with
  | [] => [(k, v)]
  | (k', v') :: o' =>
      if String.eqb k k' then (k', v) :: o' else (k', v') :: set_field k v o'
  end.

(** [{...o, ...upd}] on top of the properties [o] already has. *)
Definition merge_fields (upd o : object) : object :=
  fold_left (fun acc kv => set_field (fst kv) (snd kv) acc) upd o.

(** [const {k, ...rest} = o]: [rest]. *)
Definition remove_field (k : string) (o : object) : object :=
  List.filter (fun kv => negb (String.eqb k (fst kv))) o.

(** Firestore's [==] filter: equality of stored values by type and
    content (maps compared field by field in stored order). *)
Fixpoint firestore_eq (a b : value) {struct a} : bool :=
  match a, b with
  | VUndefined, VUndefined => true
  | VNull, VNull => true
  | VBool x, VBool y => Bool.eqb x y
  | VNum x, VNum y => Z.eqb x y
  | VStr x, VStr y => String.eqb x y
  | VTimestamp x, VTimestamp y => Z.eqb x y
  | VDate x, VDate y => Z.eqb x y
  | VRef x, VRef y => String.eqb x y
  | VArr xs, VArr ys =>
      (fix go (xs ys : list value) {struct xs} : bool :=
         match xs, ys with
         | [], [] => true
         | x :: xs', y :: ys' => firestore_eq x y && go xs' ys'
         | _, _ => false
         end) xs ys
  | VObj fs, VObj gs =>
      (fix go (fs gs : object) {struct fs} : bool :=
         match fs, gs with
         | [], [] => true
         | (k, x) :: fs', (k', y) :: gs' =>
             String.eqb k k' && firestore_eq x y && go fs' gs'
         | _, _ => false
         end) fs gs
  | _, _ => false
  end.

(* ===================================================================== *)
(** ** Strings: split and join *)
(* ===================================================================== *)

(** [s.split(sep)] for a one-character separator: the pieces between
    separators, empty pieces included; [""] splits to [[""]]. *)
Fixpoint split (sep : ascii) (s : string) : list string :=
  match s with
  | EmptyString => [EmptyString]
  | String c rest =>
      if Ascii.eqb c sep then EmptyString :: split sep rest
      else match split sep rest with
           | [] => [String c EmptyString]
           | seg :: segs => String c seg :: segs
           end
  end.

(** [xs.join(sep)] *)
Definition join (sep : string) (xs : list string) : string :=
  String.concat sep xs.

(** [s.startsWith(p)] *)
Definition startsWith (s p : string) : bool := String.prefix p s.

(** [pathString.split("/").filter((s) => s.length > 0)] *)
Definition path_segments (s : string) : list string :=
  List.filter (fun seg => negb (String.eqb seg "")) (split "/" s).

(** The path of the reference [db.doc(path)]: the non-empty segments,
    joined. *)
Definition normalize_path (path : string) : string :=
  join "/" (path_segments path).

(* ===================================================================== *)
(** ** helper.js: getParentClassRefPath *)
(* ===================================================================== *)

(** [ref.path] on an object: a [DocumentReference] carries its path, a
    plain object may have the property, arrays and timestamps do not. *)
Definition prop_path (ref : value) : value :=
  match ref with
  | VRef p => VStr p
  | VObj fs => get_field "path" fs
  | _ => VUndefined
  end.

(** The first branch of the function: which value becomes [pathString],
    or [None] for the early [return null]. *)
Definition select_pathString (ref : value) : option value :=
  match ref with
  | VStr s => if startsWith s "/" then Some ref else None
  | _ => if is_object ref && truthy (prop_path ref)
         then Some (prop_path ref) else None
  end.

(** The second half of the function, on the path string. *)
Definition truncate_path (pathString : string) : value :=
  let segments := path_segments pathString in
  let n := List.length segments in
  if (Nat.leb 5 n) &&
     match segments !! (n - 2)%nat with
     | Some seg => String.eqb seg "subjects"
     | None => false
     end
  then VStr ("/" +:+ join "/" (take (n - 2) segments))
  else VNull.

Definition getParentClassRefPath (ref : value) : exn + value :=
  match select_pathString ref with
  | None => inr VNull
  | Some (VStr pathString) => inr (truncate_path pathString)
  | Some _ =>
      (* pathString has no split method *)
      inl (TypeError "pathString.split is not a function")
  end.


(* ===================================================================== *)
(** ** Firestore and the handler monad *)
(* ===================================================================== *)

(** Messages of [console.warn] in the enrollment aggregator, with the
    interpolated value kept as data. *)
Inductive warning :=
| WInvalidReference (refItem : value)
| WNoParentPath (subjectPath : string)
| WParentNotFound (parentPath : string)
| WSubjectNotFound (subjectPath : string).

(** The contents of the database and the console. The collections
    [sessions] (keyed by token) and [user] (keyed by user id) are kept
    apart from the documents the enrollment references address by path.
    The console keeps the warnings of the enrollment aggregator; the
    log and error lines of the routes are left out. *)
Record state := State {
  sessions : gmap string object;
  users : gmap string object;
  documents : gmap string object;
  console : list warning
}.

(** The calls into the storage library (the Firestore client, which
    is not part of the repository). Each of them may raise. *)
Inductive call :=
| GetSession (token : string)
| UpdateSession (token : string)
| SetSession (token : string)
| QueryActiveSessions (userId : string)
| CommitBatch (tokens : list string)
| QueryUsersByEmail (email : value)
| GetUser (userId : string)
| UpdateUser (userId : string)
| DocRef (path : string)
| GetDocument (path : string).

(** What a request finds around it: which storage calls raise, the
    local clock ([Date.now()], [Timestamp.now()]), the time the backend
    writes for [FieldValue.serverTimestamp()], and the result of
    [uuidv4()]. *)
Record env := Env {
  throws : call -> bool;
  now : Z;
  serverTimestamp : Z;
  uuidv4 : string
}.

Definition M (A : Type) : Type := state -> (exn + A) * state.

Definition ret {A} (a : A) : M A := fun st => (inr a, st).

Definition bind {A B} (m : M A) (k : A -> M B) : M B :=
  fun st =>
    match m st with
    | (inl e, st') => (inl e, st')
    | (inr a, st') => k a st'
    end.

Definition raise {A} (e : exn) : M A := fun st => (inl e, st).

(** [try { body } catch (error) { handler }] *)
Definition try_catch {A} (body : M A) (handler : exn -> M A) : M A :=
  fun st =>
    match body st with
    | (inl e, st') => handler e st'
    | (inr a, st') => (inr a, st')
    end.

Definition lift {A} (r : exn + A) : M A := fun st => (r, st).

Notation "'let*' x ':=' m 'in' k" := (bind m (fun x => k))
  (at level 10, x name, m at level 100, k at level 200).
Notation "m ';;' k" := (bind m (fun _ => k))
  (at level 100, k at level 200, right associativity).

(** The state with more lines on the console. *)
Definition add_console (ws : list warning) (st : state) : state :=
  State (sessions st) (users st) (documents st) (console st ++ ws).

Definition console_warn (w : warning) : M unit :=
  fun st => (inr tt, add_console [w] st).

Definition set_sessions (f : gmap string object -> gmap string object) (st : state) : state :=
  State (f (sessions st)) (users st) (documents st) (console st).

Definition set_users (f : gmap string object -> gmap string object) (st : state) : state :=
  State (sessions st) (f (users st)) (documents st) (console st).

Section Storage.
Variable E : env.

(** Modelled from the spec: the storage collaborator of its section 6
    ([getDocument], [queryEquals], [setDocument], [updateFields],
    [batchCommit]), which the code reaches through the Firestore client.
    Entering the library, the call raises when the environment says
    so. *)
Definition storage (c : call) : M unit :=
  if throws E c then raise (Error "storage failure") else ret tt.

(** Modelled from the spec: a document is addressed by its id;
    [collection.doc(id)] needs a non-empty string. *)
Definition collection_doc (id : value) : M string :=
  match id with
  | VStr s =>
      if String.eqb s "" then raise (Error "documentPath must be a non-empty string")
      else ret s
  | _ => raise (Error "documentPath must be a non-empty string")
  end.

(** Modelled from the spec: [getDocument], here
    [sessionsCollection.doc(token).get()]; [None] when [!exists]. *)
Definition sessions_get (token : string) : M (option object) :=
  storage (GetSession token);;
  fun st => (inr (sessions st !! token), st).

(** Modelled from the spec: [updateFields] (merge), here
    [sessionsCollection.doc(token).update(fields)]; it fails when the
    document does not exist. *)
Definition sessions_update (token : string) (fields : object) : M unit :=
  storage (UpdateSession token);;
  fun st =>
    match sessions st !! token with
    | None => (inl (Error "NOT_FOUND: no document to update"), st)
    | Some d => (inr tt, set_sessions (insert token (merge_fields fields d)) st)
    end.

(** Modelled from the spec: [setDocument] (upsert, full overwrite),
    here [sessionsCollection.doc(token).set(data)]. *)
Definition sessions_set (token : string) (data : object) : M unit :=
  storage (SetSession token);;
  fun st => (inr tt, set_sessions (insert token data) st).

(** The two filters of the clean-up query on one document:
    [userId == userId] and [isActive == true]. *)
Definition is_active_for (userId : string) (d : object) : bool :=
  firestore_eq (get_field "userId" d) (VStr userId)
  && firestore_eq (get_field "isActive" d) (VBool true).

(** Modelled from the spec: [queryEquals], here
    [sessionsCollection.where("userId", "==", userId)
      .where("isActive", "==", true).get()]: the matching documents. *)
Definition sessions_where_active (userId : string) : M (list (string * object)) :=
  storage (QueryActiveSessions userId);;
  fun st =>
    (inr (List.filter (fun td => is_active_for userId (snd td))
                      (map_to_list (sessions st))), st).

(** Modelled from the spec: [batchCommit] (all-or-nothing), here
    [batch.update(ref, fields)] for every listed document, then
    [batch.commit()]. *)
Fixpoint apply_updates (ups : list (string * object)) (m : gmap string object)
  : option (gmap string object) :=
  match ups with
  | [] => Some m
  | (t, fields) :: ups' =>
      match m !! t with
      | None => None
      | Some d => apply_updates ups' (<[t := merge_fields fields d]> m)
      end
  end.

Definition batch_commit (ups : list (string * object)) : M unit :=
  storage (CommitBatch (map fst ups));;
  fun st =>
    match apply_updates ups (sessions st) with
    | None => (inl (Error "NOT_FOUND: no document to update"), st)
    | Some m => (inr tt, set_sessions (fun _ => m) st)
    end.

(** Modelled from the spec: [queryEquals] with a limit, here
    [usersCollection.where("email", "==", email).limit(1).get()]; the
    scan order is the one of the map. *)
Definition users_where_email (email : value) : M (list (string * object)) :=
  storage (QueryUsersByEmail email);;
  fun st =>
    (inr (take 1 (List.filter (fun ud => firestore_eq (get_field "email" (snd ud)) email)
                              (map_to_list (users st)))), st).

(** Modelled from the spec: [getDocument], here
    [usersCollection.doc(userId).get()]. *)
Definition users_get (userId : string) : M (option object) :=
  storage (GetUser userId);;
  fun st => (inr (users st !! userId), st).

(** Modelled from the spec: [updateFields], here
    [usersCollection.doc(userId).update(fields)]. *)
Definition users_update (userId : string) (fields : object) : M unit :=
  storage (UpdateUser userId);;
  fun st =>
    match users st !! userId with
    | None => (inl (Error "NOT_FOUND: no document to update"), st)
    | Some d => (inr tt, set_users (insert userId (merge_fields fields d)) st)
    end.

(** Modelled from the spec: a reference handle made from a path
    string, here [db.doc(path)]; its [.path] is the path without empty
    segments. The library may refuse the path. *)
Definition db_doc (path : string) : M value :=
  storage (DocRef path);;
  ret (VRef (normalize_path path)).

(** Modelled from the spec: [getDocument], here [ref.get()] for a
    reference into [documents]. *)
Definition document_get (path : string) : M (option object) :=
  storage (GetDocument path);;
  fun st => (inr (documents st !! path), st).

End Storage.

(* ===================================================================== *)
(** ** helper.js: fetchEnrolledClassesWithParents *)
(* ===================================================================== *)

(** [{ subjectPath, parentPath }] *)
Record ref_context := RefContext { subjectPath : string; parentPath : string }.

(** A document snapshot: the path of its reference and its data, [None]
    when [!exists]. *)
Record snapshot := Snapshot { snap_path : string; snap_data : option object }.

(** [snapshot.id]: the last segment of the path. *)
Definition snap_id (s : snapshot) : string :=
  List.last (path_segments (snap_path s)) "".

Section Aggregator.
Variable E : env.

(** The body of [enrolledRefs.forEach], on the two arrays it fills:
    the reads that were started and the contexts of the valid
    references. First the part after [subjectRef] is known. *)
Definition collect_subject (acc : list string * list ref_context)
    (subjectRef : value) : M (list string * list ref_context) :=
  let subject_path :=
    match prop_path subjectRef with VStr p => p | _ => "" end in
  let* parent := lift (getParentClassRefPath subjectRef) in
  match parent with
  | VStr parent_path =>
      if truthy parent then
        let* parentRef := db_doc E parent_path in
        let parent_ref_path :=
          match prop_path parentRef with VStr p => p | _ => "" end in
        ret (fst acc ++ [subject_path; parent_ref_path],
             snd acc ++ [RefContext subject_path parent_path])
      else console_warn (WNoParentPath subject_path);; ret acc
  | _ => console_warn (WNoParentPath subject_path);; ret acc
  end.

Definition collect_ref (acc : list string * list ref_context) (refItem : value)
  : M (list string * list ref_context) :=
  let* subjectRef :=
    match refItem with
    | VRef _ => ret (Some refItem)
    | VStr s =>
        if startsWith s "/" then (let* r := db_doc E s in ret (Some r))
        else ret None
    | _ => ret None
    end in
  match subjectRef with
  | None => console_warn (WInvalidReference refItem);; ret acc
  | Some subjectRef => collect_subject acc subjectRef
  end.

Fixpoint forEach {A B} (f : B -> A -> M B) (xs : list A) (acc : B) : M B :=
  match xs with
  | [] => ret acc
  | x :: xs' => let* acc' := f acc x in forEach f xs' acc'
  end.

(** [await Promise.all(fetchPromises)]: every read, results in the
    order of the array; a failed read fails the whole. *)
Fixpoint promise_all (paths : list string) : M (list snapshot) :=
  match paths with
  | [] => ret []
  | p :: ps =>
      let* d := document_get E p in
      let* rest := promise_all ps in
      ret (Snapshot p d :: rest)
  end.

(** [{ id: classSnapshot.id, ...classSnapshot.data() }] *)
Definition class_data (classSnapshot : snapshot) (d : object) : value :=
  VObj (merge_fields d [("id", VStr (snap_id classSnapshot))]).

(** [{ id, refPath, ...subjectData, parentClass: classData }] *)
Definition subject_entry (subjectSnapshot : snapshot) (subjectData : object)
    (classData : value) : value :=
  VObj (set_field "parentClass" classData
          (merge_fields subjectData
             [("id", VStr (snap_id subjectSnapshot));
              ("refPath", VStr (snap_path subjectSnapshot))])).

(** The loop [for (let i = 0; i < snapshots.length; i += 2)], entered
    at index [i] with the snapshots from [i] on. *)
Fixpoint pair_loop (i : nat) (snapshots : list snapshot)
    (validSubjectRefs : list ref_context) (subjectsWithClasses : list value)
  : M (list value) :=
  match snapshots with
  | subjectSnapshot :: classSnapshot :: rest =>
      let refContext :=
        default (RefContext "" "") (validSubjectRefs !! (i / 2)%nat) in
      let* out :=
        match snap_data subjectSnapshot with
        | Some subjectData =>
            let* classData :=
              match snap_data classSnapshot with
              | Some d => ret (class_data classSnapshot d)
              | None =>
                  console_warn (WParentNotFound (parentPath refContext));;
                  ret VNull
              end in
            ret (subjectsWithClasses
                   ++ [subject_entry subjectSnapshot subjectData classData])
        | None =>
            console_warn (WSubjectNotFound (subjectPath refContext));;
            ret subjectsWithClasses
        end in
      pair_loop (i + 2) rest validSubjectRefs out
  | _ => ret subjectsWithClasses
  end.

Definition enrolled_refs (userData : object) : list value :=
  match get_field "enrolled_classes" userData with
  | VArr xs => xs
  | _ => []
  end.

Definition fetchEnrolledClassesWithParents (userId : string) : M (list value) :=
  let* userDoc := users_get E userId in
  match userDoc with
  | None => raise (Error "User profile not found.")
  | Some userData =>
      let enrolledRefs := enrolled_refs userData in
      if Nat.eqb (List.length enrolledRefs) 0 then ret []
      else
        let* acc := forEach collect_ref enrolledRefs ([], []) in
        let fetchPromises := fst acc in
        let validSubjectRefs := snd acc in
        if Nat.eqb (List.length fetchPromises) 0 then ret []
        else
          let* snapshots := promise_all fetchPromises in
          pair_loop 0 snapshots validSubjectRefs []
  end.

End Aggregator.

(* ===================================================================== *)
(** ** The Express application (createApp) *)
(* ===================================================================== *)

(** What the handlers read of a request: the [authorization] header and
    the parsed JSON body. *)
Record request := Request {
  authorization : option string;
  req_body : object
}.

(** [res.status(s).json(b)] *)
Record response := Response { status : nat; body : value }.

(** What a successful guard attaches: [req.user] and [req.userId]. *)
Record identity := Identity { req_user : object; req_userId : string }.

Definition SESSION_DURATION_MS : Z := 24 * 60 * 60 * 1000.

Definition error_body (msg : string) : value := VObj [("error", VStr msg)].
Definition message_body (msg : string) : value := VObj [("message", VStr msg)].

(** [authHeader && authHeader.split(" ")[1]] *)
Definition bearer_token (authHeader : option string) : value :=
  match authHeader with
  | None => VUndefined
  | Some h =>
      if truthy (VStr h) then
        match split " " h !! 1%nat with
        | Some t => VStr t
        | None => VUndefined
        end
      else VStr h
  end.

Section App.
Variable E : env.

(** [{ isActive: false, logoutTime: FieldValue.serverTimestamp() }] *)
Definition deactivation : object :=
  [("isActive", VBool false); ("logoutTime", VTimestamp (serverTimestamp E))].

(** Marks all active sessions for a given user as inactive. *)
Definition cleanupPreviousSessions (userId : string) : M unit :=
  let* oldSessions := sessions_where_active E userId in
  match oldSessions with
  | [] => ret tt
  | _ => batch_commit E (map (fun td => (fst td, deactivation)) oldSessions)
  end.

(** The expiry check of the guard: [true] when the session was found
    expired (and was marked inactive). *)
Definition check_expiry (token : string) (session : object) : M bool :=
  match get_field "expiresAt" session with
  | VTimestamp expiresAtMillis =>
      if (expiresAtMillis <? now E)%Z then
        sessions_update E token [("isActive", VBool false)];;
        ret true
      else ret false
  | _ => ret false
  end.

(** The last stage of the guard: load the owning user. *)
Definition load_user (session : object) : M (response + identity) :=
  let* userId := collection_doc (get_field "userId" session) in
  let* userDoc := users_get E userId in
  match userDoc with
  | None => ret (inl (Response 404 (error_body "User not found.")))
  | Some user => ret (inr (Identity user userId))
  end.

(** The authentication middleware. [inl r]: the middleware answered
    [r] itself; [inr ident]: it called [next()]. *)
Definition authenticateToken (req : request) : M (response + identity) :=
  try_catch
    (let token := bearer_token (authorization req) in
     if negb (truthy token) then
       ret (inl (Response 401 (error_body "Authorization token required.")))
     else
       let* tokenId := collection_doc token in
       let* sessionDoc := sessions_get E tokenId in
       match sessionDoc with
       | None => ret (inl (Response 403 (error_body "Invalid token.")))
       | Some session =>
           if strict_eq (get_field "isActive" session) (VBool false) then
             ret (inl (Response 403 (error_body "Session expired or invalidated.")))
           else
             let* expired := check_expiry tokenId session in
             if expired then
               ret (inl (Response 403
                           (error_body "Session expired due to inactivity.")))
             else load_user session
       end)
    (fun error =>
       ret (inl (Response 500
                   (error_body "Internal server error during authentication.")))).

(** [app.METHOD(path, authenticateToken, handler)] *)
Definition authenticated (handler : request -> identity -> M response)
    (req : request) : M response :=
  let* guard := authenticateToken req in
  match guard with
  | inl r => ret r
  | inr ident => handler req ident
  end.

(** POST /reset-password, after the guard. *)
Definition reset_password_handler (req : request) (ident : identity) : M response :=
  let newPassword := get_field "newPassword" (req_body req) in
  let userId := req_userId ident in
  if negb (truthy newPassword) then
    ret (Response 400 (error_body "newPassword is required."))
  else
    try_catch
      (users_update E userId
         [("password_hash", newPassword);
          ("updatedAt", VTimestamp (serverTimestamp E));
          ("is_new", VBool false)];;
       ret (Response 200
              (VObj [("message",
                      VStr "Password successfully updated for the authenticated user.");
                     ("userId", VStr userId)])))
      (fun error =>
         ret (Response 500
                (error_body "An unexpected server error occurred during password reset."))).

Definition reset_password : request -> M response :=
  authenticated reset_password_handler.

(** The session document written by a login. *)
Definition new_session (userId : string) : object :=
  [("userId", VStr userId);
   ("loginTime", VTimestamp (serverTimestamp E));
   ("expiresAt", VTimestamp (now E + SESSION_DURATION_MS));
   ("isActive", VBool true)].

Definition login_success (userId : string) (user : object) : response :=
  Response 200
    (VObj [("message", VStr "Login successful");
           ("token", VStr (uuidv4 E));
           ("expiresAt", VDate (now E + SESSION_DURATION_MS));
           ("user", VObj [("id", VStr userId);
                          ("is_new", get_field "is_new" user)])]).

Definition invalid_credentials : response :=
  Response 401 (error_body "Invalid email or password.").

Definition login_failure : response :=
  Response 500 (error_body "An unexpected server error occurred.").

(** POST /login *)
Definition login (req : request) : M response :=
  let email := get_field "email" (req_body req) in
  let password := get_field "password" (req_body req) in
  if negb (truthy email) || negb (truthy password) then
    ret (Response 400 (error_body "Email and password are required."))
  else
    try_catch
      (let* snapshot := users_where_email E email in
       match snapshot with
       | [] => ret invalid_credentials
       | (userId, user) :: _ =>
           if negb (strict_eq (get_field "password_hash" user) password) then
             ret invalid_credentials
           else
             cleanupPreviousSessions userId;;
             sessions_set E (uuidv4 E) (new_session userId);;
             ret (login_success userId user)
       end)
      (fun error => ret login_failure).

(** POST /logout, after the guard. *)
Definition logout_handler (req : request) (ident : identity) : M response :=
  try_catch
    (let token := bearer_token (authorization req) in
     let* tokenId := collection_doc token in
     sessions_update E tokenId
       [("isActive", VBool false);
        ("logoutTime", VTimestamp (serverTimestamp E))];;
     ret (Response 200 (message_body "Logout successful. Session invalidated.")))
    (fun error => ret (Response 200 (message_body "Logout process complete."))).

Definition logout : request -> M response := authenticated logout_handler.

(** GET /profile, after the guard. *)
Definition profile_handler (req : request) (ident : identity) : M response :=
  let safeUser := remove_field "password_hash" (req_user ident) in
  ret (Response 200
         (VObj [("message", VStr "Authenticated profile data");
                ("user", VObj safeUser);
                ("userId", VStr (req_userId ident))])).

Definition profile : request -> M response := authenticated profile_handler.

End App.

Section Routes.
Variable E : env.

(** GET /classes, after the guard. *)
Definition classes_handler (req : request) (ident : identity) : M response :=
  try_catch
    (let userId := req_userId ident in
     let* subjectsWithClasses := fetchEnrolledClassesWithParents E userId in
     if Nat.eqb (List.length subjectsWithClasses) 0 then
       let* userDoc := users_get E userId in
       match userDoc with
       | None =>
           (* userDoc.data() is undefined *)
           raise (TypeError "Cannot read properties of undefined")
       | Some userData =>
           if Nat.eqb (List.length (enrolled_refs userData)) 0 then
             ret (Response 200
                    (VObj [("message",
                            VStr "User is not currently enrolled in any subjects.");
                           ("subjects", VArr [])]))
           else
             ret (Response 200
                    (VObj [("message",
                            VStr "User is enrolled, but no valid subject data was retrieved.");
                           ("subjects", VArr [])]))
       end
     else
       ret (Response 200
              (VObj [("message",
                      VStr ("Successfully retrieved "
                            +:+ pretty (List.length subjectsWithClasses)
                            +:+ " enrolled subject(s) with parent class data."));
                     ("subjects", VArr subjectsWithClasses)])))
    (fun error =>
       if String.eqb (error_message error) "User profile not found." then
         ret (Response 404 (error_body (error_message error)))
       else
         ret (Response 500
                (error_body
                   "An unexpected server error occurred while fetching class data."))).

Definition classes : request -> M response := authenticated E classes_handler.

End Routes.

(** The routes of the application that touch sessions or users. *)
Inductive route :=
| PostLogin
| PostLogout
| GetProfile
| PostResetPassword
| GetClasses.

Definition handle (E : env) (r : route) (req : request) : M response :=
  match r with
  | PostLogin => login E req
  | PostLogout => logout E req
  | GetProfile => profile E req
  | PostResetPassword => reset_password E req
  | GetClasses => classes E req
  end.

(** Requests served one after the other, each to completion. *)
Fixpoint serve (reqs : list (env * route * request)) (st : state) : state :=
  match reqs with
  | [] => st
  | (E, r, req) :: reqs' => serve reqs' (snd (handle E r req st))
  end.

(* ===================================================================== *)
(** ** Login, one storage round trip at a time *)
(* ===================================================================== *)

(** Where a /login request stands between two awaited storage calls. *)
Inductive login_pc :=
| LoginStart (req : request)
| LoginCleanup (userId : string) (user : object)
| LoginCommit (userId : string) (user : object) (oldSessions : list (string * object))
| LoginCreate (userId : string) (user : object)
| LoginDone (r : response).

Section LoginSteps.
Variable E : env.

Definition caught (m : M login_pc) : M login_pc :=
  try_catch m (fun error => ret (LoginDone (login_failure))).

(** The code of /login from one await to the next. *)
Definition login_step (pc : login_pc) : M login_pc :=
  match pc with
  | LoginStart req =>
      let email := get_field "email" (req_body req) in
      let password := get_field "password" (req_body req) in
      if negb (truthy email) || negb (truthy password) then
        ret (LoginDone (Response 400 (error_body "Email and password are required.")))
      else
        caught
          (let* snapshot := users_where_email E email in
           match snapshot with
           | [] => ret (LoginDone invalid_credentials)
           | (userId, user) :: _ =>
               if negb (strict_eq (get_field "password_hash" user) password) then
                 ret (LoginDone invalid_credentials)
               else ret (LoginCleanup userId user)
           end)
  | LoginCleanup userId user =>
      caught
        (let* oldSessions := sessions_where_active E userId in
         match oldSessions with
         | [] => ret (LoginCreate userId user)
         | _ => ret (LoginCommit userId user oldSessions)
         end)
  | LoginCommit userId user oldSessions =>
      caught
        (batch_commit E (map (fun td => (fst td, deactivation E)) oldSessions);;
         ret (LoginCreate userId user))
  | LoginCreate userId user =>
      caught
        (sessions_set E (uuidv4 E) (new_session E userId);;
         ret (LoginDone (login_success E userId user)))
  | LoginDone r => ret (LoginDone r)
  end.

Fixpoint login_steps (n : nat) (pc : login_pc) : M login_pc :=
  match n with
  | O => ret pc
  | S n' => let* pc' := login_step pc in login_steps n' pc'
  end.

End LoginSteps.

(** A /login request in flight, with the environment it runs in. *)
Record process := Process { proc_env : env; proc_pc : login_pc }.

(** Requests in flight over one database: any of them takes its next
    step. A request that is never scheduled again has crashed. *)
Inductive sys_step : state * list process -> state * list process -> Prop :=
| sys_step_at (i : nat) (p : process) (pc' : login_pc) (st st' : state)
    (ps : list process) :
    ps !! i = Some p ->
    login_step (proc_env p) (proc_pc p) st = (inr pc', st') ->
    sys_step (st, ps) (st', <[i := Process (proc_env p) pc']> ps).

(* ===================================================================== *)
(** ** Active sessions *)
(* ===================================================================== *)

(** The session stored under [token] belongs to [userId] and has its
    active flag true. *)
Definition active_session (st : state) (userId token : string) : Prop :=
  exists d, sessions st !! token = Some d /\ is_active_for userId d = true.

(** At most one session per user has its active flag true. *)
Definition single_active (st : state) : Prop :=
  forall userId t1 t2,
    active_session st userId t1 -> active_session st userId t2 -> t1 = t2.

(** No session of [userId] has its active flag true. *)
Definition no_active (st : state) (userId : string) : Prop :=
  forall t, ~ active_session st userId t.

(* ===================================================================== *)
(** ** The reference resolver in the words of its description *)
(* ===================================================================== *)

(** The path an input designates: a string that starts with the
    separator, the path of a reference, or the [path] field of an
    object. *)
Definition designated_path (ref : value) : option string :=
  match ref with
  | VStr s => if startsWith s "/" then Some s else None
  | VRef p => Some p
  | VObj fs => match get_field "path" fs with VStr p => Some p | _ => None end
  | _ => None
  end.

(** A path has the subject shape when it has at least five non-empty
    segments and the one before the last is "subjects". *)
Definition subject_shaped (path : string) : Prop :=
  (5 <= List.length (path_segments path))%nat
  /\ reverse (path_segments path) !! 1%nat = Some "subjects".

(** The path without its last two non-empty segments. *)
Definition without_last_two (path : string) : string :=
  "/" +:+ join "/" (reverse (drop 2 (reverse (path_segments path)))).

(** The inputs of the documented type and their neighbours: when the
    input is an object, its [path] is a string, or is falsy. *)
Definition path_is_text (ref : value) : Prop :=
  is_object ref = true -> truthy (prop_path ref) = true ->
  exists p, prop_path ref = VStr p.

(** Every session that is active in [st'] was active in [st]. *)
Definition no_new_active (st st' : state) : Prop :=
  forall userId t, active_session st' userId t -> active_session st userId t.

(* ===================================================================== *)
(** ** The stages of the guard *)
(* ===================================================================== *)

(** The request carries the bearer token [t]. *)
Definition presents (req : request) (t : string) : Prop :=
  bearer_token (authorization req) = VStr t /\ t <> "".

(** The session lookup succeeds and finds [session] under the token. *)
Definition finds (E : env) (req : request) (st : state) (t : string)
    (session : object) : Prop :=
  presents req t
  /\ throws E (GetSession t) = false
  /\ sessions st !! t = Some session.

(** The active flag is not the boolean [false]. *)
Definition not_invalidated (session : object) : Prop :=
  get_field "isActive" session <> VBool false.

(** The session has an expiry, a [Timestamp], and it is in the past. *)
Definition expired (E : env) (session : object) : Prop :=
  exists x, get_field "expiresAt" session = VTimestamp x /\ (x < now E)%Z.

(** The session with its active flag cleared by the guard. *)
Definition expire_session (t : string) (session : object) (st : state) : state :=
  set_sessions (insert t (merge_fields [("isActive", VBool false)] session)) st.

(** The session reaches the user lookup: found, not invalidated, not
    expired. *)
Definition admitted (E : env) (req : request) (st : state) (t : string)
    (session : object) : Prop :=
  finds E req st t session /\ not_invalidated session /\ ~ expired E session.

(** The user lookup is made and succeeds for the id [uid]. *)
Definition looks_up (E : env) (session : object) (uid : string) : Prop :=
  get_field "userId" session = VStr uid /\ uid <> ""
  /\ throws E (GetUser uid) = false.

Definition guard_response (code : nat) (msg : string) : response + identity :=
  inl (Response code (error_body msg)).

(** The database proper is the same in both states (the console may
    differ). *)
Definition same_db (st st' : state) : Prop :=
  sessions st' = sessions st /\ users st' = users st
  /\ documents st' = documents st.

(** A computation that reads the database and may write to the console:
    it leaves sessions, users and documents as they were. *)
Definition read_only {A} (m : M A) : Prop :=
  forall st r st', m st = (r, st') -> same_db st st'.

(* ===================================================================== *)
(** ** A login between two steps *)
(* ===================================================================== *)

(** The sessions the clean-up query of [userId] returns in [st]. *)
Definition active_sessions_of (userId : string) (st : state) : list (string * object) :=
  List.filter (fun td => is_active_for userId (snd td)) (map_to_list (sessions st)).

(** What a login that runs alone knows at each point: the batch it is
    about to commit holds the user's active sessions, and it creates the
    new session only when the user has no active session. *)
Definition login_inv (pc : login_pc) (st : state) : Prop :=
  match pc with
  | LoginCommit userId _ oldSessions => oldSessions = active_sessions_of userId st
  | LoginCreate userId _ => no_active st userId
  | _ => True
  end.

(** The processes of [sched] take one step each, in that order. *)
Fixpoint run_schedule (sched : list nat) (sys : state * list process)
  : state * list process :=
  match sched with
  | [] => sys
  | i :: sched' =>
      match snd sys !! i with
      | Some p =>
          match login_step (proc_env p) (proc_pc p) (fst sys) with
          | (inr pc', st') =>
              run_schedule sched' (st', <[i := Process (proc_env p) pc']> (snd sys))
          | (inl _, _) => sys
          end
      | None => sys
      end
  end.

(* ===================================================================== *)
(** ** A small school, for the examples *)
(* ===================================================================== *)

(** An environment in which no storage call raises. *)
Definition quiet (clock : Z) (token : string) : env :=
  Env (fun _ => false) clock clock token.

Definition teacher : object :=
  [("email", VStr "teacher@jpschool.com");
   ("password_hash", VStr "teacherpass");
   ("is_new", VBool true);
   ("enrolled_classes",
    VArr [VRef "school/school1/classes/FirstA/subjects/maths";
          VStr "not-a-path";
          VRef "school/school1/classes/Gone/subjects/art";
          VRef "school/school1/classes/FirstA/subjects/dropped"])].

Definition school : state :=
  State ∅
        {[ "u1" := teacher ]}
        (<["school/school1/classes/FirstA" := [("name", VStr "First A")]]>
           (<["school/school1/classes/FirstA/subjects/maths" := [("title", VStr "Maths")]]>
              {[ "school/school1/classes/Gone/subjects/art" := [("title", VStr "Art")] ]}))
        [].

Definition teacher_login : request :=
  Request None
          [("email", VStr "teacher@jpschool.com"); ("password", VStr "teacherpass")].

(** Two logins of the same user in flight at once. *)
Definition two_logins : list process :=
  [Process (quiet 1000 "token-a") (LoginStart teacher_login);
   Process (quiet 1001 "token-b") (LoginStart teacher_login)].

(* ===================================================================== *)
(** ** The enrollment aggregator in the words of its description *)
(* ===================================================================== *)

Definition never_throws (E : env) : Prop := forall c, throws E c = false.

(** The handle of an enrollment reference: the path of a reference
    object, or of the reference made from a path string. *)
Definition subject_handle (refItem : value) : option string :=
  match refItem with
  | VRef p => Some p
  | VStr s => if startsWith s "/" then Some (normalize_path s) else None
  | _ => None
  end.

(** The subject path and the parent class path of a well-formed
    reference, or the warning for a malformed one. *)
Definition resolve_ref (refItem : value) : warning + string * string :=
  match subject_handle refItem with
  | None => inl (WInvalidReference refItem)
  | Some subject =>
      match truncate_path subject with
      | VStr parent => inr (subject, parent)
      | _ => inl (WNoParentPath subject)
      end
  end.

(** What becomes of one enrollment reference. *)
Inductive verdict :=
| Skipped (w : warning)
| Listed (entry : value) (w : option warning).


Definition listed (v : verdict) : option value :=
  match v with Listed entry _ => Some entry | Skipped _ => None end.

Definition warned (v : verdict) : option warning :=
  match v with Listed _ w => w | Skipped w => Some w end.


(** The two phases of the code, for the proofs: the references that
    get past the first loop, the reads they start, and the warnings of
    each phase. *)
Definition resolved (refs : list value) : list (string * string) :=
  omap (fun r => match resolve_ref r with inr x => Some x | inl _ => None end) refs.

Definition first_warnings (refs : list value) : list warning :=
  omap (fun r => match resolve_ref r with inl w => Some w | inr _ => None end) refs.

Definition fetch_paths (pairs : list (string * string)) : list string :=
  flat_map (fun sp => [fst sp; normalize_path (snd sp)]) pairs.

Definition contexts (pairs : list (string * string)) : list ref_context :=
  map (fun sp => RefContext (fst sp) (snd sp)) pairs.

Definition judge_pair (docs : gmap string object) (sp : string * string) : verdict :=
  match docs !! fst sp with
  | None => Skipped (WSubjectNotFound (fst sp))
  | Some subjectData =>
      let subjectSnapshot := Snapshot (fst sp) (Some subjectData) in
      match docs !! normalize_path (snd sp) with
      | None =>
          Listed (subject_entry subjectSnapshot subjectData VNull)
                 (Some (WParentNotFound (snd sp)))
      | Some classFields =>
          Listed (subject_entry subjectSnapshot subjectData
                    (class_data (Snapshot (normalize_path (snd sp))
                                          (Some classFields)) classFields))
                 None
      end
  end.

Definition read_snapshot (docs : gmap string object) (path : string) : snapshot :=
  Snapshot path (docs !! path).


(** The school with four sessions on record: a live one, one whose
    expiry has passed, one that was logged out, and one whose flag and
    expiry are not of the expected types. *)
Definition live_session : object :=
  [("userId", VStr "u1"); ("loginTime", VTimestamp 0);
   ("expiresAt", VTimestamp 5000); ("isActive", VBool true)].

Definition old_session : object :=
  [("userId", VStr "u2"); ("loginTime", VTimestamp 0);
   ("expiresAt", VTimestamp 500); ("isActive", VBool true)].

Definition closed_session : object :=
  [("userId", VStr "u1"); ("loginTime", VTimestamp 0);
   ("expiresAt", VTimestamp 5000); ("isActive", VBool false)].

Definition raw_session : object :=
  [("userId", VStr "u1"); ("isActive", VStr "false"); ("expiresAt", VNum 5)].

Definition school_open : state :=
  State (<["token-live" := live_session]>
           (<["token-old" := old_session]>
              (<["token-closed" := closed_session]>
                 {[ "token-raw" := raw_session ]})))
        (users school) (documents school) [].

Definition bearer (token : string) (fields : object) : request :=
  Request (Some ("Bearer " +:+ token)) fields.

Definition wrong_password_login : request :=
  Request None
          [("email", VStr "teacher@jpschool.com"); ("password", VStr "teacher")].

Definition empty_password_login : request :=
  Request None
          [("email", VStr "teacher@jpschool.com"); ("password", VStr "")].

(* ===================================================================== *)
(** ** The answers that are not a success *)
(* ===================================================================== *)

(** What the guard answers when it stops a request. *)
Definition guard_rejections : list response :=
  [Response 401 (error_body "Authorization token required.");
   Response 403 (error_body "Invalid token.");
   Response 403 (error_body "Session expired or invalidated.");
   Response 403 (error_body "Session expired due to inactivity.");
   Response 404 (error_body "User not found.");
   Response 500 (error_body "Internal server error during authentication.")].

(** What /login answers when it does not succeed. *)
Definition login_rejections : list response :=
  [Response 400 (error_body "Email and password are required.");
   invalid_credentials;
   login_failure].

(* ===================================================================== *)
(** ** More of createApp: role configuration, timetable, public reset *)
(* ===================================================================== *)

(** [s.includes(c)] for a character. *)
Fixpoint has_char (c : ascii) (s : string) : bool :=
  match s with
  | EmptyString => false
  | String c' rest => Ascii.eqb c' c || has_char c rest
  end.

(** The properties of an object have distinct names. *)
Definition unique_keys (o : object) : Prop := NoDup (o.*1).

Definition set_documents (f : gmap string object -> gmap string object) (st : state) : state :=
  State (sessions st) (users st) (f (documents st)) (console st).

(** The path behind
    [db.collection("school").doc(schoolId).collection("classes")
       .doc(classId).collection("timetable").doc("current_schedule")]. *)
Definition timetable_path (schoolId classId : string) : string :=
  "school/" +:+ schoolId +:+ "/classes/" +:+ classId
    +:+ "/timetable/current_schedule".

Section MoreRoutes.
Variable E : env.

(** Whether [ref.set(data)] on the document at a path raises. *)
Variable set_throws : string -> bool.

(** Modelled from the spec: [setDocument] (upsert, full overwrite) on a
    document addressed by path, here [timetableDocRef.set(data)]. *)
Definition document_set (path : string) (data : object) : M unit :=
  if set_throws path then raise (Error "storage failure")
  else fun st => (inr tt, set_documents (insert path data) st).

(** Modelled from the spec: the reference handle
    [db.collection("school").doc(schoolId).collection("classes")
       .doc(classId).collection("timetable").doc("current_schedule")];
    the library may refuse the path. The result is the [.path] of the
    reference. *)
Definition timetable_ref (schoolId classId : string) : M string :=
  let* ref := db_doc E (timetable_path schoolId classId) in
  ret (match prop_path ref with VStr p => p | _ => "" end).

(** POST /timetable, after the guard. The [console.error] of the catch
    block is left out: the console of the model holds the warnings of
    the aggregator only. *)
Definition timetable_post_handler (req : request) (ident : identity) : M response :=
  try_catch
    (let userId := req_userId ident in
     let userRole := get_field "user_role" (req_user ident) in
     if negb (strict_eq userRole (VStr "admin"))
        && negb (strict_eq userRole (VStr "teacher")) then
       ret (Response 403
              (error_body
                 "Forbidden: Only administrators and teachers can update the timetable."))
     else
       let class_id := get_field "class_id" (req_body req) in
       let weekdays := get_field "weekdays" (req_body req) in
       let schoolId := get_field "school_id" (req_user ident) in
       if negb (truthy class_id) || negb (truthy weekdays)
          || negb (is_object weekdays)
          || match weekdays with VArr _ => true | _ => false end then
         ret (Response 400
                (error_body
                   "Missing or invalid data: class_id and weekdays object are required in the request body."))
       else if negb (truthy schoolId) then
         ret (Response 400
                (error_body
                   "School ID missing from authenticated user profile. Cannot determine timetable location."))
       else
         let* school := collection_doc schoolId in
         let* class := collection_doc class_id in
         let* path := timetable_ref school class in
         document_set path
           [("weekdays", weekdays);
            ("updatedBy", VStr userId);
            ("updatedAt", VTimestamp (serverTimestamp E))];;
         ret (Response 200
                (VObj [("message",
                        VStr ("Timetable successfully updated for class "
                              +:+ class +:+ " in school " +:+ school +:+ "."));
                       ("timetablePath", VStr path)])))
    (fun error =>
       ret (Response 500
              (error_body
                 "An unexpected server error occurred while processing the timetable request."))).

(** GET /timetable, after the guard; [query] is [req.query]. The
    [console.error] of the catch block is left out. *)
Definition timetable_get_handler (query : object) (req : request)
    (ident : identity) : M response :=
  try_catch
    (let classId := get_field "class_id" query in
     let schoolId := get_field "school_id" (req_user ident) in
     if negb (truthy classId) then
       ret (Response 400
              (error_body
                 "Missing parameter: class_id is required as a query parameter."))
     else if negb (truthy schoolId) then
       ret (Response 400
              (error_body
                 "School ID missing from authenticated user profile. Cannot determine timetable location."))
     else
       let* school := collection_doc schoolId in
       let* class := collection_doc classId in
       let* path := timetable_ref school class in
       let* docSnap := document_get E path in
       match docSnap with
       | None =>
           ret (Response 404
                  (VObj [("message",
                          VStr ("Timetable not found for class " +:+ class +:+ "."));
                         ("timetablePath", VStr path);
                         ("weekdays", VObj [])]))
       | Some data =>
           ret (Response 200
                  (VObj (merge_fields data
                           [("message",
                             VStr ("Timetable successfully retrieved for class "
                                   +:+ class +:+ "."));
                            ("timetablePath", VStr path)])))
       end)
    (fun error =>
       ret (Response 500
              (error_body
                 "An unexpected server error occurred while retrieving the timetable."))).

Definition timetable_post : request -> M response :=
  authenticated E timetable_post_handler.

Definition timetable_get (query : object) : request -> M response :=
  authenticated E (timetable_get_handler query).

(** GET /user-role-config, after the guard. The role is read from
    [user_role]; an earlier version of the route reads [user_type], so
    the field is an argument. The [console.warn] of the route is left
    out. *)
Definition role_config_handler (field : string) (req : request)
    (ident : identity) : M response :=
  try_catch
    (let userRole := get_field field (req_user ident) in
     if negb (truthy userRole) then
       ret (Response 404
              (error_body "User role (user_type) is missing in the user profile."))
     else
       let* role := collection_doc userRole in
       let* roleDoc := document_get E ("roles/" +:+ role) in
       match roleDoc with
       | None =>
           ret (Response 404
                  (error_body ("Configuration not found for user role: "
                               +:+ role +:+ ".")))
       | Some config =>
           ret (Response 200
                  (VObj [("message",
                          VStr ("Configuration retrieved for role: " +:+ role));
                         ("role_config", VObj config)]))
       end)
    (fun error =>
       ret (Response 500
              (error_body
                 "An unexpected server error occurred while fetching role configuration."))).

Definition user_role_config : request -> M response :=
  authenticated E (role_config_handler "user_role").

(** POST /reset-password of the first version of the application: a
    public route that takes the email in the body. *)
Definition reset_password_by_email (req : request) : M response :=
  let email := get_field "email" (req_body req) in
  let newPassword := get_field "newPassword" (req_body req) in
  if negb (truthy email) || negb (truthy newPassword) then
    ret (Response 400 (error_body "Email and newPassword are required."))
  else
    try_catch
      (let* snapshot := users_where_email E email in
       match snapshot with
       | [] => ret (Response 404 (message_body "User not found or email invalid."))
       | (userId, _) :: _ =>
           users_update E userId
             [("password_hash", newPassword);
              ("updatedAt", VTimestamp (serverTimestamp E));
              ("is_new", VBool false)];;
           ret (Response 200
                  (message_body
                     "Password successfully reset. Existing sessions are still active."))
       end)
      (fun error =>
         ret (Response 500
                (error_body "An unexpected server error occurred during password reset."))).

End MoreRoutes.

(** At most the user [uid] has the email [email]. *)
Definition email_unique (st : state) (email : value) (uid : string) : Prop :=
  forall id u,
    users st !! id = Some u ->
    firestore_eq (get_field "email" u) email = true -> id = uid.

(** The fields both password resets write. *)
Definition credential_update (E : env) (newPassword : value) : object :=
  [("password_hash", newPassword);
   ("updatedAt", VTimestamp (serverTimestamp E));
   ("is_new", VBool false)].

(** The document POST /timetable writes. *)
Definition timetable_data (E : env) (weekdays : value) (userId : string) : object :=
  [("weekdays", weekdays);
   ("updatedBy", VStr userId);
   ("updatedAt", VTimestamp (serverTimestamp E))].

(** The role may write timetables. *)
Definition may_write_timetable (user : object) : Prop :=
  get_field "user_role" user = VStr "admin"
  \/ get_field "user_role" user = VStr "teacher".

(** An id that is a single path segment. *)
Definition plain_id (id : string) : Prop :=
  has_char "/" id = false /\ id <> "".

(** [v.k] on a value that may be an object. *)
Definition field_of (k : string) (v : value) : value :=
  match v with VObj fs => get_field k fs | _ => VUndefined end.

(* ===================================================================== *)
(** ** The example school with staff, sessions and a timetable request *)
(* ===================================================================== *)

Definition head_teacher : object :=
  [("email", VStr "head@jpschool.com");
   ("password_hash", VStr "headpass");
   ("user_role", VStr "teacher");
   ("school_id", VStr "school1")].

Definition pupil : object :=
  [("email", VStr "pupil@jpschool.com");
   ("password_hash", VStr "pupilpass");
   ("user_role", VStr "student");
   ("school_id", VStr "school1")].

(** A teacher of another school. *)
Definition visitor : object :=
  [("email", VStr "guest@other.org");
   ("password_hash", VStr "guestpass");
   ("user_role", VStr "teacher");
   ("school_id", VStr "school2")].

Definition head_session : object :=
  [("userId", VStr "u2"); ("loginTime", VTimestamp 0);
   ("expiresAt", VTimestamp 5000); ("isActive", VBool true)].

Definition teacher_config : object := [("menu", VArr [VStr "timetable"])].

Definition staffed_school : state :=
  State {[ "token-head" := head_session ]}
        (<["u1" := teacher]> (<["u2" := head_teacher]> {[ "u3" := pupil ]}))
        (<["roles/teacher" := teacher_config]> (documents school))
        [].

Definition monday : value := VObj [("monday", VArr [VStr "maths"; VStr "art"])].

Definition timetable_request : request :=
  bearer "token-head" [("class_id", VStr "FirstA"); ("weekdays", monday)].

Definition class_query : object := [("class_id", VStr "FirstA")].

(** No write of a document fails. *)
Definition set_succeeds : string -> bool := fun _ => false.

(** An environment in which only the write of a new session fails. *)
Definition failing_session_write : env :=
  Env (fun c => match c with SetSession _ => true | _ => false end)
      1000 1000 "token-a".

(** The school after the teacher has logged in. *)
Definition after_login : state :=
  snd (login (quiet 1000 "token-a") teacher_login school).

Definition new_password_request (newPassword : value) : request :=
  bearer "token-live" [("newPassword", newPassword)].

Definition fresh_login : request :=
  Request None
          [("email", VStr "teacher@jpschool.com"); ("password", VStr "fresh")].

Definition public_reset_request : request :=
  Request None
          [("email", VStr "teacher@jpschool.com"); ("newPassword", VStr "fresh")].

(** What the aggregator lists for the teacher. *)
Definition teacher_entries : list value :=
  match fst (fetchEnrolledClassesWithParents (quiet 0 "") "u1" school) with
  | inr entries => entries
  | inl _ => []
  end.

Definition maths_entry : value :=
  VObj [("id", VStr "maths");
        ("refPath", VStr "school/school1/classes/FirstA/subjects/maths");
        ("title", VStr "Maths");
        ("parentClass", VObj [("id", VStr "FirstA"); ("name", VStr "First A")])].

(** [t] is the second word of the header [h]: [h] is a word without a
    space, one space, [t] (which has no space and may be empty), and
    then nothing or a space and anything. *)
Definition second_word (h t : string) : Prop :=
  exists scheme more,
    has_char " " scheme = false /\ has_char " " t = false
    /\ (more = "" \/ exists rest, more = " " +:+ rest)
    /\ h = scheme +:+ " " +:+ t +:+ more.

(** An environment in which only the batch commit fails. *)
Definition failing_batch : env :=
  Env (fun c => match c with CommitBatch _ => true | _ => false end)
      1000 1000 "token-a".

(** One login of the teacher, alone, on the school with sessions on
    record. *)
Definition lone_login : state * list process :=
  (school_open, [Process (quiet 1000 "token-a") (LoginStart teacher_login)]).

(** The commit step of that login: the batch holds the teacher's active
    sessions. *)
Definition commit_step (E : env) : (exn + login_pc) * state :=
  login_step E (LoginCommit "u1" teacher (active_sessions_of "u1" school_open))
    school_open.

(* ===================================================================== *)
(** ** The reference handles of the storage client *)
(* ===================================================================== *)










(* ===================================================================== *)
(** * Properties *)
(* ===================================================================== *)

(** ** Splitting and joining *)

Lemma split_no_sep sep s : has_char sep s = false -> split sep s = [s].
Proof.
  induction s as [|c rest IH]; simpl; [done|].
  intros Hc. apply orb_false_iff in Hc as [Hc Hrest].
  rewrite Hc, (IH Hrest). done.
Qed.

Lemma split_app_sep sep a b :
  has_char sep a = false ->
  split sep (a +:+ String sep b) = a :: split sep b.
Proof.
  induction a as [|c rest IH]; simpl.
  - intros _. by rewrite Ascii.eqb_refl.
  - intros Hc. apply orb_false_iff in Hc as [Hc Hrest].
    rewrite Hc, (IH Hrest). done.
Qed.

Lemma split_pieces sep s :
  Forall (fun x => has_char sep x = false) (split sep s).
Proof.
  induction s as [|c rest IH]; simpl.
  - by repeat constructor.
  - destruct (Ascii.eqb c sep) eqn:Hc.
    + by constructor.
    + destruct (split sep rest) as [|seg segs].
      * repeat constructor. simpl. by rewrite Hc.
      * inversion IH as [|? ? Hseg Hsegs]; subst.
        constructor; [|done]. simpl. by rewrite Hc, Hseg.
Qed.

Lemma join_cons sep x y l :
  join (String sep "") (x :: y :: l) = x +:+ String sep (join (String sep "") (y :: l)).
Proof. reflexivity. Qed.

Lemma split_join sep l :
  l <> [] -> Forall (fun x => has_char sep x = false) l ->
  split sep (join (String sep "") l) = l.
Proof.
  induction l as [|x l IH]; [done|]. intros _ Hall.
  inversion Hall as [|? ? Hx Hl]; subst.
  destruct l as [|y l].
  - simpl. by apply split_no_sep.
  - rewrite join_cons, split_app_sep by done. f_equal. by apply IH.
Qed.

Lemma path_segments_pieces p :
  Forall (fun x => has_char "/" x = false /\ x <> "") (path_segments p).
Proof.
  unfold path_segments. pose proof (split_pieces "/" p) as Hall.
  induction Hall as [|x l Hx _ IH]; simpl; [constructor|].
  destruct (String.eqb_spec x "") as [->|Hne]; simpl; [done|].
  by constructor.
Qed.

Lemma filter_nonempty_id (l : list string) :
  Forall (fun x => has_char "/" x = false /\ x <> "") l ->
  List.filter (fun seg => negb (String.eqb seg "")) l = l.
Proof.
  induction 1 as [|x l [_ Hne] _ IH]; simpl; [done|].
  apply String.eqb_neq in Hne. by rewrite Hne, IH.
Qed.

Lemma path_segments_join l :
  Forall (fun x => has_char "/" x = false /\ x <> "") l ->
  path_segments (join "/" l) = l /\ path_segments ("/" +:+ join "/" l) = l.
Proof.
  intros Hall.
  assert (Hseg : path_segments (join "/" l) = l).
  { unfold path_segments. destruct l as [|x l]; [done|].
    rewrite (split_join "/" (x :: l)); [by apply filter_nonempty_id|done|].
    eapply Forall_impl; [done|]. by intros y [? _]. }
  split; [done|]. unfold path_segments in *. simpl. done.
Qed.

(** Normalising a path keeps its segments, and a second time changes
    nothing. *)
Lemma path_segments_normalize p :
  path_segments (normalize_path p) = path_segments p.
Proof. apply path_segments_join, path_segments_pieces. Qed.

Lemma append_assoc (a b c : string) : (a +:+ b) +:+ c = a +:+ (b +:+ c).
Proof.
  induction a as [|x a IH]; [reflexivity|].
  change (String x ((a +:+ b) +:+ c) = String x (a +:+ b +:+ c)).
  by rewrite IH.
Qed.

Lemma join_app_segments (a b : list string) :
  a <> [] -> b <> [] ->
  join "/" (a ++ b) = join "/" a +:+ "/" +:+ join "/" b.
Proof.
  induction a as [|x a IH]; [done|]. intros _ Hb.
  destruct a as [|y a].
  - destruct b as [|z b]; [done|]. reflexivity.
  - change ((x :: y :: a) ++ b) with (x :: (y :: a) ++ b).
    cbn [app]. rewrite !join_cons.
    change (y :: a ++ b) with ((y :: a) ++ b). rewrite IH by done.
    simpl. by rewrite !append_assoc.
Qed.

Lemma join_split sep s : join (String sep "") (split sep s) = s.
Proof.
  induction s as [|c rest IH]; [done|]. simpl.
  destruct (Ascii.eqb_spec c sep) as [->|Hne].
  - destruct (split sep rest) as [|seg segs] eqn:Hs.
    + by destruct rest.
    + rewrite join_cons. by rewrite IH.
  - destruct (split sep rest) as [|seg segs] eqn:Hs; [by destruct rest|].
    destruct segs as [|seg' segs].
    + simpl in *. by rewrite IH.
    + rewrite join_cons. rewrite join_cons in IH.
      change (String c seg +:+ String sep (join (String sep "") (seg' :: segs)))
        with (String c (seg +:+ String sep (join (String sep "") (seg' :: segs)))).
      by rewrite IH.
Qed.

(** ** The parent path and the subject path *)

(** ** Objects *)

Lemma get_field_set_field_eq k v o : get_field k (set_field k v o) = v.
Proof.
  induction o as [|[k' v'] o IH]; simpl.
  - by rewrite String.eqb_refl.
  - destruct (String.eqb k k') eqn:Hk; simpl; rewrite Hk; done.
Qed.

Lemma get_field_set_field_ne k k' v o :
  k <> k' -> get_field k (set_field k' v o) = get_field k o.
Proof.
  intros Hne. induction o as [|[k'' v''] o IH]; simpl.
  - apply String.eqb_neq in Hne. by rewrite Hne.
  - destruct (String.eqb k' k'') eqn:Hk; simpl.
    + apply String.eqb_eq in Hk as <-.
      apply String.eqb_neq in Hne. by rewrite Hne.
    + by rewrite IH.
Qed.

Lemma has_field_remove_field k o : has_field k (remove_field k o) = false.
Proof.
  induction o as [|[k' v'] o IH]; simpl; [done|].
  destruct (String.eqb k k') eqn:Hk; simpl; [done|]. by rewrite Hk.
Qed.

Lemma get_field_remove_field_eq k o : get_field k (remove_field k o) = VUndefined.
Proof.
  induction o as [|[k' v'] o IH]; simpl; [done|].
  destruct (String.eqb k k') eqn:Hk; simpl; [done|]. by rewrite Hk.
Qed.

Lemma get_field_remove_field_ne k k' o :
  k <> k' -> get_field k (remove_field k' o) = get_field k o.
Proof.
  intros Hne. induction o as [|[k'' v''] o IH]; simpl; [done|].
  destruct (String.eqb k' k'') eqn:Hk; simpl.
  - apply String.eqb_eq in Hk as <-.
    apply String.eqb_neq in Hne. by rewrite Hne.
  - by rewrite IH.
Qed.

Lemma remove_field_set_field k v o :
  remove_field k (set_field k v o) = remove_field k o.
Proof.
  induction o as [|[k' v'] o IH]; simpl.
  - by rewrite String.eqb_refl.
  - destruct (String.eqb k k') eqn:Hk; simpl; rewrite Hk; simpl; [done|].
    by rewrite IH.
Qed.

(** ** The reference resolver *)

(** The example of the function's documentation. *)
Example getParentClassRefPath_doc :
  getParentClassRefPath (VStr "/school/school1/classes/FirstA/subjects/maths")
  = inr (VStr "/school/school1/classes/FirstA").
Proof. vm_compute. reflexivity. Qed.

Lemma segments_index (l : list string) :
  (2 <= List.length l)%nat ->
  l !! (List.length l - 2)%nat = reverse l !! 1%nat.
Proof.
  intros Hl. rewrite reverse_lookup by lia. f_equal.
Qed.

Lemma segments_slice (l : list string) :
  take (List.length l - 2) l = reverse (drop 2 (reverse l)).
Proof. by rewrite drop_reverse, reverse_involutive. Qed.

Lemma truncate_path_spec (s : string) :
  truncate_path s = VStr (without_last_two s) /\ subject_shaped s
  \/ truncate_path s = VNull /\ ~ subject_shaped s.
Proof.
  unfold truncate_path, subject_shaped, without_last_two.
  destruct (Nat.leb 5 (List.length (path_segments s))) eqn:Hlen; simpl.
  - apply Nat.leb_le in Hlen.
    rewrite segments_index by lia. rewrite segments_slice.
    destruct (reverse (path_segments s) !! 1%nat) as [seg|] eqn:Hseg.
    + destruct (String.eqb seg "subjects") eqn:Hs.
      * apply String.eqb_eq in Hs as ->. left. done.
      * apply String.eqb_neq in Hs. right. split; [done|].
        intros [_ ?]. congruence.
    + right. split; [done|]. intros [_ ?]. congruence.
  - apply Nat.leb_gt in Hlen. right. split; [done|]. intros [? _]. lia.
Qed.

Lemma select_pathString_text (ref : value) :
  path_is_text ref ->
  select_pathString ref = VStr <$> designated_path ref
  \/ select_pathString ref = None /\
     forall p, designated_path ref = Some p -> path_segments p = [].
Proof.
  intros Htext. unfold path_is_text in Htext.
  destruct ref as [| |b|n|s|ms|ms|p|xs|fs];
    try (left; reflexivity).
  - left. simpl. by destruct (startsWith s "/").
  - unfold select_pathString. cbn [is_object prop_path andb designated_path].
    destruct (truthy (VStr p)) eqn:Hp; [by left|].
    right. split; [done|]. intros q [= <-].
    simpl in Hp. apply negb_false_iff, String.eqb_eq in Hp as ->. done.
  - unfold select_pathString. cbn [is_object prop_path andb designated_path] in *.
    destruct (truthy (get_field "path" fs)) eqn:Ht.
    + destruct (Htext eq_refl eq_refl) as [p ->]. by left.
    + right. split; [done|]. intros q Hq.
      destruct (get_field "path" fs); try done.
      injection Hq as <-. simpl in Ht.
      apply negb_false_iff, String.eqb_eq in Ht as ->. done.
Qed.

(** C3. What holds of the function apart from its defect. For every
    input whose [path], when the input is an object, is a string or
    falsy: [getParentClassRefPath] returns the path without its last two
    non-empty segments exactly when the input designates a path (a
    string that starts with "/", or the path of an object) of at least
    five non-empty segments whose second-to-last segment is "subjects";
    on every other such input it returns [null]; and it does not raise.
    The inputs left out are the objects whose [path] is a truthy
    non-string: there the function raises where its documentation
    promises [null]. *)
Theorem getParentClassRefPath_spec (ref : value) :
  path_is_text ref ->
  (forall out, getParentClassRefPath ref = inr (VStr out) <->
     exists path, designated_path ref = Some path /\ subject_shaped path
                  /\ out = without_last_two path)
  /\ (getParentClassRefPath ref = inr VNull <->
      ~ exists path, designated_path ref = Some path /\ subject_shaped path)
  /\ (exists v, getParentClassRefPath ref = inr v).
Proof.
  intros Htext. unfold getParentClassRefPath.
  destruct (select_pathString_text ref Htext) as [Hsel | [Hsel Hempty]];
    rewrite Hsel.
  - destruct (designated_path ref) as [path|] eqn:Hd; simpl.
    + destruct (truncate_path_spec path) as [[-> Hshape] | [-> Hshape]].
      * split; [|split]; [| |by eexists].
        -- intros out. split.
           ++ intros [= <-]. by exists path.
           ++ by intros (q & [= <-] & _ & ->).
        -- split; [done|]. intros Hno. exfalso. apply Hno. by exists path.
      * split; [|split]; [| |by eexists].
        -- intros out. split; [done|]. intros (q & [= <-] & Hq & _). done.
        -- split; [|done]. intros _ (q & [= <-] & Hq). done.
    + split; [|split]; [| |by eexists].
      * intros out. split; [done|]. by intros (q & ? & _).
      * split; [|done]. intros _ (q & ? & _). done.
  - split; [|split]; [| |by eexists].
    + intros out. split; [done|].
      intros (q & Hq & [Hlen _] & _). rewrite (Hempty q Hq) in Hlen.
      simpl in Hlen. lia.
    + split; [|done]. intros _ (q & Hq & [Hlen _]).
      rewrite (Hempty q Hq) in Hlen. simpl in Hlen. lia.
Qed.

(** ** Storage operations *)

Ltac unfold_monad :=
  repeat (progress (unfold bind, ret, raise, try_catch, lift, storage in *;
                    cbn beta iota zeta in *)).

Lemma firestore_eq_VStr v s : firestore_eq v (VStr s) = true <-> v = VStr s.
Proof.
  destruct v; simpl; try (split; [discriminate|discriminate]).
  rewrite String.eqb_eq. split; congruence.
Qed.

Lemma firestore_eq_VBool v b : firestore_eq v (VBool b) = true <-> v = VBool b.
Proof.
  destruct v; simpl; try (split; [discriminate|discriminate]).
  rewrite Bool.eqb_true_iff. split; congruence.
Qed.

Lemma is_active_for_spec userId d :
  is_active_for userId d = true <->
  get_field "userId" d = VStr userId /\ get_field "isActive" d = VBool true.
Proof.
  unfold is_active_for.
  rewrite andb_true_iff, firestore_eq_VStr, firestore_eq_VBool. done.
Qed.

Lemma deactivation_inactive E userId d :
  is_active_for userId (merge_fields (deactivation E) d) = false.
Proof.
  apply not_true_iff_false. rewrite is_active_for_spec. intros [_ Hact].
  unfold deactivation, merge_fields in Hact. simpl in Hact.
  rewrite get_field_set_field_ne in Hact by done.
  rewrite get_field_set_field_eq in Hact. done.
Qed.

Lemma flag_cleared_inactive userId d :
  is_active_for userId (merge_fields [("isActive", VBool false)] d) = false.
Proof.
  apply not_true_iff_false. rewrite is_active_for_spec. intros [_ Hact].
  unfold merge_fields in Hact. simpl in Hact.
  rewrite get_field_set_field_eq in Hact. done.
Qed.

Lemma filter_fst_not_in {A} (f : string * A -> bool) (l : list (string * A)) k :
  k ∉ l.*1 -> k ∉ (List.filter f l).*1.
Proof.
  induction l as [|[k' a] l IH]; simpl; [done|].
  rewrite not_elem_of_cons. intros [Hne Hk].
  destruct (f (k', a)); simpl; [|by apply IH].
  rewrite not_elem_of_cons. split; [done|by apply IH].
Qed.

Lemma filter_fst_NoDup {A} (f : string * A -> bool) (l : list (string * A)) :
  NoDup (l.*1) -> NoDup ((List.filter f l).*1).
Proof.
  induction l as [|[k a] l IH]; simpl; [done|].
  rewrite NoDup_cons. intros [Hk Hl].
  destruct (f (k, a)); simpl; [|by apply IH].
  apply NoDup_cons. split; [by apply filter_fst_not_in|by apply IH].
Qed.

Lemma elem_of_filter_bool {A} (f : A -> bool) (l : list A) x :
  x ∈ List.filter f l <-> x ∈ l /\ f x = true.
Proof. rewrite !list_elem_of_In. apply filter_In. Qed.

(** The documents the clean-up query returns. *)
Lemma elem_of_active_query userId (m : gmap string object) t d :
  (t, d) ∈ List.filter (fun td => is_active_for userId (snd td)) (map_to_list m)
  <-> m !! t = Some d /\ is_active_for userId d = true.
Proof. rewrite elem_of_filter_bool, elem_of_map_to_list. done. Qed.

(** A batch of the same update on distinct existing documents. *)
Lemma apply_updates_same (upd : object) (keys : list string) :
  forall m : gmap string object,
  NoDup keys ->
  (forall t, t ∈ keys -> is_Some (m !! t)) ->
  exists m',
    apply_updates (map (fun t => (t, upd)) keys) m = Some m'
    /\ forall t, m' !! t
                 = if decide (t ∈ keys) then merge_fields upd <$> m !! t
                   else m !! t.
Proof.
  induction keys as [|k ks IH]; intros m Hnd Hdom; cbn [apply_updates List.map].
  - exists m. split; [done|]. intros t. case_decide as Hin; [|done].
    by apply elem_of_nil in Hin.
  - apply NoDup_cons in Hnd as [Hk Hnd].
    destruct (Hdom k) as [d Hd]; [by left|]. rewrite Hd.
    destruct (IH (<[k := merge_fields upd d]> m) Hnd) as (m' & Hm' & Hlook).
    { intros t Ht. destruct (decide (k = t)) as [->|Hne].
      - rewrite lookup_insert_eq. by eexists.
      - rewrite lookup_insert_ne by done. apply Hdom. by right. }
    exists m'. split; [done|]. intros t. rewrite Hlook.
    destruct (decide (t = k)) as [->|Hne].
    + rewrite decide_False by done. rewrite decide_True by left.
      by rewrite lookup_insert_eq, Hd.
    + rewrite lookup_insert_ne by done.
      destruct (decide (t ∈ ks)) as [Hin|Hnin].
      * rewrite decide_True; [done|by right].
      * rewrite decide_False; [done|]. by apply not_elem_of_cons.
Qed.

Lemma map_fst_const {A B} (upd : B) (l : list (string * A)) :
  map (fun td => (fst td, upd)) l = map (fun t => (t, upd)) (l.*1).
Proof. induction l as [|[k a] l IH]; simpl; [done|]. by rewrite IH. Qed.

(** The batch that deactivates the active sessions of a user: it is
    applied whole, or it fails and nothing has changed. *)
Lemma batch_deactivate_spec E userId st r st' :
  batch_commit E
    (map (fun td => (fst td, deactivation E)) (active_sessions_of userId st)) st
  = (r, st') ->
  (exists e, r = inl e) /\ st' = st
  \/ r = inr tt
     /\ users st' = users st
     /\ documents st' = documents st
     /\ console st' = console st
     /\ forall t,
          sessions st' !! t
          = (fun d => if is_active_for userId d
                      then merge_fields (deactivation E) d else d)
              <$> sessions st !! t.
Proof.
  set (old := active_sessions_of userId st).
  assert (Hold : forall t d, (t, d) ∈ old <->
            sessions st !! t = Some d /\ is_active_for userId d = true).
  { intros t d. apply elem_of_active_query. }
  unfold batch_commit. unfold_monad.
  destruct (throws E (CommitBatch _)); unfold_monad.
  { intros [= <- <-]. left. split; [by eexists|done]. }
  rewrite map_fst_const.
  destruct (apply_updates_same (deactivation E) (old.*1) (sessions st))
    as (m' & -> & Hlook).
  { apply filter_fst_NoDup, NoDup_fst_map_to_list. }
  { intros t Ht. apply list_elem_of_fmap in Ht as ([t' d] & -> & Hin).
    apply Hold in Hin as [Hin _]. by eexists. }
  intros [= <- <-]. right. split; [done|]. repeat split; try done.
  intros t. simpl. rewrite Hlook.
  destruct (sessions st !! t) as [d|] eqn:Hd; simpl.
  - destruct (is_active_for userId d) eqn:Hact.
    + rewrite decide_True; [done|].
      apply list_elem_of_fmap. exists (t, d). split; [done|]. by apply Hold.
    + rewrite decide_False; [done|].
      intros Hin. apply list_elem_of_fmap in Hin as ([t' d'] & Heq & Hin).
      simpl in Heq. subst t'. apply Hold in Hin as [Hin Hact'].
      congruence.
  - by case_decide.
Qed.

Lemma no_active_query userId st :
  active_sessions_of userId st = [] -> no_active st userId.
Proof.
  intros Hq t (d & Hd & Hact).
  eapply elem_of_nil. rewrite <- Hq. by apply elem_of_active_query.
Qed.

(** What the clean-up does: it fails and leaves everything as it was,
    or it clears every session of the user that was active and nothing
    else. *)
Lemma cleanup_spec E userId st :
  (exists e, cleanupPreviousSessions E userId st = (inl e, st))
  \/ exists st',
       cleanupPreviousSessions E userId st = (inr tt, st')
       /\ users st' = users st
       /\ documents st' = documents st
       /\ console st' = console st
       /\ forall t,
            sessions st' !! t
            = (fun d => if is_active_for userId d
                        then merge_fields (deactivation E) d else d)
                <$> sessions st !! t.
Proof.
  unfold cleanupPreviousSessions, sessions_where_active. unfold_monad.
  destruct (throws E (QueryActiveSessions userId)); unfold_monad;
    [left; by eexists|].
  fold (active_sessions_of userId st).
  destruct (active_sessions_of userId st) as [|td old'] eqn:Hq.
  - right. exists st. repeat split; try done.
    intros t. destruct (sessions st !! t) as [d|] eqn:Hd; [|done]. simpl.
    destruct (is_active_for userId d) eqn:Hact; [|done].
    destruct (no_active_query _ _ Hq t). by exists d.
  - rewrite <- Hq.
    destruct (batch_commit E _ st) as [r st'] eqn:Hrun.
    apply batch_deactivate_spec in Hrun
      as [[[e ->] ->] | (-> & Hu & Hd & Hc & Hlook)].
    + left. by eexists.
    + right. by exists st'.
Qed.

(** ** Active sessions under the storage operations *)

Lemma no_new_active_refl st : no_new_active st st.
Proof. by intros u t. Qed.

Lemma no_new_active_trans st1 st2 st3 :
  no_new_active st1 st2 -> no_new_active st2 st3 -> no_new_active st1 st3.
Proof. intros H12 H23 u t Ht. by apply H12, H23. Qed.

Lemma single_active_shrink st st' :
  no_new_active st st' -> single_active st -> single_active st'.
Proof. intros Hsh Hone u t1 t2 H1 H2. apply (Hone u); by apply Hsh. Qed.

(** Overwriting a session by a document that is active for nobody. *)
Lemma insert_inactive_shrinks st t d' :
  (forall u, is_active_for u d' = false) ->
  no_new_active st (set_sessions (insert t d') st).
Proof.
  intros Hd' u t' (d & Hd & Hact). simpl in Hd.
  destruct (decide (t = t')) as [->|Hne].
  - rewrite lookup_insert_eq in Hd. injection Hd as <-. by rewrite Hd' in Hact.
  - rewrite lookup_insert_ne in Hd by done. by exists d.
Qed.

(** A state in which exactly the active sessions of the user have been
    deactivated. *)
Lemma deactivated_effect E userId st st' :
  (forall t,
     sessions st' !! t
     = (fun d => if is_active_for userId d
                 then merge_fields (deactivation E) d else d)
         <$> sessions st !! t) ->
  no_new_active st st'
  /\ no_active st' userId
  /\ forall t d, sessions st !! t = Some d ->
                 is_active_for userId d = true ->
                 exists d', sessions st' !! t = Some d'
                            /\ get_field "isActive" d' = VBool false.
Proof.
  intros Hlook.
  assert (Hinv : forall u t d, sessions st' !! t = Some d ->
            is_active_for u d = true ->
            sessions st !! t = Some d /\ is_active_for userId d = false).
  { intros u t d Hd Hact. rewrite Hlook in Hd.
    destruct (sessions st !! t) as [d0|] eqn:Hd0; [|done].
    cbn [fmap option_fmap option_map] in Hd.
    destruct (is_active_for userId d0) eqn:Hact0.
    - injection Hd as <-.
      pose proof (deactivation_inactive E u d0) as Hx.
      unfold deactivation, merge_fields in Hx. simpl in Hx. congruence.
    - by injection Hd as <-. }
  split; [|split].
  - intros u t (d & Hd & Hact). exists d. split; [|done]. by eapply Hinv.
  - intros t (d & Hd & Hact). destruct (Hinv _ _ _ Hd Hact). congruence.
  - intros t d Hd Hact. rewrite Hlook, Hd.
    cbn [fmap option_fmap option_map]. rewrite Hact.
    eexists. split; [done|].
    unfold deactivation, merge_fields. simpl.
    rewrite get_field_set_field_ne by done.
    apply get_field_set_field_eq.
Qed.

Lemma cleanup_effect E userId st r st' :
  cleanupPreviousSessions E userId st = (r, st') ->
  users st' = users st
  /\ no_new_active st st'
  /\ (r = inr tt -> no_active st' userId /\
        forall t d, sessions st !! t = Some d ->
                    is_active_for userId d = true ->
                    exists d', sessions st' !! t = Some d'
                               /\ get_field "isActive" d' = VBool false)
  /\ ((exists e, r = inl e) -> st' = st).
Proof.
  intros Hrun.
  destruct (cleanup_spec E userId st)
    as [[e He] | (st1 & Hst1 & Hu & _ & _ & Hlook)]; rewrite Hrun in *.
  - injection He as -> ->. repeat split; try done.
    apply no_new_active_refl.
  - injection Hst1 as -> ->.
    destruct (deactivated_effect _ _ _ _ Hlook) as (Hsh & Hno & Hold).
    split; [done|]. split; [done|]. split; [done|]. by intros [e He].
Qed.

Lemma new_session_active E userId u :
  is_active_for u (new_session E userId) = true <-> u = userId.
Proof.
  rewrite is_active_for_spec. unfold new_session. simpl.
  split; [intros [[= ->] _]; done | intros ->; done].
Qed.

(** Writing the new session when the user has no active one. *)
Lemma create_effect E userId st :
  let st' := set_sessions (insert (uuidv4 E) (new_session E userId)) st in
  no_active st userId ->
  (single_active st -> single_active st')
  /\ (forall t, active_session st' userId t <-> t = uuidv4 E).
Proof.
  intros st' Hno.
  assert (Hcases : forall u t, active_session st' u t ->
            t = uuidv4 E /\ u = userId
            \/ t <> uuidv4 E /\ active_session st u t).
  { intros u t (d & Hd & Hact). simpl in Hd.
    destruct (decide (uuidv4 E = t)) as [<-|Hne].
    - rewrite lookup_insert_eq in Hd. injection Hd as <-.
      apply new_session_active in Hact. by left.
    - rewrite lookup_insert_ne in Hd by done. right. split; [done|].
      by exists d. }
  split.
  - intros Hone u t1 t2 H1 H2.
    destruct (Hcases u t1 H1) as [[Ht1 Hu1] | [Hne1 Ha1]],
             (Hcases u t2 H2) as [[Ht2 Hu2] | [Hne2 Ha2]]; subst.
    + done.
    + by destruct (Hno t2).
    + by destruct (Hno t1).
    + by apply (Hone u).
  - intros t. split.
    + intros Ht. destruct (Hcases _ _ Ht) as [[-> _] | [_ Ha]]; [done|].
      by destruct (Hno t).
    + intros ->. exists (new_session E userId). split.
      * simpl. apply lookup_insert_eq.
      * by apply new_session_active.
Qed.

(** ** Login *)

Lemma users_where_email_state E email st r st' :
  users_where_email E email st = (r, st') -> st' = st.
Proof.
  unfold users_where_email. unfold_monad.
  destruct (throws E _); unfold_monad; by intros [= _ <-].
Qed.

Lemma users_where_email_found E email st userId user rest st' :
  users_where_email E email st = (inr ((userId, user) :: rest), st') ->
  users st !! userId = Some user.
Proof.
  unfold users_where_email. unfold_monad.
  destruct (throws E _); unfold_monad; [done|]. intros [= Hq _].
  assert (Hin : (userId, user) ∈ take 1
            (List.filter (fun ud => firestore_eq (get_field "email" (snd ud)) email)
               (map_to_list (users st)))).
  { rewrite Hq. by left. }
  apply elem_of_take in Hin as (i & Hin & _).
  apply list_elem_of_lookup_2 in Hin.
  apply elem_of_filter_bool in Hin as [Hin _].
  by apply elem_of_map_to_list in Hin.
Qed.

(** The runs of /login: it answers without having written anything, or
    it cleared the old sessions of the selected user and then either
    failed to write the new one or wrote it and answered 200. *)
Lemma login_spec E req st :
  exists resp st',
    login E req st = (inr resp, st')
    /\ (st' = st /\ status resp <> 200%nat /\ In resp login_rejections
        \/ exists userId user st1,
             users st !! userId = Some user
             /\ cleanupPreviousSessions E userId st = (inr tt, st1)
             /\ (resp = login_failure /\ st' = st1
                 \/ resp = login_success E userId user
                    /\ st' = set_sessions
                               (insert (uuidv4 E) (new_session E userId)) st1)).
Proof.
  unfold login.
  destruct (negb (truthy (get_field "email" (req_body req)))
            || negb (truthy (get_field "password" (req_body req)))).
  { eexists _, _. split; [reflexivity|]. left. split; [done|]. split; [done|]. simpl. tauto. }
  unfold try_catch at 1. unfold bind at 1.
  destruct (users_where_email E _ st) as [[e|snapshot] st0] eqn:Hq;
    pose proof (users_where_email_state _ _ _ _ _ Hq) as ->.
  { eexists _, _. split; [reflexivity|]. left. split; [done|]. split; [done|]. simpl. tauto. }
  destruct snapshot as [|[userId user] rest].
  { eexists _, _. split; [reflexivity|]. left. split; [done|]. split; [done|]. simpl. tauto. }
  destruct (negb (strict_eq _ _)).
  { eexists _, _. split; [reflexivity|]. left. split; [done|]. split; [done|]. simpl. tauto. }
  unfold bind at 1.
  destruct (cleanupPreviousSessions E userId st) as [[e|[]] st1] eqn:Hclean.
  { destruct (cleanup_effect _ _ _ _ _ Hclean) as (_ & _ & _ & Hst).
    rewrite Hst by by eexists.
    eexists _, _. split; [reflexivity|]. left. split; [done|]. split; [done|]. simpl. tauto. }
  unfold sessions_set. unfold_monad.
  destruct (throws E (SetSession (uuidv4 E))); unfold_monad.
  - eexists _, _. split; [reflexivity|]. right.
    exists userId, user, st1.
    split; [by eapply users_where_email_found|]. split; [done|]. by left.
  - eexists _, _. split; [reflexivity|]. right.
    exists userId, user, st1.
    split; [by eapply users_where_email_found|]. split; [done|]. by right.
Qed.

(** /login keeps the sessions at most one active per user. *)
Lemma login_single_active E req st :
  single_active st -> single_active (snd (login E req st)).
Proof.
  intros Hone.
  destruct (login_spec E req st) as (resp & st' & -> & Hcases). simpl.
  destruct Hcases as [[-> _] | (userId & user & st1 & _ & Hclean & Hrest)]; [done|].
  destruct (cleanup_effect _ _ _ _ _ Hclean) as (_ & Hsh & Hno & _).
  destruct (Hno eq_refl) as [Hno1 _].
  pose proof (single_active_shrink _ _ Hsh Hone) as Hone1.
  destruct Hrest as [[_ ->] | [_ ->]]; [done|].
  by apply create_effect.
Qed.

(** ** The authentication guard *)

Lemma strict_eq_false_flag v : strict_eq v (VBool false) = true <-> v = VBool false.
Proof.
  destruct v; simpl; try (split; discriminate).
  destruct b; simpl; split; congruence.
Qed.

Lemma bearer_token_cases h :
  truthy (bearer_token h) = false
  \/ exists t, bearer_token h = VStr t /\ t <> "".
Proof.
  destruct (truthy (bearer_token h)) eqn:Ht; [right|by left].
  unfold bearer_token in *. destruct h as [h|]; [|done].
  destruct (truthy (VStr h)) eqn:Hh; [|congruence].
  destruct (split " " h !! 1%nat) as [t|]; [|done].
  exists t. split; [done|]. simpl in Ht.
  apply negb_true_iff, String.eqb_neq in Ht. done.
Qed.

Lemma presents_truthy req t : presents req t -> truthy (bearer_token (authorization req)) = true.
Proof.
  intros [-> Hne]. simpl. apply negb_true_iff, String.eqb_neq. done.
Qed.

Lemma collection_doc_text t st : t <> "" -> collection_doc (VStr t) st = (inr t, st).
Proof. intros Hne. simpl. apply String.eqb_neq in Hne. by rewrite Hne. Qed.

(** The user lookup under the guard's catch. *)
Lemma load_user_spec E session st :
  let run := try_catch (load_user E session)
               (fun _ => ret (guard_response 500
                  "Internal server error during authentication.")) st in
  (forall uid, looks_up E session uid ->
     run = match users st !! uid with
           | None => (inr (guard_response 404 "User not found."), st)
           | Some user => (inr (inr (Identity user uid)), st)
           end)
  /\ ((forall uid, ~ looks_up E session uid) ->
      run = (inr (guard_response 500
                    "Internal server error during authentication."), st)).
Proof.
  unfold load_user, looks_up. split.
  - intros uid (-> & Hne & Hth). unfold users_get. unfold_monad.
    rewrite collection_doc_text by done. unfold_monad. rewrite Hth. unfold_monad.
    by destruct (users st !! uid).
  - intros Hno. unfold_monad.
    destruct (get_field "userId" session) as [| | | |uid| | | | |] eqn:Hu;
      try reflexivity.
    simpl. destruct (String.eqb_spec uid "") as [->|Hne]; [done|].
    unfold users_get. unfold_monad.
    destruct (throws E (GetUser uid)) eqn:Hth; [done|].
    by destruct (Hno uid).
Qed.

(** The guard from the session on, for a session found under the
    token. *)
Lemma guard_found E req st t session :
  finds E req st t session ->
  authenticateToken E req st
  = if strict_eq (get_field "isActive" session) (VBool false) then
      (inr (guard_response 403 "Session expired or invalidated."), st)
    else
      try_catch
        (let* is_expired := check_expiry E t session in
         if is_expired then
           ret (guard_response 403 "Session expired due to inactivity.")
         else load_user E session)
        (fun _ => ret (guard_response 500
                         "Internal server error during authentication.")) st.
Proof.
  intros (Hp & Hth & Hs). pose proof (presents_truthy _ _ Hp) as Htr.
  destruct Hp as [Htok Hne].
  unfold authenticateToken. rewrite Htr. cbn [negb].
  unfold try_catch at 1. unfold bind at 1. rewrite Htok.
  rewrite collection_doc_text by done.
  unfold bind at 1. unfold sessions_get. unfold_monad. rewrite Hth.
  unfold_monad. rewrite Hs.
  by destruct (strict_eq _ _).
Qed.

Lemma check_expiry_expired E t session st :
  expired E session -> sessions st !! t = Some session ->
  check_expiry E t session st
  = if throws E (UpdateSession t)
    then (inl (Error "storage failure"), st)
    else (inr true, expire_session t session st).
Proof.
  intros (x & Hx & Hlt) Hs. unfold check_expiry. rewrite Hx.
  apply Z.ltb_lt in Hlt. rewrite Hlt.
  unfold sessions_update. unfold_monad.
  destruct (throws E (UpdateSession t)); unfold_monad; [done|].
  by rewrite Hs.
Qed.

Lemma check_expiry_fresh E t session st :
  ~ expired E session -> check_expiry E t session st = (inr false, st).
Proof.
  intros Hne. unfold check_expiry.
  destruct (get_field "expiresAt" session) as [| | | | |x| | | |] eqn:Hx;
    try reflexivity.
  destruct (Z.ltb_spec x (now E)) as [Hlt|Hge]; [|done].
  destruct Hne. by exists x.
Qed.

Lemma guard_admitted E req st t session :
  admitted E req st t session ->
  authenticateToken E req st
  = try_catch (load_user E session)
      (fun _ => ret (guard_response 500
                       "Internal server error during authentication.")) st.
Proof.
  intros (Hf & Hlive & Hfresh). rewrite (guard_found _ _ _ _ _ Hf).
  destruct (strict_eq _ _) eqn:Hflag.
  { apply strict_eq_false_flag in Hflag. by destruct Hlive. }
  unfold try_catch at 1. unfold bind at 1.
  rewrite check_expiry_fresh by done. reflexivity.
Qed.

Lemma guard_missing_session E req st t :
  presents req t -> throws E (GetSession t) = false ->
  sessions st !! t = None ->
  authenticateToken E req st = (inr (guard_response 403 "Invalid token."), st).
Proof.
  intros Hp Hth Hs. pose proof (presents_truthy _ _ Hp) as Htr.
  destruct Hp as [Htok Hne]. unfold authenticateToken. rewrite Htr. cbn [negb].
  unfold try_catch at 1. unfold bind at 1. rewrite Htok.
  rewrite collection_doc_text by done.
  unfold bind at 1. unfold sessions_get. unfold_monad. rewrite Hth.
  unfold_monad. by rewrite Hs.
Qed.

Lemma guard_invalidated_session E req st t session :
  finds E req st t session ->
  get_field "isActive" session = VBool false ->
  authenticateToken E req st
  = (inr (guard_response 403 "Session expired or invalidated."), st).
Proof.
  intros Hf Hflag. rewrite (guard_found _ _ _ _ _ Hf).
  apply strict_eq_false_flag in Hflag. by rewrite Hflag.
Qed.

(** C2. The guard answers in a fixed order, stopping at the first
    failure: no bearer token, 401; no session under the token, 403; the
    active flag is [false], 403; the session has a [Timestamp] expiry in
    the past, 403 and the session's active flag is set to [false]; the
    owning user is absent, 404; otherwise the user record and its id are
    attached. A storage call that raises at any of these stages gives
    500; the guard itself never raises. *)
Theorem authenticateToken_order E req st :
  (exists g st', authenticateToken E req st = (inr g, st'))
  /\ (truthy (bearer_token (authorization req)) = false ->
      authenticateToken E req st
      = (inr (guard_response 401 "Authorization token required."), st))
  /\ (forall t, presents req t -> throws E (GetSession t) = false ->
      sessions st !! t = None ->
      authenticateToken E req st = (inr (guard_response 403 "Invalid token."), st))
  /\ (forall t session, finds E req st t session ->
      get_field "isActive" session = VBool false ->
      authenticateToken E req st
      = (inr (guard_response 403 "Session expired or invalidated."), st))
  /\ (forall t session, finds E req st t session ->
      not_invalidated session -> expired E session ->
      throws E (UpdateSession t) = false ->
      exists st' session',
        authenticateToken E req st
        = (inr (guard_response 403 "Session expired due to inactivity."), st')
        /\ sessions st' !! t = Some session'
        /\ get_field "isActive" session' = VBool false
        /\ (forall k, k <> "isActive" ->
              get_field k session' = get_field k session)
        /\ (forall t', t' <> t -> sessions st' !! t' = sessions st !! t')
        /\ users st' = users st /\ documents st' = documents st)
  /\ (forall t session uid, admitted E req st t session ->
      looks_up E session uid -> users st !! uid = None ->
      authenticateToken E req st = (inr (guard_response 404 "User not found."), st))
  /\ (forall t session uid user, admitted E req st t session ->
      looks_up E session uid -> users st !! uid = Some user ->
      authenticateToken E req st = (inr (inr (Identity user uid)), st))
  /\ (forall t, presents req t -> throws E (GetSession t) = true ->
      authenticateToken E req st
      = (inr (guard_response 500 "Internal server error during authentication."), st))
  /\ (forall t session, finds E req st t session ->
      not_invalidated session -> expired E session ->
      throws E (UpdateSession t) = true ->
      authenticateToken E req st
      = (inr (guard_response 500 "Internal server error during authentication."), st))
  /\ (forall t session, admitted E req st t session ->
      (forall uid, ~ looks_up E session uid) ->
      authenticateToken E req st
      = (inr (guard_response 500 "Internal server error during authentication."), st)).
Proof.
  split; [|split; [|split; [|split; [|split; [|split; [|split; [|split; [|split]]]]]]]].
  - unfold authenticateToken, try_catch.
    match goal with |- context [match ?m st with _ => _ end] =>
      destruct (m st) as [[e|g] st'] end; by eexists _, _.
  - intros Htok. unfold authenticateToken. by rewrite Htok.
  - intros t. apply guard_missing_session.
  - intros t session. apply guard_invalidated_session.
  - intros t session Hf Hlive Hexp Hth. rewrite (guard_found _ _ _ _ _ Hf).
    destruct (strict_eq _ _) eqn:Hflag.
    { apply strict_eq_false_flag in Hflag. by destruct Hlive. }
    unfold try_catch at 1. unfold bind at 1.
    rewrite check_expiry_expired by (done || apply Hf). rewrite Hth.
    eexists _, _. split; [reflexivity|].
    unfold expire_session. cbn [sessions users documents set_sessions].
    split; [apply lookup_insert_eq|].
    change (merge_fields [("isActive", VBool false)] session)
      with (set_field "isActive" (VBool false) session).
    split; [apply get_field_set_field_eq|].
    split; [intros k Hk; by apply get_field_set_field_ne|].
    split; [|done]. intros t' Hne. by rewrite lookup_insert_ne.
  - intros t session uid Ha Hl Hu. rewrite (guard_admitted _ _ _ _ _ Ha).
    rewrite (proj1 (load_user_spec E session st) uid Hl). by rewrite Hu.
  - intros t session uid user Ha Hl Hu. rewrite (guard_admitted _ _ _ _ _ Ha).
    rewrite (proj1 (load_user_spec E session st) uid Hl). by rewrite Hu.
  - intros t Hp Hth. pose proof (presents_truthy _ _ Hp) as Htr.
    destruct Hp as [Htok Hne]. unfold authenticateToken. rewrite Htr. cbn [negb].
    unfold try_catch at 1. unfold bind at 1. rewrite Htok.
    rewrite collection_doc_text by done.
    unfold bind at 1. unfold sessions_get. unfold_monad. by rewrite Hth.
  - intros t session Hf Hlive Hexp Hth. rewrite (guard_found _ _ _ _ _ Hf).
    destruct (strict_eq _ _) eqn:Hflag.
    { apply strict_eq_false_flag in Hflag. by destruct Hlive. }
    unfold try_catch at 1. unfold bind at 1.
    rewrite check_expiry_expired by (done || apply Hf). by rewrite Hth.
  - intros t session Ha Hno. rewrite (guard_admitted _ _ _ _ _ Ha).
    by apply load_user_spec.
Qed.

(** ** What the guard does to the database *)

Lemma collection_doc_state id st r st' :
  collection_doc id st = (r, st') -> st' = st.
Proof.
  unfold collection_doc. destruct id; unfold_monad; try by intros [= _ <-].
  destruct (String.eqb s ""); by intros [= _ <-].
Qed.

Lemma sessions_get_spec E t st r st' :
  sessions_get E t st = (r, st') ->
  st' = st /\ forall o, r = inr o -> o = sessions st !! t.
Proof.
  unfold sessions_get. unfold_monad.
  destruct (throws E _); unfold_monad; intros [= <- <-]; split; try done.
  by intros o [= <-].
Qed.

Lemma users_get_spec E uid st r st' :
  users_get E uid st = (r, st') ->
  st' = st /\ forall o, r = inr o -> o = users st !! uid.
Proof.
  unfold users_get. unfold_monad.
  destruct (throws E _); unfold_monad; intros [= <- <-]; split; try done.
  by intros o [= <-].
Qed.

Lemma sessions_update_spec E t fields st r st' :
  sessions_update E t fields st = (r, st') ->
  (exists e, r = inl e) /\ st' = st
  \/ r = inr tt /\ exists d, sessions st !! t = Some d
       /\ st' = set_sessions (insert t (merge_fields fields d)) st.
Proof.
  unfold sessions_update. unfold_monad.
  destruct (throws E _); unfold_monad.
  - intros [= <- <-]. left. split; [by eexists|done].
  - destruct (sessions st !! t) as [d|] eqn:Hd; intros [= <- <-].
    + right. split; [done|]. by exists d.
    + left. split; [by eexists|done].
Qed.

Lemma check_expiry_effect E t session st r st' :
  check_expiry E t session st = (r, st') ->
  users st' = users st
  /\ documents st' = documents st
  /\ no_new_active st st'
  /\ (r <> inr true -> st' = st).
Proof.
  unfold check_expiry.
  destruct (get_field "expiresAt" session);
    try (unfold_monad; intros [= <- <-]; repeat split; try done;
         apply no_new_active_refl).
  destruct (Z.ltb millis (now E)).
  - unfold bind.
    destruct (sessions_update E t _ st) as [r0 st1] eqn:Hup.
    apply sessions_update_spec in Hup
      as [[[e ->] ->] | [-> (d & Hd & ->)]]; unfold_monad;
      intros [= <- <-]; repeat split; try done;
      try apply no_new_active_refl.
    apply insert_inactive_shrinks. intros u. apply flag_cleared_inactive.
  - unfold_monad. intros [= <- <-]. repeat split; try done.
    apply no_new_active_refl.
Qed.

Lemma load_user_effect E session st r st' :
  load_user E session st = (r, st') ->
  st' = st
  /\ forall ident, r = inr (inr ident) ->
       users st !! req_userId ident = Some (req_user ident).
Proof.
  unfold load_user. unfold bind at 1.
  destruct (collection_doc _ st) as [[e|uid] st0] eqn:Hdoc;
    apply collection_doc_state in Hdoc as ->.
  { by intros [= <- <-]. }
  unfold bind at 1.
  destruct (users_get E uid st) as [[e|userDoc] st0] eqn:Hget;
    apply users_get_spec in Hget as [-> Hdoc].
  { by intros [= <- <-]. }
  rewrite (Hdoc _ eq_refl).
  destruct (users st !! uid) as [user|] eqn:Hu; unfold_monad;
    intros [= <- <-]; split; try done.
  by intros ident [= <-].
Qed.

(** The guard always answers; it creates no active session, leaves the
    users and documents alone, and when it lets the request through it
    has changed nothing and attached a stored user. *)
Lemma guard_effect E req st r st' :
  authenticateToken E req st = (r, st') ->
  (exists g, r = inr g)
  /\ users st' = users st
  /\ documents st' = documents st
  /\ no_new_active st st'
  /\ forall ident, r = inr (inr ident) ->
       st' = st /\ users st !! req_userId ident = Some (req_user ident).
Proof.
  unfold authenticateToken.
  destruct (negb (truthy (bearer_token (authorization req)))).
  { unfold_monad. intros [= <- <-]. repeat split; try done;
      [by eexists|apply no_new_active_refl]. }
  unfold try_catch at 1. unfold bind at 1.
  destruct (collection_doc _ st) as [[e|tokenId] st0] eqn:Hdoc;
    apply collection_doc_state in Hdoc as ->.
  { unfold_monad. intros [= <- <-]. repeat split; try done;
      [by eexists|apply no_new_active_refl]. }
  unfold bind at 1.
  destruct (sessions_get E tokenId st) as [[e|sessionDoc] st0] eqn:Hget;
    apply sessions_get_spec in Hget as [-> _].
  { unfold_monad. intros [= <- <-]. repeat split; try done;
      [by eexists|apply no_new_active_refl]. }
  destruct sessionDoc as [session|].
  2:{ unfold_monad. intros [= <- <-]. repeat split; try done;
      [by eexists|apply no_new_active_refl]. }
  destruct (strict_eq _ _).
  { unfold_monad. intros [= <- <-]. repeat split; try done;
      [by eexists|apply no_new_active_refl]. }
  unfold bind at 1.
  destruct (check_expiry E tokenId session st) as [[e|is_expired] st1] eqn:Hexp;
    pose proof (check_expiry_effect _ _ _ _ _ _ Hexp) as (Hu & Hd & Hsh & Hsame).
  { unfold_monad. intros [= <- <-]. repeat split; try done. by eexists. }
  destruct is_expired.
  { unfold_monad. intros [= <- <-]. repeat split; try done. by eexists. }
  rewrite Hsame in * by done.
  destruct (load_user E session st) as [[e|g] st2] eqn:Hload;
    pose proof (load_user_effect _ _ _ _ _ Hload) as [-> Hident].
  { unfold_monad. intros [= <- <-]. repeat split; try done. by eexists. }
  intros [= <- <-]. split; [by eexists|]. do 3 (split; [done|]).
  intros ident [= ->]. split; [done|by apply Hident].
Qed.

(** ** Logout *)

(** The handler behind the guard answers 200 whatever happens to the
    update, and creates no active session. *)
Lemma logout_handler_spec E req ident st :
  exists r st',
    logout_handler E req ident st = (inr r, st')
    /\ status r = 200%nat
    /\ no_new_active st st'
    /\ users st' = users st.
Proof.
  unfold logout_handler. unfold try_catch, bind.
  destruct (collection_doc _ st) as [[e|tokenId] st0] eqn:Hdoc;
    apply collection_doc_state in Hdoc as ->.
  { eexists _, _. split; [reflexivity|]. repeat split; try done.
    apply no_new_active_refl. }
  destruct (sessions_update E tokenId _ st) as [r0 st1] eqn:Hup.
  apply sessions_update_spec in Hup as [[[e ->] ->] | [-> (d & Hd & ->)]].
  - eexists _, _. split; [reflexivity|]. repeat split; try done.
    apply no_new_active_refl.
  - eexists _, _. split; [reflexivity|]. repeat split; try done.
    apply insert_inactive_shrinks. intros u. apply (deactivation_inactive E).
Qed.

(** C5, as amended. Whenever the authentication guard admits the
    request, /logout answers 200, also when marking the session
    inactive fails. When no session is stored under the token, or the
    session's active flag is already [false], the guard answers 403 and
    the logout handler does not run. *)
Theorem logout_after_guard E req st :
  (forall ident st1, authenticateToken E req st = (inr (inr ident), st1) ->
     exists r st', logout E req st = (inr r, st') /\ status r = 200%nat)
  /\ (forall t, presents req t -> throws E (GetSession t) = false ->
      sessions st !! t = None ->
      logout E req st = (inr (Response 403 (error_body "Invalid token.")), st))
  /\ (forall t session, finds E req st t session ->
      get_field "isActive" session = VBool false ->
      logout E req st
      = (inr (Response 403 (error_body "Session expired or invalidated.")), st)).
Proof.
  unfold logout, authenticated, bind. split; [|split].
  - intros ident st1 ->.
    destruct (logout_handler_spec E req ident st1) as (r & st' & -> & Hr & _).
    by exists r, st'.
  - intros t Hp Hth Hs. by rewrite (guard_missing_session E req st t).
  - intros t session Hf Hflag.
    by rewrite (guard_invalidated_session E req st t session).
Qed.

(** ** Sessions with a malformed active flag or expiry *)

Lemma load_user_answers E session st :
  exists g,
    try_catch (load_user E session)
      (fun _ => ret (guard_response 500
                       "Internal server error during authentication.")) st
    = (inr g, st)
    /\ (g = guard_response 500 "Internal server error during authentication."
        \/ g = guard_response 404 "User not found."
        \/ exists ident, g = inr ident).
Proof.
  unfold try_catch.
  destruct (load_user E session st) as [[e|g] st'] eqn:Hload;
    pose proof (load_user_effect _ _ _ _ _ Hload) as [-> _].
  { eexists. split; [reflexivity|]. by left. }
  exists g. split; [done|].
  unfold load_user, bind in Hload.
  destruct (collection_doc _ st) as [[e|uid] st0]; [done|].
  destruct (users_get E uid st0) as [[e|[user|]] st1]; [done| |];
    unfold_monad; injection Hload as <- _; eauto.
Qed.

Lemma no_timestamp_not_expired E session :
  (forall x, get_field "expiresAt" session <> VTimestamp x) -> ~ expired E session.
Proof. intros Hno (x & Hx & _). by apply (Hno x). Qed.

(** C10. A session whose active flag is anything but the boolean
    [false] is not rejected as invalidated; a session whose expiry is
    absent or not a [Timestamp] is never rejected as expired, whatever
    the clock says; a session with both goes on to the user lookup. *)
Theorem guard_lenient E req st t session :
  finds E req st t session ->
  (not_invalidated session ->
   forall st', authenticateToken E req st
               <> (inr (guard_response 403 "Session expired or invalidated."), st'))
  /\ ((forall x, get_field "expiresAt" session <> VTimestamp x) ->
      forall st', authenticateToken E req st
                  <> (inr (guard_response 403 "Session expired due to inactivity."), st'))
  /\ (not_invalidated session ->
      (forall x, get_field "expiresAt" session <> VTimestamp x) ->
      authenticateToken E req st
      = try_catch (load_user E session)
          (fun _ => ret (guard_response 500
                           "Internal server error during authentication.")) st).
Proof.
  intros Hf. split; [|split].
  - intros Hlive st'. rewrite (guard_found _ _ _ _ _ Hf).
    destruct (strict_eq _ _) eqn:Hflag.
    { apply strict_eq_false_flag in Hflag. by destruct Hlive. }
    unfold try_catch at 1. unfold bind at 1.
    destruct (check_expiry E t session st) as [[e|[]] st1];
      try (unfold ret; discriminate).
    change (try_catch (load_user E session)
              (fun _ => ret (guard_response 500
                 "Internal server error during authentication.")) st1
            <> (inr (guard_response 403 "Session expired or invalidated."), st')).
    destruct (load_user_answers E session st1)
      as (g & -> & [-> | [-> | [ident ->]]]); discriminate.
  - intros Hno st'.
    destruct (strict_eq (get_field "isActive" session) (VBool false)) eqn:Hflag.
    + apply strict_eq_false_flag in Hflag.
      rewrite (guard_invalidated_session _ _ _ _ _ Hf Hflag). discriminate.
    + assert (Hlive : not_invalidated session).
      { intros Heq. apply strict_eq_false_flag in Heq. congruence. }
      rewrite (guard_admitted E req st t session)
        by (split; [done|split; [done|by apply no_timestamp_not_expired]]).
      destruct (load_user_answers E session st)
        as (g & -> & [-> | [-> | [ident ->]]]); discriminate.
  - intros Hlive Hno. apply (guard_admitted E req st t session).
    split; [done|split; [done|by apply no_timestamp_not_expired]].
Qed.

(** ** Read-only computations *)

Lemma same_db_refl st : same_db st st.
Proof. by repeat split. Qed.

Lemma same_db_trans st1 st2 st3 :
  same_db st1 st2 -> same_db st2 st3 -> same_db st1 st3.
Proof. intros (? & ? & ?) (? & ? & ?). repeat split; congruence. Qed.

Lemma same_db_no_new_active st st' : same_db st st' -> no_new_active st st'.
Proof. intros (Hs & _) u t (d & Hd & Hact). exists d. by rewrite <- Hs. Qed.

Lemma read_only_ret {A} (a : A) : read_only (ret a).
Proof. intros st r st' [= <- <-]. apply same_db_refl. Qed.

Lemma read_only_raise {A} e : read_only (@raise A e).
Proof. intros st r st' [= <- <-]. apply same_db_refl. Qed.

Lemma read_only_lift {A} (x : exn + A) : read_only (lift x).
Proof. intros st r st' [= <- <-]. apply same_db_refl. Qed.

Lemma read_only_bind {A B} (m : M A) (k : A -> M B) :
  read_only m -> (forall a, read_only (k a)) -> read_only (bind m k).
Proof.
  intros Hm Hk st r st'. unfold bind.
  destruct (m st) as [[e|a] st1] eqn:Hrun.
  - intros [= <- <-]. by eapply Hm.
  - intros Hrun'. eapply same_db_trans; [by eapply Hm|by eapply Hk].
Qed.

Lemma read_only_try_catch {A} (m : M A) (h : exn -> M A) :
  read_only m -> (forall e, read_only (h e)) -> read_only (try_catch m h).
Proof.
  intros Hm Hh st r st'. unfold try_catch.
  destruct (m st) as [[e|a] st1] eqn:Hrun.
  - intros Hrun'. eapply same_db_trans; [by eapply Hm|by eapply Hh].
  - intros [= <- <-]. by eapply Hm.
Qed.

Lemma read_only_storage E c : read_only (storage E c).
Proof.
  unfold storage. destruct (throws E c);
    [apply read_only_raise|apply read_only_ret].
Qed.

Lemma read_only_console_warn w : read_only (console_warn w).
Proof. intros st r st' [= <- <-]. by repeat split. Qed.

Lemma read_only_users_get E uid : read_only (users_get E uid).
Proof.
  apply read_only_bind; [apply read_only_storage|].
  intros _ st r st' [= <- <-]. apply same_db_refl.
Qed.

Lemma read_only_document_get E p : read_only (document_get E p).
Proof.
  apply read_only_bind; [apply read_only_storage|].
  intros _ st r st' [= <- <-]. apply same_db_refl.
Qed.

Lemma read_only_db_doc E p : read_only (db_doc E p).
Proof.
  apply read_only_bind; [apply read_only_storage|]. intros _. apply read_only_ret.
Qed.

Create HintDb read_only.

#[local] Hint Resolve read_only_ret read_only_raise read_only_lift
  read_only_storage read_only_console_warn read_only_users_get
  read_only_document_get read_only_db_doc : read_only.

Ltac read_only_step :=
  first [ solve [auto with read_only]
        | apply read_only_bind; [|intros ?]
        | apply read_only_try_catch; [|intros ?] ].

Lemma read_only_collect_ref E acc refItem : read_only (collect_ref E acc refItem).
Proof.
  unfold collect_ref. apply read_only_bind.
  - destruct refItem; auto with read_only.
    destruct (startsWith s "/"); [|auto with read_only].
    repeat read_only_step.
  - intros [subjectRef|]; [|repeat read_only_step]. unfold collect_subject.
    apply read_only_bind; [auto with read_only|]. intros parent.
    destruct parent; try (repeat read_only_step).
    destruct (truthy (VStr s)); repeat read_only_step.
Qed.

Lemma read_only_forEach {A B} (f : B -> A -> M B) xs :
  (forall acc x, read_only (f acc x)) -> forall acc, read_only (forEach f xs acc).
Proof.
  intros Hf. induction xs as [|x xs IH]; intros acc; simpl.
  - apply read_only_ret.
  - apply read_only_bind; [apply Hf|]. intros acc'. apply IH.
Qed.

Lemma read_only_promise_all E paths : read_only (promise_all E paths).
Proof.
  induction paths as [|p ps IH]; simpl; [apply read_only_ret|].
  repeat read_only_step.
Qed.

Lemma read_only_pair_loop snapshots :
  forall i refs out, read_only (pair_loop i snapshots refs out).
Proof.
  induction snapshots as [snapshots IH] using (induction_ltof1 _ (@List.length _)).
  unfold ltof in IH. intros i refs out.
  destruct snapshots as [|s [|c rest]]; simpl; try apply read_only_ret.
  apply read_only_bind.
  - destruct (snap_data s); [|repeat read_only_step].
    apply read_only_bind; [|intros ?; apply read_only_ret].
    destruct (snap_data c); repeat read_only_step.
  - intros out'. apply IH. simpl. lia.
Qed.

Lemma read_only_fetchEnrolled E uid :
  read_only (fetchEnrolledClassesWithParents E uid).
Proof.
  unfold fetchEnrolledClassesWithParents.
  apply read_only_bind; [auto with read_only|]. intros [userData|];
    [|auto with read_only].
  destruct (Nat.eqb _ 0); [auto with read_only|].
  apply read_only_bind.
  { apply read_only_forEach. intros. apply read_only_collect_ref. }
  intros acc. destruct (Nat.eqb _ 0); [auto with read_only|].
  apply read_only_bind; [apply read_only_promise_all|].
  intros snaps. apply read_only_pair_loop.
Qed.

Lemma read_only_classes_handler E req ident :
  read_only (classes_handler E req ident).
Proof.
  unfold classes_handler. apply read_only_try_catch.
  - apply read_only_bind; [apply read_only_fetchEnrolled|]. intros subjects.
    destruct (Nat.eqb _ 0); [|auto with read_only].
    apply read_only_bind; [auto with read_only|]. intros [userData|];
      [|auto with read_only].
    destruct (Nat.eqb _ 0); auto with read_only.
  - intros e. destruct (String.eqb _ _); auto with read_only.
Qed.

(** ** Answers of the guard and of the routes behind it *)

Lemma guard_rejection_listed E req st r st' :
  authenticateToken E req st = (inr (inl r), st') -> In r guard_rejections.
Proof.
  unfold authenticateToken.
  destruct (negb (truthy (bearer_token (authorization req)))).
  { unfold_monad. intros [= <- _]. simpl. tauto. }
  unfold try_catch at 1. unfold bind at 1.
  destruct (collection_doc _ st) as [[e|tokenId] st0].
  { unfold_monad. intros [= <- _]. simpl. tauto. }
  unfold bind at 1.
  destruct (sessions_get E tokenId st0) as [[e|[session|]] st1];
    try (unfold_monad; intros [= <- _]; simpl; tauto).
  destruct (strict_eq _ _).
  { unfold_monad. intros [= <- _]. simpl. tauto. }
  unfold bind at 1.
  destruct (check_expiry E tokenId session st1) as [[e|[]] st2];
    try (unfold_monad; intros [= <- _]; simpl; tauto).
  unfold load_user, bind.
  destruct (collection_doc _ st2) as [[e|uid] st3].
  { unfold_monad. intros [= <- _]. simpl. tauto. }
  destruct (users_get E uid st3) as [[e|[user|]] st4];
    unfold_monad; intros [= <- _] || intros [= _]; simpl; tauto.
Qed.

Lemma guard_rejection_status E req st r st' :
  authenticateToken E req st = (inr (inl r), st') -> status r <> 200%nat.
Proof.
  unfold authenticateToken.
  destruct (negb (truthy (bearer_token (authorization req)))).
  { unfold_monad. by intros [= <- _]. }
  unfold try_catch at 1. unfold bind at 1.
  destruct (collection_doc _ st) as [[e|tokenId] st0].
  { unfold_monad. by intros [= <- _]. }
  unfold bind at 1.
  destruct (sessions_get E tokenId st0) as [[e|[session|]] st1];
    try (unfold_monad; by intros [= <- _]).
  destruct (strict_eq _ _).
  { unfold_monad. by intros [= <- _]. }
  unfold bind at 1.
  destruct (check_expiry E tokenId session st1) as [[e|[]] st2];
    try (unfold_monad; by intros [= <- _]).
  unfold load_user, bind.
  destruct (collection_doc _ st2) as [[e|uid] st3].
  { unfold_monad. by intros [= <- _]. }
  destruct (users_get E uid st3) as [[e|[user|]] st4];
    unfold_monad; by intros [= <- _].
Qed.

(** A route behind the guard answers 200 only when the guard let the
    request through, and then the handler ran on the unchanged state. *)
Lemma authenticated_success E handler req st r st' :
  authenticated E handler req st = (inr r, st') -> status r = 200%nat ->
  exists ident,
    authenticateToken E req st = (inr (inr ident), st)
    /\ users st !! req_userId ident = Some (req_user ident)
    /\ handler req ident st = (inr r, st').
Proof.
  unfold authenticated, bind.
  destruct (authenticateToken E req st) as [g st1] eqn:Hg.
  destruct (guard_effect _ _ _ _ _ Hg) as ([g' ->] & _ & _ & _ & Hident).
  destruct g' as [r0|ident].
  - unfold ret. intros [= <- <-] Hst.
    by destruct (guard_rejection_status _ _ _ _ _ Hg).
  - destruct (Hident ident eq_refl) as [-> Hu]. intros Hrun _. by exists ident.
Qed.

Lemma authenticated_no_new_active E handler req st :
  (forall ident st1, no_new_active st1 (snd (handler req ident st1))) ->
  no_new_active st (snd (authenticated E handler req st)).
Proof.
  intros Hh. unfold authenticated, bind.
  destruct (authenticateToken E req st) as [g st1] eqn:Hg.
  destruct (guard_effect _ _ _ _ _ Hg) as ([g' ->] & _ & _ & Hsh & _).
  destruct g' as [r0|ident]; [done|].
  eapply no_new_active_trans; [done|apply Hh].
Qed.

(** ** Password reset *)

Lemma reset_password_handler_sessions E req ident st :
  sessions (snd (reset_password_handler E req ident st)) = sessions st
  /\ documents (snd (reset_password_handler E req ident st)) = documents st.
Proof.
  unfold reset_password_handler.
  destruct (negb (truthy _)); [done|].
  unfold try_catch, bind, users_update. unfold_monad.
  destruct (throws E _); unfold_monad; [done|].
  by destruct (users st !! req_userId ident).
Qed.

(** ** Each route keeps the sessions at most one active per user *)

Lemma handle_single_active E r req st :
  single_active st -> single_active (snd (handle E r req st)).
Proof.
  intros Hone. destruct r; simpl.
  - by apply login_single_active.
  - eapply single_active_shrink; [|done].
    apply authenticated_no_new_active. intros ident st1.
    destruct (logout_handler_spec E req ident st1) as (r & st' & -> & _ & Hsh & _).
    done.
  - eapply single_active_shrink; [|done].
    apply authenticated_no_new_active. intros ident st1.
    apply no_new_active_refl.
  - eapply single_active_shrink; [|done].
    apply authenticated_no_new_active. intros ident st1.
    intros u t (d & Hd & Hact).
    rewrite (proj1 (reset_password_handler_sessions E req ident st1)) in Hd.
    by exists d.
  - eapply single_active_shrink; [|done].
    apply authenticated_no_new_active. intros ident st1.
    apply same_db_no_new_active.
    destruct (classes_handler E req ident st1) as [r st'] eqn:Hrun.
    by eapply read_only_classes_handler.
Qed.

Lemma serve_single_active reqs :
  forall st, single_active st -> single_active (serve reqs st).
Proof.
  induction reqs as [|[[E r] req] reqs IH]; intros st Hone; simpl; [done|].
  by apply IH, handle_single_active.
Qed.

(** C1, as amended. With requests served one at a time: a successful login leaves
    the session it wrote as the only active session of the user, every
    session of that user that was active before has its active flag
    [false] afterwards, and every route keeps the sessions at most one
    active per user, so the invariant holds after any sequence of
    requests that starts from a state where it holds. *)
Theorem login_unique_active_session :
  (forall E req st r st',
     login E req st = (inr r, st') -> status r = 200%nat ->
     exists userId user,
       users st !! userId = Some user
       /\ r = login_success E userId user
       /\ (forall t, active_session st' userId t <-> t = uuidv4 E)
       /\ (forall t d, sessions st !! t = Some d ->
             is_active_for userId d = true -> t <> uuidv4 E ->
             exists d', sessions st' !! t = Some d'
                        /\ get_field "isActive" d' = VBool false))
  /\ (forall E r req st,
        single_active st -> single_active (snd (handle E r req st)))
  /\ (forall reqs st, single_active st -> single_active (serve reqs st)).
Proof.
  split; [|split].
  - intros E req st r st' Hrun Hok.
    destruct (login_spec E req st) as (resp & st2 & Hrun' & Hcases).
    rewrite Hrun in Hrun'. injection Hrun' as <- <-.
    destruct Hcases as [[_ [Hbad _]] | (userId & user & st1 & Hu & Hclean & Hrest)];
      [done|].
    destruct Hrest as [[-> _] | [-> ->]]; [done|].
    destruct (cleanup_effect _ _ _ _ _ Hclean) as (_ & _ & Hno & _).
    destruct (Hno eq_refl) as [Hno1 Hold].
    exists userId, user. split; [done|]. split; [done|]. split.
    + by apply create_effect.
    + intros t d Hd Hact Hne. destruct (Hold t d Hd Hact) as (d' & Hd' & Hflag).
      exists d'. split; [|done]. simpl. by rewrite lookup_insert_ne.
  - intros E r req st. apply handle_single_active.
  - intros reqs st. apply serve_single_active.
Qed.

(** C7, as amended. When the email lookup finds a stored user and the
    password of the request is not the stored credential: a non-empty
    password is answered 401, an empty or missing one is answered 400,
    and in both cases nothing is written: no session is created and
    none is deactivated. *)
Theorem login_wrong_password E req st userId user :
  truthy (get_field "email" (req_body req)) = true ->
  users_where_email E (get_field "email" (req_body req)) st
  = (inr [(userId, user)], st) ->
  strict_eq (get_field "password_hash" user)
            (get_field "password" (req_body req)) = false ->
  (truthy (get_field "password" (req_body req)) = true ->
   login E req st
   = (inr (Response 401 (error_body "Invalid email or password.")), st))
  /\ (truthy (get_field "password" (req_body req)) = false ->
      login E req st
      = (inr (Response 400 (error_body "Email and password are required.")), st)).
Proof.
  intros Hemail Hq Hpw. unfold login. rewrite Hemail. split; intros ->; simpl.
  - unfold try_catch, bind. rewrite Hq. by rewrite Hpw.
  - done.
Qed.

(** C8. Every answer of /login is one of its three fixed error
    answers, or the success answer: the message, the token, the expiry
    and a user summary made of the user id and the first-login flag.
    Every answer of /profile is one of the guard's fixed error answers,
    or the stored user record without its [password_hash] field, every
    other field kept. Neither success answer changes when the stored
    credential is replaced by another value. *)
Theorem credential_not_returned :
  (forall E req st r st',
     login E req st = (inr r, st') ->
     In r login_rejections
     \/ exists userId user,
          users st !! userId = Some user
          /\ r = Response 200
                   (VObj [("message", VStr "Login successful");
                          ("token", VStr (uuidv4 E));
                          ("expiresAt", VDate (now E + SESSION_DURATION_MS));
                          ("user", VObj [("id", VStr userId);
                                         ("is_new", get_field "is_new" user)])]))
  /\ (forall E req st r st',
        profile E req st = (inr r, st') ->
        In r guard_rejections
        \/ exists userId user safeUser,
             users st !! userId = Some user
             /\ r = Response 200
                      (VObj [("message", VStr "Authenticated profile data");
                             ("user", VObj safeUser);
                             ("userId", VStr userId)])
             /\ safeUser = remove_field "password_hash" user
             /\ has_field "password_hash" safeUser = false
             /\ get_field "password_hash" safeUser = VUndefined
             /\ forall k, k <> "password_hash" ->
                          get_field k safeUser = get_field k user)
  /\ (forall E req userId user credential,
        profile_handler req (Identity (set_field "password_hash" credential user) userId)
        = profile_handler req (Identity user userId)
        /\ login_success E userId (set_field "password_hash" credential user)
           = login_success E userId user).
Proof.
  split; [|split].
  - intros E req st r st' Hrun.
    destruct (login_spec E req st) as (resp & st2 & Hrun' & Hcases).
    rewrite Hrun in Hrun'. injection Hrun' as <- <-.
    destruct Hcases as [(_ & _ & Hin) | (userId & user & st1 & Hu & _ & Hrest)];
      [by left|].
    destruct Hrest as [[-> _] | [-> _]]; [left; simpl; tauto|].
    right. by exists userId, user.
  - intros E req st r st' Hrun. unfold profile, authenticated, bind in Hrun.
    destruct (authenticateToken E req st) as [g st1] eqn:Hg.
    destruct (guard_effect _ _ _ _ _ Hg) as ([g' ->] & _ & _ & _ & Hident).
    destruct g' as [r0|[user userId]].
    + injection Hrun as <- _. left. by eapply guard_rejection_listed.
    + destruct (Hident _ eq_refl) as [-> Hu]. injection Hrun as <- _.
      right. exists userId, user, (remove_field "password_hash" user).
      repeat split; try done.
      * apply has_field_remove_field.
      * apply get_field_remove_field_eq.
      * intros k Hk. by apply get_field_remove_field_ne.
  - intros E req userId user credential. split.
    + unfold profile_handler. simpl. by rewrite remove_field_set_field.
    + unfold login_success. by rewrite get_field_set_field_ne.
Qed.

(** C9, as amended. A password reset never touches a session document.
    With a non-empty new credential, on a stored user, it overwrites
    [password_hash] with the new credential and sets [is_new] to
    [false]; an empty or missing new credential is answered 400 and
    nothing is written. *)
Theorem reset_password_effect E req ident st :
  sessions (snd (reset_password_handler E req ident st)) = sessions st
  /\ (forall r st', reset_password E req st = (inr r, st') ->
        status r = 200%nat -> sessions st' = sessions st)
  /\ (forall user,
        users st !! req_userId ident = Some user ->
        throws E (UpdateUser (req_userId ident)) = false ->
        truthy (get_field "newPassword" (req_body req)) = true ->
        exists r user',
          reset_password_handler E req ident st
          = (inr r, set_users (insert (req_userId ident) user') st)
          /\ status r = 200%nat
          /\ get_field "password_hash" user' = get_field "newPassword" (req_body req)
          /\ get_field "is_new" user' = VBool false)
  /\ (truthy (get_field "newPassword" (req_body req)) = false ->
      reset_password_handler E req ident st
      = (inr (Response 400 (error_body "newPassword is required.")), st)).
Proof.
  split; [|split; [|split]].
  - apply reset_password_handler_sessions.
  - intros r st' Hrun Hok.
    destruct (authenticated_success _ _ _ _ _ _ Hrun Hok) as (id & _ & _ & Hh).
    pose proof (proj1 (reset_password_handler_sessions E req id st)) as Hs.
    by rewrite Hh in Hs.
  - intros user Hu Hth Hnew. unfold reset_password_handler. rewrite Hnew.
    cbn [negb]. unfold try_catch, bind, users_update. unfold_monad.
    rewrite Hth. unfold_monad. rewrite Hu.
    eexists _, _. split; [reflexivity|]. split; [done|].
    unfold merge_fields. simpl. split.
    + rewrite !get_field_set_field_ne by done. apply get_field_set_field_eq.
    + apply get_field_set_field_eq.
  - intros Hnew. unfold reset_password_handler. by rewrite Hnew.
Qed.

(** ** Login step by step *)

Ltac login_run_step :=
  match goal with
  | |- context [users_where_email ?E ?x ?s] =>
      destruct (users_where_email E x s) as [[?|[|[? ?] ?]] ?]
  | |- context [sessions_where_active ?E ?x ?s] =>
      destruct (sessions_where_active E x s) as [[?|[|? ?]] ?]
  | |- context [batch_commit ?E ?x ?s] =>
      destruct (batch_commit E x s) as [[?|[]] ?]
  | |- context [sessions_set ?E ?x ?y ?s] =>
      destruct (sessions_set E x y s) as [[?|[]] ?]
  | |- context [negb (strict_eq ?a ?b)] => destruct (negb (strict_eq a b))
  end.

(** Four steps of a login are the /login handler. *)
Lemma login_steps_login E req st :
  login_steps E 4 (LoginStart req) st
  = (match fst (login E req st) with
     | inl e => inl e
     | inr r => inr (LoginDone r)
     end, snd (login E req st)).
Proof.
  unfold login. cbn [login_steps login_step].
  destruct (negb (truthy (get_field "email" (req_body req)))
            || negb (truthy (get_field "password" (req_body req)))); [done|].
  repeat (repeat (progress (unfold_monad; cbn [login_step fst snd];
                            unfold caught, cleanupPreviousSessions));
          try done; login_run_step).
Qed.

Lemma login_step_total E pc st :
  exists pc' st', login_step E pc st = (inr pc', st').
Proof.
  destruct pc; cbn [login_step]; unfold caught, try_catch.
  - destruct (_ || _); [by eexists _, _|].
    match goal with |- context [match ?m st with _ => _ end] =>
      destruct (m st) as [[e|pc'] st'] end; by eexists _, _.
  - match goal with |- context [match ?m st with _ => _ end] =>
      destruct (m st) as [[e|pc'] st'] end; by eexists _, _.
  - match goal with |- context [match ?m st with _ => _ end] =>
      destruct (m st) as [[e|pc'] st'] end; by eexists _, _.
  - match goal with |- context [match ?m st with _ => _ end] =>
      destruct (m st) as [[e|pc'] st'] end; by eexists _, _.
  - by eexists _, _.
Qed.

Lemma run_schedule_reachable sched :
  forall sys, rtc sys_step sys (run_schedule sched sys).
Proof.
  induction sched as [|i sched IH]; intros [st ps]; simpl; [done|].
  destruct (ps !! i) as [p|] eqn:Hp; [|done].
  destruct (login_step (proc_env p) (proc_pc p) st) as [[e|pc'] st'] eqn:Hstep;
    [done|].
  eapply rtc_l; [|apply IH]. by econstructor.
Qed.

(** One step of a login that runs alone. *)
Lemma login_step_inv E pc st pc' st' :
  login_step E pc st = (inr pc', st') ->
  single_active st -> login_inv pc st ->
  single_active st' /\ login_inv pc' st'.
Proof.
  intros Hstep Hone Hinv. destruct pc; cbn [login_step] in Hstep.
  - destruct (_ || _).
    { by injection Hstep as <- <-. }
    unfold caught, try_catch, bind in Hstep.
    destruct (users_where_email E _ st) as [[e|snapshot] st0] eqn:Hq;
      apply users_where_email_state in Hq as ->.
    { by injection Hstep as <- <-. }
    destruct snapshot as [|[userId user] rest].
    { by injection Hstep as <- <-. }
    destruct (negb (strict_eq _ _)); by injection Hstep as <- <-.
  - unfold caught, try_catch, bind, sessions_where_active in Hstep.
    unfold_monad. destruct (throws E _); unfold_monad.
    { by injection Hstep as <- <-. }
    fold (active_sessions_of userId st) in Hstep.
    destruct (active_sessions_of userId st) as [|td old] eqn:Hq;
      injection Hstep as <- <-; split; try done.
    by apply no_active_query.
  - simpl in Hinv. subst oldSessions.
    unfold caught, try_catch, bind in Hstep.
    destruct (batch_commit E _ st) as [r st1] eqn:Hrun.
    apply batch_deactivate_spec in Hrun
      as [[[e ->] ->] | (-> & _ & _ & _ & Hlook)].
    { by injection Hstep as <- <-. }
    injection Hstep as <- <-.
    destruct (deactivated_effect _ _ _ _ Hlook) as (Hsh & Hno & _).
    split; [by eapply single_active_shrink|done].
  - simpl in Hinv. unfold caught, try_catch, bind, sessions_set in Hstep.
    unfold_monad. destruct (throws E _); unfold_monad;
      injection Hstep as <- <-; [done|].
    split; [|done]. by apply create_effect.
  - by injection Hstep as <- <-.
Qed.

(** C6, as amended. In a login that runs with no other request in
    between, stopped after any number of steps: at most one session per
    user is active; the batch that deactivates the user's active
    sessions is applied whole or not at all; and the new session is
    written by a later, separate write, only once no session of the user
    is active. *)
Theorem login_alone_sessions E req st :
  single_active st ->
  (forall st' ps',
     rtc sys_step (st, [Process E (LoginStart req)]) (st', ps') ->
     exists pc',
       ps' = [Process E pc']
       /\ single_active st'
       /\ (forall userId user, pc' = LoginCreate userId user ->
             no_active st' userId))
  /\ (forall userId user pc1 st1,
        login_step E (LoginCommit userId user (active_sessions_of userId st)) st
        = (inr pc1, st1) ->
        pc1 = LoginDone login_failure /\ st1 = st
        \/ pc1 = LoginCreate userId user
           /\ no_active st1 userId
           /\ (forall t, sessions st !! t = None -> sessions st1 !! t = None)
           /\ (forall t d, sessions st !! t = Some d ->
                 is_active_for userId d = false -> sessions st1 !! t = Some d)).
Proof.
  intros Hone. split.
  - intros st' ps' Hreach.
    assert (Hgen : forall s s', rtc sys_step s s' ->
              forall pc, s.2 = [Process E pc] -> single_active s.1 ->
                         login_inv pc s.1 ->
              exists pc', s'.2 = [Process E pc'] /\ single_active s'.1
                          /\ login_inv pc' s'.1).
    { clear. intros s s' Hrtc. induction Hrtc as [s|s1 s2 s3 Hstep _ IH].
      - intros pc Hps H1 Hinv. by exists pc.
      - intros pc Hps H1 Hinv. destruct Hstep as [i p pc' st st' ps Hp Hstep].
        simpl in *. subst ps. destruct i as [|i]; [|done].
        injection Hp as <-. simpl in *.
        destruct (login_step_inv _ _ _ _ _ Hstep H1 Hinv) as [H1' Hinv'].
        by apply (IH pc'). }
    destruct (Hgen _ _ Hreach (LoginStart req) eq_refl Hone I)
      as (pc' & Hps & H1 & Hinv).
    exists pc'. split; [done|]. split; [done|].
    intros userId user ->. done.
  - intros userId user pc1 st1 Hstep. cbn [login_step] in Hstep.
    unfold caught, try_catch, bind in Hstep.
    destruct (batch_commit E _ st) as [r st2] eqn:Hrun.
    apply batch_deactivate_spec in Hrun
      as [[[e ->] ->] | (-> & _ & _ & _ & Hlook)].
    { injection Hstep as <- <-. by left. }
    injection Hstep as <- <-.
    destruct (deactivated_effect _ _ _ _ Hlook) as (_ & Hno & _).
    right. split; [done|]. split; [done|]. split.
    + intros t Ht. by rewrite Hlook, Ht.
    + intros t d Ht Hact. rewrite Hlook, Ht.
      cbn [fmap option_fmap option_map]. by rewrite Hact.
Qed.

(** ** The enrollment aggregator *)

Lemma add_console_nil st : add_console [] st = st.
Proof. destruct st. unfold add_console. simpl. by rewrite app_nil_r. Qed.

Lemma add_console_app ws1 ws2 st :
  add_console ws2 (add_console ws1 st) = add_console (ws1 ++ ws2) st.
Proof. unfold add_console. simpl. by rewrite app_assoc. Qed.

Lemma getParentClassRefPath_reference p :
  getParentClassRefPath (VRef p) = inr (truncate_path p).
Proof.
  unfold getParentClassRefPath, select_pathString. cbn [is_object prop_path andb].
  destruct (truthy (VStr p)) eqn:Hp; [done|].
  simpl in Hp. apply negb_false_iff, String.eqb_eq in Hp as ->. done.
Qed.

Lemma truncate_path_cases p :
  truncate_path p = VNull
  \/ exists parent, truncate_path p = VStr parent /\ truthy (VStr parent) = true.
Proof.
  unfold truncate_path. destruct (_ && _); [right|by left].
  eexists. split; [reflexivity|done].
Qed.


(** The body of the first loop on a reference object. *)
Lemma collect_subject_spec E acc p st :
  never_throws E ->
  collect_subject E acc (VRef p) st
  = match truncate_path p with
    | VStr parent =>
        (inr (fst acc ++ [p; normalize_path parent],
              snd acc ++ [RefContext p parent]), st)
    | _ => (inr acc, add_console [WNoParentPath p] st)
    end.
Proof.
  intros Hq. unfold collect_subject.
  rewrite getParentClassRefPath_reference. unfold lift, bind at 1.
  destruct (truncate_path_cases p) as [-> | (parent & -> & ->)]; [done|].
  unfold db_doc. unfold_monad. by rewrite Hq.
Qed.

Lemma collect_ref_spec E acc r st :
  never_throws E ->
  collect_ref E acc r st
  = match resolve_ref r with
    | inl w => (inr acc, add_console [w] st)
    | inr sp =>
        (inr (fst acc ++ [fst sp; normalize_path (snd sp)],
              snd acc ++ [RefContext (fst sp) (snd sp)]), st)
    end.
Proof.
  intros Hq. unfold collect_ref, resolve_ref.
  destruct r; try reflexivity.
  - cbn [subject_handle]. destruct (startsWith s "/") eqn:Hs; [|done].
    unfold bind at 1. unfold db_doc at 1. unfold_monad. rewrite Hq. unfold_monad.
    rewrite collect_subject_spec by done.
    by destruct (truncate_path (normalize_path s)).
  - cbn [subject_handle]. unfold bind at 1. unfold ret at 1.
    rewrite collect_subject_spec by done.
    by destruct (truncate_path path).
Qed.

Lemma forEach_collect E refs :
  never_throws E ->
  forall acc st,
    forEach (collect_ref E) refs acc st
    = (inr (fst acc ++ fetch_paths (resolved refs),
            snd acc ++ contexts (resolved refs)),
       add_console (first_warnings refs) st).
Proof.
  intros Hq. induction refs as [|r refs IH]; intros [fetches ctx] st.
  - simpl. unfold ret. by rewrite !app_nil_r, add_console_nil.
  - cbn [forEach]. unfold bind. rewrite collect_ref_spec by done.
    unfold resolved, first_warnings. cbn [omap list_omap].
    destruct (resolve_ref r) as [w|[subject parent]].
    + rewrite IH. rewrite add_console_app. done.
    + rewrite IH. cbn [fst snd fetch_paths contexts flat_map List.map].
      by rewrite <- !app_assoc.
Qed.

Lemma promise_all_spec E paths st :
  never_throws E ->
  promise_all E paths st = (inr (map (read_snapshot (documents st)) paths), st).
Proof.
  intros Hq. induction paths as [|p ps IH]; [done|].
  cbn [promise_all]. unfold bind at 1. unfold document_get. unfold_monad.
  rewrite Hq. unfold_monad.
  change (promise_all E ps st) with (promise_all E ps st). rewrite IH. done.
Qed.

Lemma pair_loop_spec docs pairs :
  forall ctx0 i out st,
    i = (2 * List.length ctx0)%nat ->
    pair_loop i (map (read_snapshot docs) (fetch_paths pairs))
      (ctx0 ++ contexts pairs) out st
    = (inr (out ++ omap listed (judge_pair docs <$> pairs)),
       add_console (omap warned (judge_pair docs <$> pairs)) st).
Proof.
  induction pairs as [|[subject parent] pairs IH]; intros ctx0 i out st Hi.
  - simpl. unfold ret. by rewrite app_nil_r, add_console_nil.
  - cbn [fetch_paths flat_map app List.map fst snd contexts pair_loop].
    assert (Hctx : (ctx0 ++ RefContext subject parent
                      :: map (fun sp => RefContext (fst sp) (snd sp)) pairs)
                   !! (i / 2)%nat = Some (RefContext subject parent)).
    { subst i. rewrite (Nat.mul_comm 2), Nat.div_mul by lia.
      apply list_lookup_middle. done. }
    rewrite Hctx. cbn [default from_option id subjectPath parentPath].
    assert (Hnext : forall out' st',
              pair_loop (i + 2)
                (map (read_snapshot docs) (fetch_paths pairs))
                (ctx0 ++ RefContext subject parent
                   :: map (fun sp => RefContext (fst sp) (snd sp)) pairs) out' st'
              = (inr (out' ++ omap listed (judge_pair docs <$> pairs)),
                 add_console (omap warned (judge_pair docs <$> pairs)) st')).
    { intros out' st'.
      rewrite (cons_middle (RefContext subject parent) ctx0), app_assoc.
      apply IH. rewrite length_app. simpl. lia. }
    unfold bind at 1.
    cbn [fmap list_fmap omap list_omap].
    unfold read_snapshot at 1 2. cbn [snap_data].
    destruct (docs !! subject) as [subjectData|] eqn:Hs.
    + destruct (docs !! normalize_path parent) as [classFields|] eqn:Hc.
      * assert (Hj : judge_pair docs (subject, parent)
                     = Listed (subject_entry (Snapshot subject (Some subjectData))
                                 subjectData
                                 (class_data (Snapshot (normalize_path parent)
                                                (Some classFields)) classFields))
                              None).
        { unfold judge_pair. cbn [fst snd]. by rewrite Hs, Hc. }
        rewrite Hj. cbn [listed warned].
        unfold bind at 1. unfold ret at 1 2. rewrite Hnext.
        by rewrite <- app_assoc.
      * assert (Hj : judge_pair docs (subject, parent)
                     = Listed (subject_entry (Snapshot subject (Some subjectData))
                                 subjectData VNull)
                              (Some (WParentNotFound parent))).
        { unfold judge_pair. cbn [fst snd]. by rewrite Hs, Hc. }
        rewrite Hj. cbn [listed warned].
        unfold bind at 1 2. unfold console_warn at 1. unfold ret at 1 2.
        rewrite Hnext. rewrite add_console_app.
        by rewrite <- app_assoc.
    + assert (Hj : judge_pair docs (subject, parent)
                   = Skipped (WSubjectNotFound subject)).
      { unfold judge_pair. cbn [fst snd]. by rewrite Hs. }
      rewrite Hj. cbn [listed warned].
      unfold bind at 1. unfold console_warn at 1. unfold ret at 1.
      rewrite Hnext. by rewrite add_console_app.
Qed.




Lemma fetchEnrolled_present E uid st userData :
  never_throws E ->
  users st !! uid = Some userData ->
  fetchEnrolledClassesWithParents E uid st
  = (inr (omap listed (judge_pair (documents st)
                         <$> resolved (enrolled_refs userData))),
     add_console
       (first_warnings (enrolled_refs userData)
        ++ omap warned (judge_pair (documents st)
                          <$> resolved (enrolled_refs userData))) st).
Proof.
  intros Hq Hu. unfold fetchEnrolledClassesWithParents.
  unfold bind at 1. unfold users_get. unfold_monad. rewrite Hq. unfold_monad.
  rewrite Hu.
  destruct (enrolled_refs userData) as [|r refs] eqn:Hrefs.
  { simpl. by rewrite add_console_nil. }
  rewrite <- Hrefs. clear Hrefs r refs.
  destruct (Nat.eqb (List.length (enrolled_refs userData)) 0) eqn:Hlen.
  { apply Nat.eqb_eq in Hlen.
    destruct (enrolled_refs userData); [|done].
    simpl. by rewrite add_console_nil. }
  rewrite forEach_collect by done. cbn [fst snd app].
  destruct (resolved (enrolled_refs userData)) as [|[subject parent] pairs] eqn:Hres.
  { simpl. by rewrite app_nil_r. }
  rewrite <- Hres.
  destruct (Nat.eqb (List.length (fetch_paths (resolved (enrolled_refs userData)))) 0)
    eqn:Hfetch.
  { rewrite Hres in Hfetch. done. }
  rewrite promise_all_spec by done. cbn [documents add_console].
  rewrite (pair_loop_spec (documents st) (resolved (enrolled_refs userData))
             [] 0 []) by done.
  by rewrite add_console_app.
Qed.














(* ===================================================================== *)
(** * The properties on the example school *)
(* ===================================================================== *)

Lemma single_active_school : single_active school.
Proof.
  intros u t1 t2 (d & Hd & _). change (sessions school) with (∅ : gmap string object) in Hd.
  rewrite lookup_empty in Hd. discriminate Hd.
Defined.

Lemma never_throws_quiet clock token : never_throws (quiet clock token).
Proof. by intros c. Defined.

(** The path of the function's own documentation. *)
Lemma getParentClassRefPath_spec_witness :
  path_is_text (VStr "/school/s1/classes/FirstA/subjects/maths")
  /\ getParentClassRefPath (VStr "/school/s1/classes/FirstA/subjects/maths")
     = inr (VStr "/school/s1/classes/FirstA").
Proof.
  assert (Htext : path_is_text (VStr "/school/s1/classes/FirstA/subjects/maths")).
  { intros Hobj. discriminate Hobj. }
  split; [exact Htext|].
  apply (proj1 (getParentClassRefPath_spec _ Htext)).
  exists "/school/s1/classes/FirstA/subjects/maths".
  split; [reflexivity|]. split; [|vm_compute; reflexivity].
  split; [vm_compute; lia|vm_compute; reflexivity].
Defined.

(** The defect: on an object whose [path] is a number the function
    raises a [TypeError], although it is documented to return a string
    or [null] and returns [null] for every other unsupported input. *)
Lemma getParentClassRefPath_raises :
  getParentClassRefPath (VObj [("path", VNum 5)])
  = inl (TypeError "pathString.split is not a function")
  /\ ~ (forall ref, exists v, getParentClassRefPath ref = inr v).
Proof.
  split; [reflexivity|]. intros Hall.
  destruct (Hall (VObj [("path", VNum 5)])) as [v Hv]. discriminate Hv.
Qed.

(** Two logins of the teacher, one after the other. *)
Lemma login_unique_active_session_witness :
  (forall t, active_session
               (snd (login (quiet 1000 "token-a") teacher_login school)) "u1" t
             <-> t = "token-a")
  /\ single_active
       (serve [(quiet 1000 "token-a", PostLogin, teacher_login);
               (quiet 2000 "token-b", PostLogin, teacher_login)] school)
  /\ (forall t, active_session
                  (snd (login (quiet 1000 "token-a") teacher_login school_open))
                  "u1" t
                <-> t = "token-a")
  /\ (exists d',
        sessions (snd (login (quiet 1000 "token-a") teacher_login school_open))
          !! "token-live" = Some d'
        /\ get_field "isActive" d' = VBool false).
Proof.
  split; [|split].
  - assert (Hrun : login (quiet 1000 "token-a") teacher_login school
                   = (inr (login_success (quiet 1000 "token-a") "u1" teacher),
                      snd (login (quiet 1000 "token-a") teacher_login school))).
    { vm_compute. reflexivity. }
    destruct (proj1 login_unique_active_session _ _ _ _ _ Hrun eq_refl)
      as (userId & user & _ & Hr & Hact & _).
    injection Hr as <- _. exact Hact.
  - apply (proj2 (proj2 login_unique_active_session)).
    exact single_active_school.
  - assert (Hrun : login (quiet 1000 "token-a") teacher_login school_open
                   = (inr (login_success (quiet 1000 "token-a") "u1" teacher),
                      snd (login (quiet 1000 "token-a") teacher_login school_open))).
    { vm_compute. reflexivity. }
    destruct (proj1 login_unique_active_session _ _ _ _ _ Hrun eq_refl)
      as (userId & user & _ & Hr & Hact & Hold).
    injection Hr as <- _. split; [exact Hact|].
    apply (Hold "token-live" live_session).
    + vm_compute. reflexivity.
    + vm_compute. reflexivity.
    + discriminate.
Defined.

(** The same on the stored data: the teacher's session that was active
    before the login has its flag cleared, the new one is active, and
    the active session of another user is as before. *)
Example login_replaces_active_session :
  get_field "isActive" <$> sessions school_open !! "token-live" = Some (VBool true)
  /\ get_field "isActive"
       <$> sessions (snd (login (quiet 1000 "token-a") teacher_login school_open))
             !! "token-live"
     = Some (VBool false)
  /\ get_field "isActive"
       <$> sessions (snd (login (quiet 1000 "token-a") teacher_login school_open))
             !! "token-a"
     = Some (VBool true)
  /\ get_field "isActive"
       <$> sessions (snd (login (quiet 1000 "token-a") teacher_login school_open))
             !! "token-old"
     = Some (VBool true).
Proof. repeat split; vm_compute; reflexivity. Qed.

Ltac by_running := vm_compute; first [reflexivity | discriminate | lia].

Lemma finds_live :
  finds (quiet 1000 "") (bearer "token-live" []) school_open "token-live" live_session.
Proof. repeat split; try by_running. Defined.

Lemma finds_old :
  finds (quiet 1000 "") (bearer "token-old" []) school_open "token-old" old_session.
Proof. repeat split; try by_running. Defined.

Lemma finds_closed :
  finds (quiet 1000 "") (bearer "token-closed" []) school_open
    "token-closed" closed_session.
Proof. repeat split; try by_running. Defined.

Lemma finds_raw :
  finds (quiet 1000000 "") (bearer "token-raw" []) school_open "token-raw" raw_session.
Proof. repeat split; try by_running. Defined.

Lemma live_not_expired : ~ expired (quiet 1000 "") live_session.
Proof.
  intros (x & Hx & Hlt). vm_compute in Hx. injection Hx as <-.
  vm_compute in Hlt. discriminate Hlt.
Defined.

Lemma old_expired : expired (quiet 1000 "") old_session.
Proof. exists 500%Z. split; by_running. Defined.

(** The guard on the live session and on the expired one, whose active
    flag is [true] before and [false] after. *)
Lemma authenticateToken_order_witness :
  authenticateToken (quiet 1000 "") (bearer "token-live" []) school_open
  = (inr (inr (Identity teacher "u1")), school_open)
  /\ get_field "isActive" old_session = VBool true
  /\ exists st' session',
       authenticateToken (quiet 1000 "") (bearer "token-old" []) school_open
       = (inr (guard_response 403 "Session expired due to inactivity."), st')
       /\ sessions st' !! "token-old" = Some session'
       /\ get_field "isActive" session' = VBool false
       /\ (forall k, k <> "isActive" ->
             get_field k session' = get_field k old_session)
       /\ (forall t', t' <> "token-old" ->
             sessions st' !! t' = sessions school_open !! t')
       /\ users st' = users school_open
       /\ documents st' = documents school_open.
Proof.
  split; [|split; [reflexivity|]].
  - destruct (authenticateToken_order (quiet 1000 "")
                (bearer "token-live" []) school_open)
      as (_ & _ & _ & _ & _ & _ & Hpass & _).
    apply (Hpass "token-live" live_session "u1" teacher).
    + split; [exact finds_live|]. split; [by_running|exact live_not_expired].
    + repeat split; by_running.
    + by_running.
  - destruct (authenticateToken_order (quiet 1000 "")
                (bearer "token-old" []) school_open)
      as (_ & _ & _ & _ & Hexp & _).
    apply (Hexp "token-old" old_session).
    + exact finds_old.
    + by_running.
    + exact old_expired.
    + reflexivity.
Defined.

(** The same on the stored data: after the guard has answered 403 to the
    expired token, the session under it has its flag cleared and the
    other sessions are as before. *)
Example guard_clears_expired_flag :
  get_field "isActive"
    <$> sessions (snd (authenticateToken (quiet 1000 "") (bearer "token-old" [])
                         school_open)) !! "token-old"
  = Some (VBool false)
  /\ get_field "isActive"
       <$> sessions (snd (authenticateToken (quiet 1000 "") (bearer "token-old" [])
                            school_open)) !! "token-live"
     = Some (VBool true).
Proof. split; vm_compute; reflexivity. Qed.

(** A session whose flag is the string "false" and whose expiry is a
    number passes the guard, however late the clock. *)
Lemma guard_lenient_witness :
  authenticateToken (quiet 1000000 "") (bearer "token-raw" []) school_open
  = (inr (inr (Identity teacher "u1")), school_open).
Proof.
  rewrite (proj2 (proj2 (guard_lenient _ _ _ _ _ finds_raw))).
  - by_running.
  - by_running.
  - intros x Hx. vm_compute in Hx. discriminate Hx.
Defined.




(** The enrollment list of the teacher: one subject with its class,
    one malformed reference, one subject whose class is gone, one
    subject that is gone. *)
Example teacher_subjects :
  fst (fetchEnrolledClassesWithParents (quiet 0 "") "u1" school)
  = inr [VObj [("id", VStr "maths");
               ("refPath", VStr "school/school1/classes/FirstA/subjects/maths");
               ("title", VStr "Maths");
               ("parentClass", VObj [("id", VStr "FirstA");
                                     ("name", VStr "First A")])];
         VObj [("id", VStr "art");
               ("refPath", VStr "school/school1/classes/Gone/subjects/art");
               ("title", VStr "Art");
               ("parentClass", VNull)]]
  /\ console (snd (fetchEnrolledClassesWithParents (quiet 0 "") "u1" school))
     = [WInvalidReference (VStr "not-a-path");
        WParentNotFound "/school/school1/classes/Gone";
        WSubjectNotFound "school/school1/classes/FirstA/subjects/dropped"].
Proof. split; vm_compute; reflexivity. Qed.


(** Logging out of a session that is already inactive, and with a
    token that names no session: both are answered 403. *)
Lemma logout_inactive_forbidden :
  logout (quiet 1000 "") (bearer "token-closed" []) school_open
  = (inr (Response 403 (error_body "Session expired or invalidated.")), school_open)
  /\ logout (quiet 1000 "") (bearer "token-none" []) school_open
     = (inr (Response 403 (error_body "Invalid token.")), school_open)
  /\ ~ (forall E req st, exists r st',
          logout E req st = (inr r, st') /\ status r = 200%nat).
Proof.
  assert (Hrun : logout (quiet 1000 "") (bearer "token-closed" []) school_open
                 = (inr (Response 403 (error_body "Session expired or invalidated.")),
                    school_open)).
  { vm_compute. reflexivity. }
  split; [exact Hrun|]. split; [vm_compute; reflexivity|].
  intros Hall.
  destruct (Hall (quiet 1000 "") (bearer "token-closed" []) school_open)
    as (r & st' & Hr & Hok).
  rewrite Hrun in Hr. injection Hr as <- _. discriminate Hok.
Qed.

(** Logging out of the live session. *)
Lemma logout_after_guard_witness :
  exists r st',
    logout (quiet 1000 "") (bearer "token-live" []) school_open = (inr r, st')
    /\ status r = 200%nat.
Proof.
  apply (proj1 (logout_after_guard (quiet 1000 "")
                  (bearer "token-live" []) school_open)
           (Identity teacher "u1") school_open).
  by_running.
Defined.

(** Two logins of the teacher that interleave: both look for old
    sessions before either writes its own, and both sessions end up
    active. *)
Lemma concurrent_logins_two_active :
  single_active school
  /\ rtc sys_step (school, two_logins)
       (run_schedule [0; 1; 0; 1; 0; 1]%nat (school, two_logins))
  /\ active_session (fst (run_schedule [0; 1; 0; 1; 0; 1]%nat (school, two_logins)))
       "u1" "token-a"
  /\ active_session (fst (run_schedule [0; 1; 0; 1; 0; 1]%nat (school, two_logins)))
       "u1" "token-b"
  /\ ~ single_active (fst (run_schedule [0; 1; 0; 1; 0; 1]%nat (school, two_logins))).
Proof.
  assert (Ha : active_session
                 (fst (run_schedule [0; 1; 0; 1; 0; 1]%nat (school, two_logins)))
                 "u1" "token-a").
  { exists (new_session (quiet 1000 "token-a") "u1"). split; vm_compute; reflexivity. }
  assert (Hb : active_session
                 (fst (run_schedule [0; 1; 0; 1; 0; 1]%nat (school, two_logins)))
                 "u1" "token-b").
  { exists (new_session (quiet 1001 "token-b") "u1"). split; vm_compute; reflexivity. }
  split; [exact single_active_school|]. split; [apply run_schedule_reachable|].
  split; [exact Ha|]. split; [exact Hb|].
  intros Hone. specialize (Hone "u1" "token-a" "token-b" Ha Hb). discriminate Hone.
Qed.

(** Two logins of the teacher that interleave, each run to its end:
    both answer 200 with a token of their own, and when the second has
    answered the session of the first is still active, so the new
    session is not the only active one of the user. *)
Lemma interleaved_logins_both_succeed :
  single_active school
  /\ rtc sys_step (school, two_logins)
       (run_schedule [0; 0; 1; 1; 0; 1]%nat (school, two_logins))
  /\ snd (run_schedule [0; 0; 1; 1; 0; 1]%nat (school, two_logins))
     = [Process (quiet 1000 "token-a")
          (LoginDone (login_success (quiet 1000 "token-a") "u1" teacher));
        Process (quiet 1001 "token-b")
          (LoginDone (login_success (quiet 1001 "token-b") "u1" teacher))]
  /\ status (login_success (quiet 1000 "token-a") "u1" teacher) = 200%nat
  /\ status (login_success (quiet 1001 "token-b") "u1" teacher) = 200%nat
  /\ get_field "isActive"
       <$> sessions (fst (run_schedule [0; 0; 1; 1; 0; 1]%nat (school, two_logins)))
             !! "token-a"
     = Some (VBool true)
  /\ get_field "isActive"
       <$> sessions (fst (run_schedule [0; 0; 1; 1; 0; 1]%nat (school, two_logins)))
             !! "token-b"
     = Some (VBool true)
  /\ ~ (forall t,
          active_session
            (fst (run_schedule [0; 0; 1; 1; 0; 1]%nat (school, two_logins))) "u1" t
          <-> t = "token-b")
  /\ ~ single_active (fst (run_schedule [0; 0; 1; 1; 0; 1]%nat (school, two_logins))).
Proof.
  assert (Ha : active_session
                 (fst (run_schedule [0; 0; 1; 1; 0; 1]%nat (school, two_logins)))
                 "u1" "token-a").
  { exists (new_session (quiet 1000 "token-a") "u1"). split; vm_compute; reflexivity. }
  assert (Hb : active_session
                 (fst (run_schedule [0; 0; 1; 1; 0; 1]%nat (school, two_logins)))
                 "u1" "token-b").
  { exists (new_session (quiet 1001 "token-b") "u1"). split; vm_compute; reflexivity. }
  split; [exact single_active_school|]. split; [apply run_schedule_reachable|].
  split; [vm_compute; reflexivity|]. split; [reflexivity|]. split; [reflexivity|].
  split; [vm_compute; reflexivity|]. split; [vm_compute; reflexivity|]. split.
  - intros Honly. apply Honly in Ha. discriminate Ha.
  - intros Hone. specialize (Hone "u1" "token-a" "token-b" Ha Hb). discriminate Hone.
Qed.

Lemma active_school_open uid t :
  active_session school_open uid t ->
  uid = "u1" /\ t = "token-live" \/ uid = "u2" /\ t = "token-old".
Proof.
  intros (d & Hd & Hact). apply is_active_for_spec in Hact as [Huid Hflag].
  unfold school_open in Hd. cbn [sessions] in Hd.
  apply lookup_insert_Some in Hd as [[<- <-]|[_ Hd]].
  { left. split; [|done]. cbn in Huid. congruence. }
  apply lookup_insert_Some in Hd as [[<- <-]|[_ Hd]].
  { right. split; [|done]. cbn in Huid. congruence. }
  apply lookup_insert_Some in Hd as [[<- <-]|[_ Hd]].
  { cbn in Hflag. discriminate Hflag. }
  apply lookup_singleton_Some in Hd as [<- <-].
  cbn in Hflag. discriminate Hflag.
Defined.

Lemma single_active_school_open : single_active school_open.
Proof.
  intros uid t1 t2 H1 H2.
  destruct (active_school_open _ _ H1) as [[-> ->]|[-> ->]],
           (active_school_open _ _ H2) as [[? ->]|[? ->]];
    first [reflexivity | discriminate].
Defined.

Lemma live_session_active : active_session school_open "u1" "token-live".
Proof. exists live_session. split; by_running. Defined.

(** One login of the teacher, alone, on the school where the teacher
    has an active session. Stopped after three steps, it has committed
    the batch and is about to write the new session: the old session is
    no longer active. Its commit step alone: when the batch succeeds the
    teacher has no active session and the other sessions are as before;
    when the batch fails nothing has changed. *)
Lemma login_alone_sessions_witness :
  single_active school_open
  /\ active_session school_open "u1" "token-live"
  /\ (exists pc',
        snd (run_schedule [0; 0; 0]%nat lone_login)
        = [Process (quiet 1000 "token-a") pc']
        /\ single_active (fst (run_schedule [0; 0; 0]%nat lone_login))
        /\ (forall userId user, pc' = LoginCreate userId user ->
              no_active (fst (run_schedule [0; 0; 0]%nat lone_login)) userId))
  /\ (no_active (snd (commit_step (quiet 1000 "token-a"))) "u1"
      /\ (forall t, sessions school_open !! t = None ->
            sessions (snd (commit_step (quiet 1000 "token-a"))) !! t = None)
      /\ (forall t d, sessions school_open !! t = Some d ->
            is_active_for "u1" d = false ->
            sessions (snd (commit_step (quiet 1000 "token-a"))) !! t = Some d))
  /\ fst (commit_step failing_batch) = inr (LoginDone login_failure)
  /\ snd (commit_step failing_batch) = school_open
  /\ get_field "isActive"
       <$> sessions (snd (commit_step (quiet 1000 "token-a"))) !! "token-live"
     = Some (VBool false)
  /\ snd (run_schedule [0; 0; 0]%nat lone_login)
     = [Process (quiet 1000 "token-a") (LoginCreate "u1" teacher)].
Proof.
  split; [exact single_active_school_open|].
  split; [exact live_session_active|].
  split; [|split; [|split; [reflexivity|split; [|split; vm_compute; reflexivity]]]].
  - apply (proj1 (login_alone_sessions (quiet 1000 "token-a") teacher_login
                    school_open single_active_school_open)).
    unfold lone_login. rewrite <- surjective_pairing. apply run_schedule_reachable.
  - destruct (proj2 (login_alone_sessions (quiet 1000 "token-a") teacher_login
                       school_open single_active_school_open)
                "u1" teacher (LoginCreate "u1" teacher)
                (snd (commit_step (quiet 1000 "token-a"))))
      as [[Hfail _]|[_ Hdone]].
    + vm_compute. reflexivity.
    + discriminate Hfail.
    + exact Hdone.
  - destruct (proj2 (login_alone_sessions failing_batch teacher_login
                       school_open single_active_school_open)
                "u1" teacher (LoginDone login_failure)
                (snd (commit_step failing_batch)))
      as [[_ Hsame]|[Hdone _]].
    + vm_compute. reflexivity.
    + exact Hsame.
    + discriminate Hdone.
Defined.

Example login_alone_about_to_create :
  snd (run_schedule [0; 0; 0]%nat lone_login)
  = [Process (quiet 1000 "token-a") (LoginCreate "u1" teacher)]
  /\ get_field "isActive"
       <$> sessions (fst (run_schedule [0; 0; 0]%nat lone_login)) !! "token-live"
     = Some (VBool false)
  /\ get_field "isActive"
       <$> sessions (fst (run_schedule [0; 0; 0]%nat lone_login)) !! "token-old"
     = Some (VBool true)
  /\ sessions (fst (run_schedule [0; 0; 0]%nat lone_login)) !! "token-a" = None.
Proof. repeat split; vm_compute; reflexivity. Qed.

(** A login with the teacher's email and an empty password is answered
    400, not 401. *)
Lemma login_empty_password_bad_request :
  login (quiet 1000 "token-a") empty_password_login school
  = (inr (Response 400 (error_body "Email and password are required.")), school)
  /\ ~ (forall E req st userId user,
          users_where_email E (get_field "email" (req_body req)) st
          = (inr [(userId, user)], st) ->
          strict_eq (get_field "password_hash" user)
                    (get_field "password" (req_body req)) = false ->
          exists r, login E req st = (inr r, st) /\ status r = 401%nat).
Proof.
  assert (Hrun : login (quiet 1000 "token-a") empty_password_login school
                 = (inr (Response 400 (error_body "Email and password are required.")),
                    school)).
  { vm_compute. reflexivity. }
  split; [exact Hrun|]. intros Hall.
  destruct (Hall (quiet 1000 "token-a") empty_password_login school "u1" teacher)
    as (r & Hr & Hst).
  - vm_compute. reflexivity.
  - vm_compute. reflexivity.
  - rewrite Hrun in Hr. injection Hr as <-. discriminate Hst.
Qed.

(** A login with the teacher's email and a wrong password. *)
Lemma login_wrong_password_witness :
  login (quiet 1000 "token-a") wrong_password_login school
  = (inr (Response 401 (error_body "Invalid email or password.")), school).
Proof.
  apply (proj1 (login_wrong_password (quiet 1000 "token-a")
                  wrong_password_login school "u1" teacher
                  ltac:(by_running) ltac:(by_running) ltac:(by_running))).
  by_running.
Defined.

(** The answer to the teacher's login. *)
Lemma credential_not_returned_witness :
  In (login_success (quiet 1000 "token-a") "u1" teacher) login_rejections
  \/ exists userId user,
       users school !! userId = Some user
       /\ login_success (quiet 1000 "token-a") "u1" teacher
          = Response 200
              (VObj [("message", VStr "Login successful");
                     ("token", VStr "token-a");
                     ("expiresAt", VDate (1000 + SESSION_DURATION_MS));
                     ("user", VObj [("id", VStr userId);
                                    ("is_new", get_field "is_new" user)])]).
Proof.
  apply (proj1 credential_not_returned (quiet 1000 "token-a") teacher_login school
           (login_success (quiet 1000 "token-a") "u1" teacher)
           (snd (login (quiet 1000 "token-a") teacher_login school))).
  by_running.
Defined.

(** A reset with an empty new password is answered 400 and the stored
    credential stays. *)
Lemma reset_password_empty_rejected :
  reset_password_handler (quiet 1000 "")
    (bearer "token-live" [("newPassword", VStr "")]) (Identity teacher "u1")
    school_open
  = (inr (Response 400 (error_body "newPassword is required.")), school_open)
  /\ (get_field "password_hash"
        <$> users (snd (reset_password_handler (quiet 1000 "")
                          (bearer "token-live" [("newPassword", VStr "")])
                          (Identity teacher "u1") school_open)) !! "u1")
     = Some (VStr "teacherpass")
  /\ (get_field "is_new"
        <$> users (snd (reset_password_handler (quiet 1000 "")
                          (bearer "token-live" [("newPassword", VStr "")])
                          (Identity teacher "u1") school_open)) !! "u1")
     = Some (VBool true).
Proof. repeat split; vm_compute; reflexivity. Qed.

(** A reset with a new password on the example school. *)
Lemma reset_password_effect_witness :
  exists r user',
    reset_password_handler (quiet 1000 "")
      (bearer "token-live" [("newPassword", VStr "chalk")]) (Identity teacher "u1")
      school_open
    = (inr r, set_users (insert "u1" user') school_open)
    /\ status r = 200%nat
    /\ get_field "password_hash" user' = VStr "chalk"
    /\ get_field "is_new" user' = VBool false.
Proof.
  apply (proj1 (proj2 (proj2 (reset_password_effect (quiet 1000 "")
                  (bearer "token-live" [("newPassword", VStr "chalk")])
                  (Identity teacher "u1") school_open))) teacher);
    by_running.
Defined.

(* ===================================================================== *)
(** * Further properties *)
(* ===================================================================== *)

Lemma select_designated ref path :
  select_pathString ref = Some (VStr path) -> designated_path ref = Some path.
Proof.
  destruct ref; simpl; try done.
  - destruct (startsWith s "/"); [|done]. by intros [= ->].
  - destruct (negb (String.eqb path0 "")); [|done]. by intros [= ->].
  - destruct (truthy (get_field "path" fields)); [|done]. by intros [= ->].
Qed.

Lemma drop_last_two (l : list string) x :
  (2 <= List.length l)%nat ->
  l !! (List.length l - 2)%nat = Some x ->
  exists y, l = take (List.length l - 2) l ++ [x; y].
Proof.
  intros Hlen Hx.
  pose proof (take_drop (List.length l - 2) l) as Htd.
  assert (Hd : List.length (drop (List.length l - 2) l) = 2%nat).
  { rewrite length_drop. lia. }
  assert (Ha : drop (List.length l - 2) l !! 0%nat = Some x).
  { rewrite lookup_drop. by rewrite Nat.add_0_r. }
  destruct (drop (List.length l - 2) l) as [|a [|b [|c rest]]];
    try (simpl in Hd; lia).
  injection Ha as ->. exists b. symmetry. exact Htd.
Qed.

(** X1. When [getParentClassRefPath] returns a path, that path holds
    the segments of the input but the last two, and the input's path is
    the returned one followed by "/subjects/" and the subject id. *)
Theorem parent_path_prefix ref out :
  getParentClassRefPath ref = inr (VStr out) ->
  exists path subjectId,
    designated_path ref = Some path
    /\ path_segments out
       = take (List.length (path_segments path) - 2) (path_segments path)
    /\ normalize_path path = normalize_path out +:+ "/subjects/" +:+ subjectId
    /\ subjectId <> "" /\ has_char "/" subjectId = false.
Proof.
  unfold getParentClassRefPath.
  destruct (select_pathString ref) as [[| | | |path| | | | |]|] eqn:Hsel; try done.
  intros [= Hout]. apply select_designated in Hsel.
  unfold truncate_path in Hout.
  destruct (Nat.leb 5 (List.length (path_segments path))) eqn:Hlen; [|done].
  apply Nat.leb_le in Hlen. cbn [andb] in Hout.
  destruct (path_segments path !! (List.length (path_segments path) - 2)%nat)
    as [seg|] eqn:Hseg; [|done].
  destruct (String.eqb_spec seg "subjects") as [->|]; [|done].
  injection Hout as <-.
  destruct (drop_last_two (path_segments path) "subjects")
    as [subjectId Hsplit]; [lia|done|].
  pose proof (path_segments_pieces path) as Hall.
  assert (Htake : Forall (fun x => has_char "/" x = false /\ x <> "")
                    (take (List.length (path_segments path) - 2) (path_segments path))).
  { by apply Forall_take. }
  assert (Hid : has_char "/" subjectId = false /\ subjectId <> "").
  { rewrite Hsplit in Hall. apply Forall_app in Hall as [_ Hall].
    inversion Hall as [|? ? _ Hall']; subst.
    by inversion Hall' as [|? ? Hid _]. }
  exists path, subjectId. split; [done|].
  destruct (path_segments_join _ Htake) as [_ Hsegs].
  split; [done|]. split; [|by destruct Hid].
  unfold normalize_path at 2. rewrite Hsegs.
  unfold normalize_path. rewrite Hsplit at 1.
  rewrite join_app_segments; [reflexivity| |done].
  intros Hnil. apply (f_equal (@List.length _)) in Hnil.
  rewrite length_take in Hnil. simpl in Hnil. lia.
Qed.

(** X2. A path string and the reference made from it resolve to the
    same parent: the enrollment aggregator resolves [db.doc(s)], not
    [s]. *)
Theorem reference_resolves_as_string s :
  startsWith s "/" = true ->
  getParentClassRefPath (VRef (normalize_path s)) = getParentClassRefPath (VStr s).
Proof.
  intros Hs. rewrite getParentClassRefPath_reference.
  unfold getParentClassRefPath, select_pathString. rewrite Hs.
  unfold truncate_path. by rewrite path_segments_normalize.
Qed.

(** ** The bearer token *)

Lemma has_char_nonempty_sep sep a b : (a +:+ String sep b) <> "".
Proof. by destruct a. Qed.

Lemma bearer_token_word scheme t :
  has_char " " scheme = false -> has_char " " t = false ->
  bearer_token (Some (scheme +:+ " " +:+ t)) = VStr t.
Proof.
  intros Hs Ht. unfold bearer_token.
  change (scheme +:+ " " +:+ t) with (scheme +:+ String " " t).
  assert (Htr : truthy (VStr (scheme +:+ String " " t)) = true).
  { simpl. apply negb_true_iff, String.eqb_neq, has_char_nonempty_sep. }
  rewrite Htr, split_app_sep, split_no_sep by done. done.
Qed.

Lemma guard_admits E req st t session uid user :
  admitted E req st t session -> looks_up E session uid ->
  users st !! uid = Some user ->
  authenticateToken E req st = (inr (inr (Identity user uid)), st).
Proof.
  intros Ha Hl Hu. rewrite (guard_admitted _ _ _ _ _ Ha).
  rewrite (proj1 (load_user_spec E session st) uid Hl). by rewrite Hu.
Qed.

Lemma append_empty s : s +:+ "" = s.
Proof.
  induction s as [|c s IH]; [done|].
  change (String c (s +:+ "") = String c s). by rewrite IH.
Qed.

Lemma bearer_token_second h t :
  second_word h t -> bearer_token (Some h) = VStr t.
Proof.
  intros (scheme & more & Hs & Ht & Hmore & ->). unfold bearer_token.
  change (scheme +:+ " " +:+ t +:+ more) with (scheme +:+ String " " (t +:+ more)).
  assert (Htr : truthy (VStr (scheme +:+ String " " (t +:+ more))) = true).
  { simpl. apply negb_true_iff, String.eqb_neq, has_char_nonempty_sep. }
  rewrite Htr, split_app_sep by done.
  destruct Hmore as [->|[rest ->]].
  - rewrite append_empty, split_no_sep by done. done.
  - change (t +:+ " " +:+ rest) with (t +:+ String " " rest).
    rewrite split_app_sep by done. done.
Qed.

(** X3. The token is the second space-separated word of the
    authorization header, whatever the first word is and whatever
    follows the second: the session stored under that word decides the
    answer (403 when there is none, the session's user attached when it
    is admitted). A header whose second word is empty, or that has no
    space at all, is answered 401. *)
Theorem guard_reads_second_word E st fields :
  (forall h t,
     second_word h t ->
     (t = "" ->
      authenticateToken E (Request (Some h) fields) st
      = (inr (guard_response 401 "Authorization token required."), st))
     /\ (t <> "" -> throws E (GetSession t) = false ->
         sessions st !! t = None ->
         authenticateToken E (Request (Some h) fields) st
         = (inr (guard_response 403 "Invalid token."), st))
     /\ (forall session uid user,
           t <> "" -> throws E (GetSession t) = false ->
           sessions st !! t = Some session ->
           not_invalidated session -> ~ expired E session ->
           looks_up E session uid -> users st !! uid = Some user ->
           authenticateToken E (Request (Some h) fields) st
           = (inr (inr (Identity user uid)), st)))
  /\ (forall h,
        has_char " " h = false ->
        authenticateToken E (Request (Some h) fields) st
        = (inr (guard_response 401 "Authorization token required."), st)).
Proof.
  split.
  - intros h t Hword. pose proof (bearer_token_second h t Hword) as Htok.
    split; [|split].
    + intros ->. unfold authenticateToken. cbn [authorization].
      by rewrite Htok.
    + intros Hne Hth Hnone. by apply (guard_missing_session E _ st t).
    + intros session uid user Hne Hth Hs Hinv Hexp Hl Hu.
      by apply (guard_admits E _ st t session uid user).
  - intros h Hh. unfold authenticateToken. cbn [authorization].
    assert (Htok : truthy (bearer_token (Some h)) = false).
    { unfold bearer_token. destruct (truthy (VStr h)) eqn:Htr; [|done].
      by rewrite split_no_sep. }
    by rewrite Htok.
Qed.

(** ** What the guard writes *)

Lemma expired_dec E session : expired E session \/ ~ expired E session.
Proof.
  unfold expired.
  destruct (get_field "expiresAt" session) as [| | | | |x| | | |] eqn:Hx;
    try (right; intros (y & Hy & _); discriminate Hy).
  destruct (Z.ltb_spec x (now E)) as [Hlt|Hge].
  - left. by exists x.
  - right. intros (y & [= <-] & Hlt). lia.
Qed.

Lemma guard_session_read_fails E req st t :
  presents req t -> throws E (GetSession t) = true ->
  authenticateToken E req st
  = (inr (guard_response 500 "Internal server error during authentication."), st).
Proof.
  intros Hp Hth. pose proof (presents_truthy _ _ Hp) as Htr.
  destruct Hp as [Htok Hne]. unfold authenticateToken. rewrite Htr. cbn [negb].
  unfold try_catch at 1. unfold bind at 1. rewrite Htok.
  rewrite collection_doc_text by done.
  unfold bind at 1. unfold sessions_get. unfold_monad. by rewrite Hth.
Qed.

Lemma guard_expires E req st t session :
  finds E req st t session -> not_invalidated session -> expired E session ->
  authenticateToken E req st
  = if throws E (UpdateSession t)
    then (inr (guard_response 500 "Internal server error during authentication."), st)
    else (inr (guard_response 403 "Session expired due to inactivity."),
          expire_session t session st).
Proof.
  intros Hf Hlive Hexp. rewrite (guard_found _ _ _ _ _ Hf).
  destruct (strict_eq _ _) eqn:Hflag.
  { apply strict_eq_false_flag in Hflag. by destruct Hlive. }
  unfold try_catch at 1. unfold bind at 1.
  rewrite check_expiry_expired by (done || apply Hf).
  by destruct (throws E (UpdateSession t)).
Qed.


(** X4. The guard writes to the database in one case only: when it
    finds the presented session expired, it clears that session's
    active flag and answers 403. In every other outcome it leaves the
    state as it found it. *)
Theorem guard_writes_only_on_expiry E req st r st' :
  authenticateToken E req st = (r, st') ->
  st' = st
  \/ exists t session,
       finds E req st t session
       /\ not_invalidated session /\ expired E session
       /\ st' = expire_session t session st
       /\ r = inr (guard_response 403 "Session expired due to inactivity.").
Proof.
  intros Hrun.
  destruct (bearer_token_cases (authorization req)) as [Hno | (t & Htok & Hne)].
  { unfold authenticateToken in Hrun. rewrite Hno in Hrun.
    injection Hrun as _ <-. by left. }
  assert (Hp : presents req t) by done.
  destruct (throws E (GetSession t)) eqn:Hth.
  { rewrite (guard_session_read_fails _ _ _ _ Hp Hth) in Hrun.
    injection Hrun as _ <-. by left. }
  destruct (sessions st !! t) as [session|] eqn:Hs.
  2:{ rewrite (guard_missing_session _ _ _ _ Hp Hth Hs) in Hrun.
      injection Hrun as _ <-. by left. }
  assert (Hf : finds E req st t session) by done.
  destruct (strict_eq (get_field "isActive" session) (VBool false)) eqn:Hflag.
  { apply strict_eq_false_flag in Hflag.
    rewrite (guard_invalidated_session _ _ _ _ _ Hf Hflag) in Hrun.
    injection Hrun as _ <-. by left. }
  assert (Hlive : not_invalidated session).
  { intros Heq. apply strict_eq_false_flag in Heq. congruence. }
  destruct (expired_dec E session) as [Hexp|Hfresh].
  - rewrite (guard_expires _ _ _ _ _ Hf Hlive Hexp) in Hrun.
    destruct (throws E (UpdateSession t)); injection Hrun as <- <-; [by left|].
    right. by exists t, session.
  - rewrite (guard_admitted E req st t session) in Hrun by done.
    destruct (load_user_answers E session st) as (g & Hg & _).
    rewrite Hg in Hrun. injection Hrun as _ <-. by left.
Qed.

(** ** The life of a session *)

Lemma login_success_state E req st r st' :
  login E req st = (inr r, st') -> status r = 200%nat ->
  exists uid user,
    users st !! uid = Some user
    /\ r = login_success E uid user
    /\ users st' = users st
    /\ documents st' = documents st
    /\ sessions st' !! uuidv4 E = Some (new_session E uid)
    /\ forall t, active_session st' uid t <-> t = uuidv4 E.
Proof.
  intros Hrun Hok.
  destruct (login_spec E req st) as (resp & st2 & Hrun' & Hcases).
  rewrite Hrun in Hrun'. injection Hrun' as <- <-.
  destruct Hcases as [[_ [Hbad _]] | (uid & user & st1 & Hu & Hclean & Hrest)];
    [done|].
  destruct Hrest as [[-> _] | [-> ->]]; [done|].
  destruct (cleanup_effect _ _ _ _ _ Hclean) as (_ & _ & Hno & _).
  destruct (Hno eq_refl) as [Hno1 _].
  destruct (cleanup_spec E uid st) as [[e He] | (st1' & Hst1 & Hu1 & Hd1 & _)];
    rewrite Hclean in *; [done|]. injection Hst1 as <-.
  exists uid, user. repeat split; try done.
  - simpl. apply lookup_insert_eq.
  - by apply create_effect.
  - by apply create_effect.
Qed.

Lemma presents_bearer t body :
  has_char " " t = false -> t <> "" -> presents (bearer t body) t.
Proof.
  intros Ht Hne. split; [|done]. unfold bearer. cbn [authorization].
  change ("Bearer " +:+ t) with ("Bearer" +:+ " " +:+ t).
  by apply bearer_token_word.
Qed.

Lemma new_session_expired E E' uid :
  expired E' (new_session E uid) <-> (now E + SESSION_DURATION_MS < now E')%Z.
Proof.
  unfold expired, new_session. simpl. split.
  - by intros (x & [= <-] & Hlt).
  - intros Hlt. by eexists.
Qed.

Lemma new_session_live E uid : not_invalidated (new_session E uid).
Proof. unfold not_invalidated, new_session. simpl. discriminate. Qed.

(** X5. The token of a successful login is admitted by the guard, with
    the user who logged in attached, at any time up to 24 hours after
    the login, as long as the session and user reads do not raise. *)
Theorem issued_token_admitted E E' req fields st r st' :
  login E req st = (inr r, st') -> status r = 200%nat ->
  has_char " " (uuidv4 E) = false -> uuidv4 E <> "" ->
  users st !! "" = None ->
  throws E' (GetSession (uuidv4 E)) = false ->
  (forall uid, throws E' (GetUser uid) = false) ->
  (now E' <= now E + SESSION_DURATION_MS)%Z ->
  exists uid user,
    users st !! uid = Some user
    /\ r = login_success E uid user
    /\ authenticateToken E' (bearer (uuidv4 E) fields) st'
       = (inr (inr (Identity user uid)), st').
Proof.
  intros Hrun Hok Hsp Hne Hempty Hget Huser Hnow.
  destruct (login_success_state _ _ _ _ _ Hrun Hok)
    as (uid & user & Hu & -> & Hus & _ & Hs & Hact).
  exists uid, user. split; [done|]. split; [done|].
  apply (guard_admits E' _ st' (uuidv4 E) (new_session E uid) uid user).
  - split; [|split].
    + split; [by apply presents_bearer|done].
    + apply new_session_live.
    + rewrite new_session_expired. lia.
  - split; [done|]. split; [|done]. intros ->. congruence.
  - by rewrite Hus.
Qed.

(** X6. More than 24 hours after the login the guard answers 403 to
    the same token and clears the session's active flag; from then on
    the token is answered 403 as invalidated, whatever the clock. *)
Theorem issued_token_expires E E' E'' req fields st r st' :
  login E req st = (inr r, st') -> status r = 200%nat ->
  has_char " " (uuidv4 E) = false -> uuidv4 E <> "" ->
  throws E' (GetSession (uuidv4 E)) = false ->
  throws E' (UpdateSession (uuidv4 E)) = false ->
  throws E'' (GetSession (uuidv4 E)) = false ->
  (now E + SESSION_DURATION_MS < now E')%Z ->
  exists st'',
    authenticateToken E' (bearer (uuidv4 E) fields) st'
    = (inr (guard_response 403 "Session expired due to inactivity."), st'')
    /\ authenticateToken E'' (bearer (uuidv4 E) fields) st''
       = (inr (guard_response 403 "Session expired or invalidated."), st'').
Proof.
  intros Hrun Hok Hsp Hne Hget Hupd Hget' Hnow.
  destruct (login_success_state _ _ _ _ _ Hrun Hok)
    as (uid & user & Hu & -> & Hus & _ & Hs & Hact).
  pose proof (presents_bearer (uuidv4 E) fields Hsp Hne) as Hp.
  eexists. split.
  - rewrite (guard_expires E' _ st' (uuidv4 E) (new_session E uid)).
    + by rewrite Hupd.
    + done.
    + apply new_session_live.
    + by apply new_session_expired.
  - eapply (guard_invalidated_session E'' _ _ (uuidv4 E)).
    + split; [done|]. split; [done|]. simpl. apply lookup_insert_eq.
    + unfold merge_fields. simpl. reflexivity.
Qed.

(** X7. Logging out with the token of a successful login answers 200
    and invalidates it: afterwards the guard answers 403 to the token
    and the user has no active session. *)
Theorem logout_invalidates_token E E' E'' req fields st r st' :
  login E req st = (inr r, st') -> status r = 200%nat ->
  has_char " " (uuidv4 E) = false -> uuidv4 E <> "" ->
  users st !! "" = None ->
  never_throws E' ->
  throws E'' (GetSession (uuidv4 E)) = false ->
  (now E' <= now E + SESSION_DURATION_MS)%Z ->
  exists uid user st'',
    r = login_success E uid user
    /\ logout E' (bearer (uuidv4 E) fields) st'
       = (inr (Response 200 (message_body "Logout successful. Session invalidated.")),
          st'')
    /\ authenticateToken E'' (bearer (uuidv4 E) fields) st''
       = (inr (guard_response 403 "Session expired or invalidated."), st'')
    /\ no_active st'' uid.
Proof.
  intros Hrun Hok Hsp Hne Hempty Hq Hget' Hnow.
  destruct (login_success_state _ _ _ _ _ Hrun Hok)
    as (uid & user & Hu & -> & Hus & _ & Hs & Hact).
  pose proof (presents_bearer (uuidv4 E) fields Hsp Hne) as Hp.
  assert (Hguard : authenticateToken E' (bearer (uuidv4 E) fields) st'
                   = (inr (inr (Identity user uid)), st')).
  { apply (guard_admits E' _ st' (uuidv4 E) (new_session E uid) uid user).
    - split; [|split].
      + split; [done|]. split; [apply Hq|done].
      + apply new_session_live.
      + rewrite new_session_expired. lia.
    - split; [done|]. split; [|apply Hq]. intros ->. congruence.
    - by rewrite Hus. }
  exists uid, user. eexists. split; [done|]. split; [|split].
  - unfold logout, authenticated, bind. rewrite Hguard.
    unfold logout_handler, try_catch, bind. destruct Hp as [Htok _].
    rewrite Htok, collection_doc_text by done.
    unfold sessions_update. unfold_monad. rewrite Hq. unfold_monad.
    rewrite Hs. reflexivity.
  - eapply (guard_invalidated_session E'' _ _ (uuidv4 E)).
    + split; [done|]. split; [done|]. simpl. apply lookup_insert_eq.
    + unfold merge_fields. simpl. reflexivity.
  - intros t (d & Hd & Hactive). simpl in Hd.
    destruct (decide (uuidv4 E = t)) as [<-|Hneq].
    + rewrite lookup_insert_eq in Hd. injection Hd as <-.
      pose proof (deactivation_inactive E' uid (new_session E uid)) as Hx.
      unfold deactivation, merge_fields in Hx. simpl in Hx.
      unfold merge_fields in Hactive. simpl in Hactive. congruence.
    + rewrite lookup_insert_ne in Hd by done.
      apply Hneq. symmetry. apply Hact. by exists d.
Qed.

(** ** Logins and the sessions of other users *)

Lemma users_where_email_match E email st uid user rest st' :
  users_where_email E email st = (inr ((uid, user) :: rest), st') ->
  firestore_eq (get_field "email" user) email = true.
Proof.
  unfold users_where_email. unfold_monad.
  destruct (throws E _); unfold_monad; [done|]. intros [= Hq _].
  assert (Hin : (uid, user) ∈ take 1
            (List.filter (fun ud => firestore_eq (get_field "email" (snd ud)) email)
               (map_to_list (users st)))).
  { rewrite Hq. by left. }
  apply elem_of_take in Hin as (i & Hin & _).
  apply list_elem_of_lookup_2 in Hin.
  by apply elem_of_filter_bool in Hin as [_ Hin].
Qed.

(** The runs of /login, with the credentials that let it through. *)
Lemma login_spec_credentials E req st r st' :
  login E req st = (inr r, st') ->
  st' = st
  \/ exists uid user st1,
       users st !! uid = Some user
       /\ firestore_eq (get_field "email" user)
                       (get_field "email" (req_body req)) = true
       /\ strict_eq (get_field "password_hash" user)
                    (get_field "password" (req_body req)) = true
       /\ cleanupPreviousSessions E uid st = (inr tt, st1)
       /\ (r = login_failure /\ st' = st1
              /\ throws E (SetSession (uuidv4 E)) = true
           \/ r = login_success E uid user
              /\ st' = set_sessions (insert (uuidv4 E) (new_session E uid)) st1).
Proof.
  unfold login.
  destruct (negb (truthy (get_field "email" (req_body req)))
            || negb (truthy (get_field "password" (req_body req)))).
  { intros [= _ <-]. by left. }
  unfold try_catch at 1. unfold bind at 1.
  destruct (users_where_email E _ st) as [[e|snapshot] st0] eqn:Hq;
    pose proof (users_where_email_state _ _ _ _ _ Hq) as ->.
  { intros [= _ <-]. by left. }
  destruct snapshot as [|[uid user] rest].
  { intros [= _ <-]. by left. }
  destruct (strict_eq _ _) eqn:Hpw; cbn [negb].
  2:{ intros [= _ <-]. by left. }
  unfold bind at 1.
  destruct (cleanupPreviousSessions E uid st) as [[e|[]] st1] eqn:Hclean.
  { destruct (cleanup_effect _ _ _ _ _ Hclean) as (_ & _ & _ & Hst).
    rewrite Hst by by eexists. intros [= _ <-]. by left. }
  unfold sessions_set. unfold_monad.
  destruct (throws E (SetSession (uuidv4 E))) eqn:Hset; unfold_monad;
    intros [= <- <-]; right; exists uid, user, st1;
    (split; [by eapply users_where_email_found|]);
    (split; [by eapply users_where_email_match|]);
    (split; [done|]); (split; [done|]); [by left|by right].
Qed.

(** X8. Whatever its outcome, a login leaves users and documents alone
    and changes a stored session (other than one under the new token)
    only by deactivating it, and only if it was an active session of a
    user whose email and password the request carries. *)
Theorem login_touches_only_own_sessions E req st r st' :
  login E req st = (inr r, st') ->
  users st' = users st
  /\ documents st' = documents st
  /\ forall t d,
       t <> uuidv4 E -> sessions st !! t = Some d ->
       sessions st' !! t = Some d
       \/ exists uid user,
            users st !! uid = Some user
            /\ firestore_eq (get_field "email" user)
                            (get_field "email" (req_body req)) = true
            /\ strict_eq (get_field "password_hash" user)
                         (get_field "password" (req_body req)) = true
            /\ is_active_for uid d = true
            /\ sessions st' !! t = Some (merge_fields (deactivation E) d).
Proof.
  intros Hrun.
  destruct (login_spec_credentials _ _ _ _ _ Hrun)
    as [-> | (uid & user & st1 & Hu & Hem & Hpw & Hclean & Hrest)].
  { repeat split; try done. intros t d _ Hd. by left. }
  destruct (cleanup_spec E uid st) as [[e He] | (st1' & Hst1 & Hu1 & Hd1 & _ & Hlook)];
    rewrite Hclean in *; [done|]. injection Hst1 as <-.
  assert (Hst' : users st' = users st1 /\ documents st' = documents st1
                 /\ forall t, t <> uuidv4 E -> sessions st' !! t = sessions st1 !! t).
  { destruct Hrest as [(_ & -> & _) | (_ & ->)]; repeat split; try done.
    intros t Hne. simpl. by rewrite lookup_insert_ne. }
  destruct Hst' as (-> & -> & Hother). repeat split; try done.
  intros t d Hne Hd. rewrite (Hother t Hne), Hlook, Hd.
  cbn [fmap option_fmap option_map].
  destruct (is_active_for uid d) eqn:Hact; [|by left].
  right. by exists uid, user.
Qed.

Lemma cleanup_succeeds E uid st :
  throws E (QueryActiveSessions uid) = false ->
  (forall ts, throws E (CommitBatch ts) = false) ->
  exists st1, cleanupPreviousSessions E uid st = (inr tt, st1).
Proof.
  intros Hq Hc. unfold cleanupPreviousSessions, sessions_where_active.
  unfold_monad. rewrite Hq. unfold_monad.
  fold (active_sessions_of uid st).
  destruct (active_sessions_of uid st) as [|td old'] eqn:Hold; [by eexists|].
  rewrite <- Hold.
  destruct (batch_commit E _ st) as [r0 st1] eqn:Hrun.
  pose proof Hrun as Hrun'.
  apply batch_deactivate_spec in Hrun as [[[e ->] ->] | (-> & _)]; [|by eexists].
  exfalso. unfold batch_commit in Hrun'. unfold_monad.
  rewrite Hc in Hrun'. unfold_monad. rewrite map_fst_const in Hrun'.
  destruct (apply_updates_same (deactivation E) ((active_sessions_of uid st).*1)
              (sessions st)) as (m' & Hm' & _).
  { apply filter_fst_NoDup, NoDup_fst_map_to_list. }
  { intros t Ht. apply list_elem_of_fmap in Ht as ([t' d] & -> & Hin).
    apply elem_of_active_query in Hin as [Hin _]. by eexists. }
  by rewrite Hm' in Hrun'.
Qed.

(** X9. When the credentials are right and only the write of the new
    session fails, /login answers 500 and has already deactivated every
    session of the user: the user is left with no active session. *)
Theorem login_failed_write_logs_out E req st uid user rest :
  truthy (get_field "email" (req_body req)) = true ->
  truthy (get_field "password" (req_body req)) = true ->
  users_where_email E (get_field "email" (req_body req)) st
  = (inr ((uid, user) :: rest), st) ->
  strict_eq (get_field "password_hash" user)
            (get_field "password" (req_body req)) = true ->
  throws E (QueryActiveSessions uid) = false ->
  (forall ts, throws E (CommitBatch ts) = false) ->
  throws E (SetSession (uuidv4 E)) = true ->
  exists st',
    login E req st = (inr login_failure, st')
    /\ no_active st' uid
    /\ forall t d, sessions st !! t = Some d -> is_active_for uid d = true ->
         exists d', sessions st' !! t = Some d'
                    /\ get_field "isActive" d' = VBool false.
Proof.
  intros Hem Hpw Hq Heq Hqs Hcb Hset.
  destruct (cleanup_succeeds E uid st Hqs Hcb) as [st1 Hclean].
  exists st1. split.
  - unfold login. rewrite Hem, Hpw. cbn [negb orb].
    unfold try_catch, bind. rewrite Hq, Heq. cbn [negb].
    rewrite Hclean. unfold sessions_set. unfold_monad. by rewrite Hset.
  - destruct (cleanup_effect _ _ _ _ _ Hclean) as (_ & _ & Hno & _).
    by apply Hno.
Qed.

(** ** Changing the credential, then logging in *)

Lemma singleton_list {A} (l : list A) a :
  NoDup l -> (forall x, x ∈ l -> x = a) -> a ∈ l -> l = [a].
Proof.
  intros Hnd Hall Hin. destruct l as [|x l]; [by apply elem_of_nil in Hin|].
  rewrite (Hall x) by left. f_equal.
  destruct l as [|y l]; [done|]. exfalso.
  apply NoDup_cons in Hnd as [Hx _]. apply Hx.
  rewrite (Hall x) by left. rewrite <- (Hall y) by (right; left). left.
Qed.

Lemma NoDup_filter_bool {A} (f : A -> bool) (l : list A) :
  NoDup l -> NoDup (List.filter f l).
Proof.
  induction 1 as [|x l Hx _ IH]; simpl; [constructor|].
  destruct (f x); [|done]. apply NoDup_cons. split; [|done].
  rewrite elem_of_filter_bool. by intros [? _].
Qed.

Lemma users_where_email_unique E email st uid user :
  throws E (QueryUsersByEmail email) = false ->
  users st !! uid = Some user ->
  firestore_eq (get_field "email" user) email = true ->
  email_unique st email uid ->
  users_where_email E email st = (inr [(uid, user)], st).
Proof.
  intros Hth Hu Hem Huniq. unfold users_where_email. unfold_monad.
  rewrite Hth. unfold_monad.
  rewrite (singleton_list
             (List.filter (fun ud => firestore_eq (get_field "email" (snd ud)) email)
                (map_to_list (users st))) (uid, user)); [done| | |].
  - apply NoDup_filter_bool, NoDup_map_to_list.
  - intros [id u] Hin. apply elem_of_filter_bool in Hin as [Hin Hf].
    apply elem_of_map_to_list in Hin. simpl in Hf.
    assert (id = uid) as -> by by eapply Huniq. congruence.
  - apply elem_of_filter_bool. split; [by apply elem_of_map_to_list|done].
Qed.

Lemma strict_eq_refl v : is_object v = false -> strict_eq v v = true.
Proof.
  destruct v; simpl; try done.
  - intros _. by destruct b.
  - intros _. apply Z.eqb_refl.
  - intros _. apply String.eqb_refl.
Qed.

Lemma strict_eq_object v w : is_object v = true -> strict_eq v w = false.
Proof. by destruct v. Qed.

Lemma credential_update_fields E newPassword user :
  get_field "password_hash" (merge_fields (credential_update E newPassword) user)
  = newPassword
  /\ get_field "is_new" (merge_fields (credential_update E newPassword) user)
     = VBool false
  /\ get_field "email" (merge_fields (credential_update E newPassword) user)
     = get_field "email" user.
Proof.
  unfold merge_fields, credential_update. simpl. repeat split.
  - rewrite !get_field_set_field_ne by done. apply get_field_set_field_eq.
  - apply get_field_set_field_eq.
  - by rewrite !get_field_set_field_ne.
Qed.

Lemma email_unique_update st email uid user' :
  email_unique st email uid ->
  email_unique (set_users (insert uid user') st) email uid.
Proof.
  intros Huniq id u Hu Hem. simpl in Hu.
  destruct (decide (uid = id)) as [->|Hne]; [done|].
  rewrite lookup_insert_ne in Hu by done. by eapply Huniq.
Qed.

(** Logging in when the email names one user. *)
Lemma login_with_unique_email E req st uid user :
  never_throws E ->
  users st !! uid = Some user ->
  firestore_eq (get_field "email" user) (get_field "email" (req_body req)) = true ->
  email_unique st (get_field "email" (req_body req)) uid ->
  truthy (get_field "email" (req_body req)) = true ->
  truthy (get_field "password" (req_body req)) = true ->
  (strict_eq (get_field "password_hash" user)
             (get_field "password" (req_body req)) = true ->
   exists st', login E req st = (inr (login_success E uid user), st'))
  /\ (strict_eq (get_field "password_hash" user)
                (get_field "password" (req_body req)) = false ->
      login E req st = (inr invalid_credentials, st)).
Proof.
  intros Hq Hu Hem Huniq Htr Hpw.
  pose proof (users_where_email_unique E _ st uid user (Hq _) Hu Hem Huniq) as Hsel.
  split; intros Heq; unfold login; rewrite Htr, Hpw; cbn [negb orb];
    unfold try_catch at 1; unfold bind at 1; rewrite Hsel, Heq; cbn [negb].
  - unfold bind at 1.
    destruct (cleanup_succeeds E uid st (Hq _) (fun ts => Hq _)) as [st1 ->].
    unfold sessions_set. unfold_monad. rewrite Hq. unfold_monad. by eexists.
  - done.
Qed.

Lemma reset_password_handler_run E req ident st user :
  users st !! req_userId ident = Some user ->
  throws E (UpdateUser (req_userId ident)) = false ->
  truthy (get_field "newPassword" (req_body req)) = true ->
  reset_password_handler E req ident st
  = (inr (Response 200
            (VObj [("message",
                    VStr "Password successfully updated for the authenticated user.");
                   ("userId", VStr (req_userId ident))])),
     set_users (insert (req_userId ident)
                  (merge_fields
                     (credential_update E (get_field "newPassword" (req_body req)))
                     user)) st).
Proof.
  intros Hu Hth Hnew. unfold reset_password_handler. rewrite Hnew. cbn [negb].
  unfold try_catch, bind, users_update. unfold_monad. rewrite Hth. unfold_monad.
  by rewrite Hu.
Qed.

(** X10. After a password reset, a login with the user's email and the
    new password succeeds as that user (when the new password is not a
    JSON object or array), and a login with any other non-empty
    password, the old one included, is answered 401. Emails are taken
    to be unique. *)
Theorem reset_then_login E E' req ident st user req' :
  users st !! req_userId ident = Some user ->
  throws E (UpdateUser (req_userId ident)) = false ->
  truthy (get_field "newPassword" (req_body req)) = true ->
  firestore_eq (get_field "email" user) (get_field "email" (req_body req')) = true ->
  truthy (get_field "email" (req_body req')) = true ->
  email_unique st (get_field "email" (req_body req')) (req_userId ident) ->
  never_throws E' ->
  exists r st1 user',
    reset_password_handler E req ident st = (inr r, st1)
    /\ status r = 200%nat
    /\ users st1 !! req_userId ident = Some user'
    /\ (get_field "password" (req_body req') = get_field "newPassword" (req_body req) ->
        is_object (get_field "newPassword" (req_body req)) = false ->
        exists st2,
          login E' req' st1 = (inr (login_success E' (req_userId ident) user'), st2))
    /\ (truthy (get_field "password" (req_body req')) = true ->
        strict_eq (get_field "newPassword" (req_body req))
                  (get_field "password" (req_body req')) = false ->
        login E' req' st1 = (inr invalid_credentials, st1)).
Proof.
  intros Hu Hth Hnew Hem Htr Huniq Hq.
  rewrite (reset_password_handler_run E req ident st user) by done.
  destruct (credential_update_fields E (get_field "newPassword" (req_body req)) user)
    as (Hpw & _ & Hemail).
  eexists _, _, _. split; [reflexivity|]. split; [done|].
  split; [simpl; apply lookup_insert_eq|].
  match goal with |- context [login E' req' ?s] => set (st1 := s) end.
  assert (Hlogin := login_with_unique_email E' req' st1 (req_userId ident)
            (merge_fields (credential_update E (get_field "newPassword" (req_body req)))
               user) Hq).
  rewrite Hpw, Hemail in Hlogin. split.
  - intros Hsame Hprim.
    apply Hlogin; try done.
    + simpl. apply lookup_insert_eq.
    + by apply email_unique_update.
    + by rewrite Hsame.
    + rewrite Hsame. by apply strict_eq_refl.
  - intros Hpwd Hdiff. apply Hlogin; try done.
    + simpl. apply lookup_insert_eq.
    + by apply email_unique_update.
Qed.

(** X11. A reset whose new password is a JSON object or array is
    accepted, and from then on no login of that user can succeed:
    whatever password is sent, the answer is 400 or 401. *)
Theorem object_password_locks_account E E' req ident st user :
  users st !! req_userId ident = Some user ->
  throws E (UpdateUser (req_userId ident)) = false ->
  is_object (get_field "newPassword" (req_body req)) = true ->
  exists r st1,
    reset_password_handler E req ident st = (inr r, st1)
    /\ status r = 200%nat
    /\ forall req' user' rest,
         users_where_email E' (get_field "email" (req_body req')) st1
         = (inr ((req_userId ident, user') :: rest), st1) ->
         exists r', login E' req' st1 = (inr r', st1)
                    /\ (status r' = 400%nat \/ status r' = 401%nat).
Proof.
  intros Hu Hth Hobj.
  assert (Hnew : truthy (get_field "newPassword" (req_body req)) = true).
  { by destruct (get_field "newPassword" (req_body req)). }
  rewrite (reset_password_handler_run E req ident st user) by done.
  eexists _, _. split; [reflexivity|]. split; [done|].
  intros req' user' rest Hsel.
  pose proof (users_where_email_found _ _ _ _ _ _ _ Hsel) as Hu'.
  assert (Heq : user' = merge_fields
                          (credential_update E (get_field "newPassword" (req_body req)))
                          user).
  { cbn [users set_users] in Hu'. rewrite lookup_insert_eq in Hu'. congruence. }
  subst user'. clear Hu'.
  unfold login.
  destruct (negb (truthy (get_field "email" (req_body req')))
            || negb (truthy (get_field "password" (req_body req')))).
  { eexists. split; [reflexivity|]. by left. }
  unfold try_catch, bind. rewrite Hsel.
  destruct (credential_update_fields E (get_field "newPassword" (req_body req)) user)
    as (-> & _ & _).
  rewrite strict_eq_object by done. eexists. split; [reflexivity|]. by right.
Qed.

(** ** The public reset of the first version *)

(** X12. The first version's /reset-password needs no token: for a
    request that carries a user's email and a new password, it
    overwrites that user's credential, touches no session, and the new
    password then logs in as that user. Emails are taken to be
    unique. *)
Theorem public_reset_takes_over E E' req st uid user req' :
  truthy (get_field "email" (req_body req)) = true ->
  truthy (get_field "newPassword" (req_body req)) = true ->
  is_object (get_field "newPassword" (req_body req)) = false ->
  users st !! uid = Some user ->
  firestore_eq (get_field "email" user) (get_field "email" (req_body req)) = true ->
  email_unique st (get_field "email" (req_body req)) uid ->
  throws E (QueryUsersByEmail (get_field "email" (req_body req))) = false ->
  throws E (UpdateUser uid) = false ->
  get_field "email" (req_body req') = get_field "email" (req_body req) ->
  get_field "password" (req_body req') = get_field "newPassword" (req_body req) ->
  never_throws E' ->
  exists st1 user' st2,
    reset_password_by_email E req st
    = (inr (Response 200
              (message_body
                 "Password successfully reset. Existing sessions are still active.")),
       st1)
    /\ sessions st1 = sessions st
    /\ users st1 !! uid = Some user'
    /\ get_field "password_hash" user' = get_field "newPassword" (req_body req)
    /\ login E' req' st1 = (inr (login_success E' uid user'), st2).
Proof.
  intros Htr Hnew Hprim Hu Hem Huniq Hq Hup Hemail' Hpw' HE'.
  destruct (credential_update_fields E (get_field "newPassword" (req_body req)) user)
    as (Hpw & _ & Hemail).
  set (user' := merge_fields (credential_update E (get_field "newPassword" (req_body req)))
                  user) in *.
  set (st1 := set_users (insert uid user') st).
  assert (Hrun : reset_password_by_email E req st
                 = (inr (Response 200
                           (message_body
                              "Password successfully reset. Existing sessions are still active.")),
                    st1)).
  { unfold reset_password_by_email. rewrite Htr, Hnew. cbn [negb orb].
    unfold try_catch, bind.
    rewrite (users_where_email_unique E _ st uid user) by done.
    unfold users_update. unfold_monad. rewrite Hup. unfold_monad. by rewrite Hu. }
  destruct (proj1 (login_with_unique_email E' req' st1 uid user' HE'
              ltac:(simpl; apply lookup_insert_eq)
              ltac:(by rewrite Hemail, Hemail')
              ltac:(rewrite Hemail'; by apply email_unique_update)
              ltac:(by rewrite Hemail')
              ltac:(by rewrite Hpw')))
    as [st2 Hlogin].
  { rewrite Hpw, Hpw'. by apply strict_eq_refl. }
  exists st1, user', st2. repeat split; try done. simpl. apply lookup_insert_eq.
Qed.

(** ** Timetables *)

Lemma strict_eq_text v s : strict_eq v (VStr s) = true <-> v = VStr s.
Proof.
  destruct v; simpl; try (split; discriminate).
  rewrite String.eqb_eq. split; congruence.
Qed.

Lemma role_gate user :
  negb (strict_eq (get_field "user_role" user) (VStr "admin"))
  && negb (strict_eq (get_field "user_role" user) (VStr "teacher")) = false
  <-> may_write_timetable user.
Proof.
  unfold may_write_timetable.
  rewrite andb_false_iff, !negb_false_iff, !strict_eq_text. done.
Qed.

Lemma timetable_segments school class :
  plain_id school -> plain_id class ->
  path_segments (timetable_path school class)
  = ["school"; school; "classes"; class; "timetable"; "current_schedule"].
Proof.
  intros Hs Hc.
  change (timetable_path school class)
    with (join "/" ["school"; school; "classes"; class; "timetable"; "current_schedule"]).
  apply path_segments_join.
  repeat constructor; try done; try apply Hs; try apply Hc.
Qed.

(** X13. Two timetables share a document only if they are of the same
    school and class: for ids that are single path segments, the
    document path is already normalised and determines both ids. *)
Theorem timetable_path_injective school class school' class' :
  plain_id school -> plain_id class -> plain_id school' -> plain_id class' ->
  normalize_path (timetable_path school class) = timetable_path school class
  /\ (normalize_path (timetable_path school class)
      = normalize_path (timetable_path school' class') ->
      school = school' /\ class = class').
Proof.
  intros Hs Hc Hs' Hc'. split.
  - unfold normalize_path. by rewrite timetable_segments.
  - intros Heq. apply (f_equal path_segments) in Heq.
    rewrite !path_segments_normalize, !timetable_segments in Heq by done.
    by injection Heq.
Qed.

(** X14. POST /timetable by a user whose role is neither "admin" nor
    "teacher" is answered 403 and writes nothing, whatever the body. *)
Theorem timetable_post_forbidden E set_throws req ident st :
  ~ may_write_timetable (req_user ident) ->
  timetable_post_handler E set_throws req ident st
  = (inr (Response 403
            (error_body
               "Forbidden: Only administrators and teachers can update the timetable.")),
     st).
Proof.
  intros Hrole. unfold timetable_post_handler.
  destruct (negb (strict_eq (get_field "user_role" (req_user ident)) (VStr "admin"))
            && negb (strict_eq (get_field "user_role" (req_user ident)) (VStr "teacher")))
    eqn:Hgate; [done|].
  apply role_gate in Hgate. done.
Qed.

Lemma timetable_post_effect E set_throws req ident st r st' :
  timetable_post_handler E set_throws req ident st = (r, st') ->
  st' = st
  \/ exists school class,
       may_write_timetable (req_user ident)
       /\ get_field "school_id" (req_user ident) = VStr school
       /\ get_field "class_id" (req_body req) = VStr class
       /\ st' = set_documents
                  (insert (normalize_path (timetable_path school class))
                     (timetable_data E (get_field "weekdays" (req_body req))
                        (req_userId ident))) st
       /\ exists b, r = inr (Response 200 b).
Proof.
  unfold timetable_post_handler.
  destruct (negb (strict_eq (get_field "user_role" (req_user ident)) (VStr "admin"))
            && negb (strict_eq (get_field "user_role" (req_user ident)) (VStr "teacher")))
    eqn:Hgate.
  { intros [= _ <-]. by left. }
  apply role_gate in Hgate.
  destruct (_ || _).
  { intros [= _ <-]. by left. }
  destruct (negb (truthy (get_field "school_id" (req_user ident)))).
  { intros [= _ <-]. by left. }
  unfold try_catch, bind.
  destruct (collection_doc (get_field "school_id" (req_user ident)) st)
    as [[e|school] st0] eqn:Hs.
  { pose proof (collection_doc_state _ _ _ _ Hs) as ->. intros [= _ <-]. by left. }
  destruct (collection_doc (get_field "class_id" (req_body req)) st0)
    as [[e|class] st1] eqn:Hc.
  { pose proof (collection_doc_state _ _ _ _ Hc) as ->.
    pose proof (collection_doc_state _ _ _ _ Hs) as ->. intros [= _ <-]. by left. }
  pose proof (collection_doc_state _ _ _ _ Hc) as ->.
  pose proof (collection_doc_state _ _ _ _ Hs) as ->.
  assert (Hschool : get_field "school_id" (req_user ident) = VStr school).
  { destruct (get_field "school_id" (req_user ident)); try done.
    simpl in Hs. destruct (String.eqb s ""); [done|]. by injection Hs as ->. }
  assert (Hclass : get_field "class_id" (req_body req) = VStr class).
  { destruct (get_field "class_id" (req_body req)); try done.
    simpl in Hc. destruct (String.eqb s ""); [done|]. by injection Hc as ->. }
  unfold timetable_ref, db_doc. unfold_monad.
  destruct (throws E (DocRef _)); unfold_monad.
  { intros [= _ <-]. by left. }
  cbn [prop_path]. unfold document_set.
  destruct (set_throws _); unfold_monad.
  { intros [= _ <-]. by left. }
  intros [= <- <-]. right. exists school, class. repeat split; try done.
  by eexists.
Qed.

(** X15. POST /timetable never touches sessions or users, and it
    changes the documents only when it answers 200: then the caller may
    write timetables and exactly one document was overwritten, the
    timetable of the posted class in the caller's own school, with the
    posted weekdays and the caller's id. *)
Theorem timetable_post_writes_one E set_throws req ident st r st' :
  timetable_post_handler E set_throws req ident st = (r, st') ->
  sessions st' = sessions st /\ users st' = users st
  /\ (documents st' = documents st
      \/ exists school class,
           may_write_timetable (req_user ident)
           /\ get_field "school_id" (req_user ident) = VStr school
           /\ get_field "class_id" (req_body req) = VStr class
           /\ (exists b, r = inr (Response 200 b))
           /\ documents st'
              = <[normalize_path (timetable_path school class) :=
                    timetable_data E (get_field "weekdays" (req_body req))
                      (req_userId ident)]> (documents st)).
Proof.
  intros Hrun.
  destruct (timetable_post_effect _ _ _ _ _ _ _ Hrun)
    as [->|(school & class & Hrole & Hs & Hc & -> & Hr)].
  - repeat split; by left.
  - destruct st. repeat split; try done. right.
    exists school, class. by repeat split.
Qed.

Lemma timetable_segments_head school class :
  plain_id school ->
  exists rest,
    path_segments (timetable_path school class) = "school" :: school :: rest.
Proof.
  intros [Hs Hs0].
  change (timetable_path school class)
    with ("school" +:+ String "/"
            (school +:+ String "/"
               ("classes/" +:+ class +:+ "/timetable/current_schedule"))).
  unfold path_segments.
  rewrite split_app_sep by done. rewrite split_app_sep by done.
  cbn [List.filter]. change (String.eqb "school" "") with false. cbn [negb].
  destruct (String.eqb school "") eqn:He; [by apply String.eqb_eq in He|].
  cbn [negb]. by eexists.
Qed.

Lemma timetable_get_frame E query req ident st1 st2 :
  (forall school class,
      get_field "school_id" (req_user ident) = VStr school ->
      get_field "class_id" query = VStr class ->
      documents st1 !! normalize_path (timetable_path school class)
      = documents st2 !! normalize_path (timetable_path school class)) ->
  timetable_get_handler E query req ident st2
  = (fst (timetable_get_handler E query req ident st1), st2).
Proof.
  intros Hdocs. unfold timetable_get_handler.
  destruct (negb (truthy (get_field "class_id" query))); [done|].
  destruct (negb (truthy (get_field "school_id" (req_user ident)))); [done|].
  unfold try_catch, bind.
  destruct (get_field "school_id" (req_user ident)) as [| | | |school| | | | |];
    try done.
  destruct (get_field "class_id" query) as [| | | |class| | | | |];
    try (cbn [collection_doc]; by destruct (String.eqb school "")).
  specialize (Hdocs school class eq_refl eq_refl).
  cbn [collection_doc].
  destruct (String.eqb school ""); [done|].
  destruct (String.eqb class ""); [done|].
  unfold timetable_ref, db_doc, document_get. unfold_monad.
  destruct (throws E (DocRef _)); unfold_monad; [done|].
  cbn [prop_path].
  destruct (throws E (GetDocument _)); unfold_monad; [done|].
  rewrite Hdocs.
  by destruct (documents st2 !! _).
Qed.

(** X16. Timetables of different schools are isolated: whatever class
    id a user posts, the POST does not change what GET /timetable
    answers to a user of another school. *)
Theorem timetable_school_isolation E E' set_throws req ident st r st'
    query req' ident' school school' class' :
  timetable_post_handler E set_throws req ident st = (r, st') ->
  get_field "school_id" (req_user ident) = VStr school -> plain_id school ->
  get_field "school_id" (req_user ident') = VStr school' -> plain_id school' ->
  get_field "class_id" query = VStr class' -> plain_id class' ->
  school <> school' ->
  timetable_get_handler E' query req' ident' st'
  = (fst (timetable_get_handler E' query req' ident' st), st').
Proof.
  intros Hrun Hs Hps Hs' Hps' Hc' Hpc' Hne.
  apply timetable_get_frame. intros s c Hs2 Hc2.
  rewrite Hs' in Hs2. rewrite Hc' in Hc2.
  injection Hs2 as <-. injection Hc2 as <-.
  destruct (timetable_post_effect _ _ _ _ _ _ _ Hrun)
    as [->|(s & c & _ & Hs3 & _ & -> & _)]; [done|].
  rewrite Hs in Hs3. injection Hs3 as <-.
  cbn [documents set_documents]. rewrite lookup_insert_ne; [done|].
  intros Heq. apply (f_equal path_segments) in Heq.
  rewrite !path_segments_normalize in Heq.
  rewrite (timetable_segments school' class') in Heq by done.
  destruct (timetable_segments_head school c Hps) as [rest Hrest].
  rewrite Hrest in Heq. congruence.
Qed.

Lemma collection_doc_text_run s st :
  s <> "" -> collection_doc (VStr s) st = (inr s, st).
Proof.
  intros Hs. unfold collection_doc.
  destruct (String.eqb s "") eqn:Heq; [by apply String.eqb_eq in Heq|done].
Qed.

Lemma timetable_get_run E query req ident st school class :
  never_throws E ->
  get_field "school_id" (req_user ident) = VStr school -> school <> "" ->
  get_field "class_id" query = VStr class -> class <> "" ->
  timetable_get_handler E query req ident st
  = (inr (match documents st !! normalize_path (timetable_path school class) with
          | None =>
              Response 404
                (VObj [("message",
                        VStr ("Timetable not found for class " +:+ class +:+ "."));
                       ("timetablePath",
                        VStr (normalize_path (timetable_path school class)));
                       ("weekdays", VObj [])])
          | Some data =>
              Response 200
                (VObj (merge_fields data
                         [("message",
                           VStr ("Timetable successfully retrieved for class "
                                 +:+ class +:+ "."));
                          ("timetablePath",
                           VStr (normalize_path (timetable_path school class)))]))
          end), st).
Proof.
  intros HE Hs Hs0 Hc Hc0. unfold timetable_get_handler.
  rewrite Hs, Hc. cbn [truthy].
  destruct (String.eqb class "") eqn:Hce; [by apply String.eqb_eq in Hce|].
  destruct (String.eqb school "") eqn:Hse; [by apply String.eqb_eq in Hse|].
  cbn [negb]. unfold try_catch, bind.
  rewrite !collection_doc_text_run by done.
  unfold timetable_ref, db_doc, document_get. unfold_monad.
  rewrite !HE. unfold_monad. cbn [prop_path].
  by destruct (documents st !! _).
Qed.

(** X17. A timetable that is posted can be read back: when a teacher or
    administrator posts a weekdays object for a class and the storage
    does not fail, the answer is 200, and a later GET /timetable for the
    same class by any user of the same school answers 200 with the
    posted weekdays, the poster's id and the document path, and leaves
    the state as the POST left it. *)
Theorem timetable_round_trip E E' set_throws req ident query req' ident' st
    school class :
  may_write_timetable (req_user ident) ->
  get_field "school_id" (req_user ident) = VStr school -> school <> "" ->
  get_field "class_id" (req_body req) = VStr class -> class <> "" ->
  is_object (get_field "weekdays" (req_body req)) = true ->
  (forall xs, get_field "weekdays" (req_body req) <> VArr xs) ->
  never_throws E ->
  set_throws (normalize_path (timetable_path school class)) = false ->
  get_field "school_id" (req_user ident') = VStr school ->
  get_field "class_id" query = VStr class ->
  never_throws E' ->
  exists r st' r' fields,
    timetable_post_handler E set_throws req ident st = (inr r, st')
    /\ status r = 200
    /\ timetable_get_handler E' query req' ident' st' = (inr r', st')
    /\ status r' = 200
    /\ body r' = VObj fields
    /\ get_field "weekdays" fields = get_field "weekdays" (req_body req)
    /\ get_field "updatedBy" fields = VStr (req_userId ident)
    /\ get_field "timetablePath" fields
       = VStr (normalize_path (timetable_path school class)).
Proof.
  intros Hrole Hs Hs0 Hc Hc0 Hobj Harr HE Hset Hs' Hc' HE'.
  apply role_gate in Hrole.
  unfold timetable_post_handler. rewrite Hrole, Hs, Hc. cbn [truthy].
  destruct (String.eqb class "") eqn:Hce; [by apply String.eqb_eq in Hce|].
  destruct (String.eqb school "") eqn:Hse; [by apply String.eqb_eq in Hse|].
  rewrite Hobj.
  assert (Htruthy : truthy (get_field "weekdays" (req_body req)) = true).
  { by destruct (get_field "weekdays" (req_body req)). }
  rewrite Htruthy.
  assert (Hnarr : match get_field "weekdays" (req_body req) with
                  | VArr _ => true | _ => false end = false).
  { destruct (get_field "weekdays" (req_body req)) as [| | | | | | | |xs|];
      try done.
    by destruct (Harr xs). }
  rewrite Hnarr. cbn [negb orb]. unfold try_catch, bind.
  rewrite !collection_doc_text_run by done.
  unfold timetable_ref, db_doc, document_set. unfold_monad.
  rewrite HE. unfold_monad. cbn [prop_path]. rewrite Hset. unfold_monad.
  eexists _, _, _, _. split; [reflexivity|]. split; [done|].
  rewrite (timetable_get_run E' query req' ident' _ school class) by done.
  cbn [documents set_documents]. rewrite lookup_insert_eq.
  split; [reflexivity|]. split; [done|]. split; [reflexivity|].
  repeat split.
Qed.

(** ** User role configuration *)

(** X18. GET /user-role-config only reads, always answers, and answers
    200 only with the stored configuration document of the role named in
    the caller's own profile. *)
Theorem role_config_sound E field req ident st r st' :
  role_config_handler E field req ident st = (r, st') ->
  st' = st
  /\ exists resp,
       r = inr resp
       /\ (status resp = 200 ->
           exists role config,
             get_field field (req_user ident) = VStr role
             /\ role <> ""
             /\ documents st !! ("roles/" +:+ role) = Some config
             /\ body resp
                = VObj [("message",
                         VStr ("Configuration retrieved for role: " +:+ role));
                        ("role_config", VObj config)]).
Proof.
  unfold role_config_handler.
  destruct (negb (truthy (get_field field (req_user ident)))).
  { intros [= <- <-]. split; [done|]. eexists. split; [done|]. discriminate. }
  unfold try_catch, bind.
  destruct (get_field field (req_user ident)) as [| | | |role| | | | |];
    cbn [collection_doc];
    try (intros [= <- <-]; split; [done|]; eexists; split; [done|]; discriminate).
  destruct (String.eqb role "") eqn:Hrole.
  { intros [= <- <-]. split; [done|]. eexists. split; [done|]. discriminate. }
  apply String.eqb_neq in Hrole.
  unfold document_get. unfold_monad.
  destruct (throws E (GetDocument _)); unfold_monad.
  { intros [= <- <-]. split; [done|]. eexists. split; [done|]. discriminate. }
  destruct (documents st !! _) as [config|] eqn:Hdoc.
  - intros [= <- <-]. split; [done|]. eexists. split; [done|].
    intros _. by exists role, config.
  - intros [= <- <-]. split; [done|]. eexists. split; [done|]. discriminate.
Qed.

(** ** The aggregator: what the entries hold *)

Lemma get_field_merge_absent k upd :
  forall o, has_field k upd = false ->
            get_field k (merge_fields upd o) = get_field k o.
Proof.
  unfold merge_fields.
  induction upd as [|[k' v] upd IH]; intros o Hk; [done|].
  cbn [has_field] in Hk. apply orb_false_iff in Hk as [Hkk Hk].
  cbn [fold_left fst snd]. rewrite IH by done.
  apply get_field_set_field_ne. by apply String.eqb_neq in Hkk.
Qed.

Lemma has_field_keys k (o : object) : has_field k o = true <-> k ∈ o.*1.
Proof.
  induction o as [|[k' v] o IH]; cbn [has_field fmap list_fmap fst].
  - split; [done|]. by intros ?%elem_of_nil.
  - rewrite orb_true_iff, elem_of_cons, IH, String.eqb_eq. done.
Qed.

Lemma get_field_merge_present k upd :
  forall o, unique_keys upd -> has_field k upd = true ->
            get_field k (merge_fields upd o) = get_field k upd.
Proof.
  unfold unique_keys.
  induction upd as [|[k' v] upd IH]; intros o Hnd Hk; [done|].
  cbn [fmap list_fmap fst] in Hnd. apply NoDup_cons in Hnd as [Hnotin Hnd].
  change (merge_fields ((k', v) :: upd) o)
    with (merge_fields upd (set_field k' v o)).
  cbn [get_field]. destruct (String.eqb k k') eqn:Hkk.
  - apply String.eqb_eq in Hkk as ->.
    rewrite get_field_merge_absent.
    + apply get_field_set_field_eq.
    + destruct (has_field k' upd) eqn:Hh; [|done].
      by apply has_field_keys in Hh.
  - cbn [has_field] in Hk. rewrite Hkk in Hk. by apply IH.
Qed.

(** X19. The fields of a listed subject: [parentClass] is always the
    class data that was looked up, never a stored field of that name;
    every other stored field of the subject document is passed on, also
    one called [id] or [refPath]; only where the document has no such
    field are [id] and [refPath] the document's id and path. *)
Theorem subject_entry_fields subjectSnapshot subjectData classData :
  unique_keys subjectData ->
  field_of "parentClass" (subject_entry subjectSnapshot subjectData classData)
  = classData
  /\ (forall k, k <> "parentClass" -> has_field k subjectData = true ->
        field_of k (subject_entry subjectSnapshot subjectData classData)
        = get_field k subjectData)
  /\ (has_field "id" subjectData = false ->
      field_of "id" (subject_entry subjectSnapshot subjectData classData)
      = VStr (snap_id subjectSnapshot))
  /\ (has_field "refPath" subjectData = false ->
      field_of "refPath" (subject_entry subjectSnapshot subjectData classData)
      = VStr (snap_path subjectSnapshot)).
Proof.
  intros Hnd. unfold subject_entry, field_of. repeat split.
  - apply get_field_set_field_eq.
  - intros k Hk Hin. rewrite get_field_set_field_ne by done.
    by apply get_field_merge_present.
  - intros Hid. rewrite get_field_set_field_ne by done.
    by rewrite get_field_merge_absent.
  - intros Href. rewrite get_field_set_field_ne by done.
    by rewrite get_field_merge_absent.
Qed.




Lemma judge_pair_listed docs sp entry :
  entry ∈ omap listed (judge_pair docs <$> [sp]) ->
  exists subjectData,
    docs !! fst sp = Some subjectData
    /\ exists classData,
         entry = subject_entry (Snapshot (fst sp) (Some subjectData))
                   subjectData classData
         /\ (classData = VNull
             \/ exists parent classFields,
                  docs !! parent = Some classFields
                  /\ classData
                     = class_data (Snapshot parent (Some classFields))
                         classFields).
Proof.
  cbn [fmap list_fmap omap list_omap]. unfold judge_pair.
  destruct (docs !! fst sp) as [subjectData|]; cbn [listed].
  - destruct (docs !! normalize_path (snd sp)) as [classFields|] eqn:Hc;
      cbn [listed]; intros ->%list_elem_of_singleton;
      exists subjectData; (split; [done|]); eexists; (split; [done|]).
    + right. by exists (normalize_path (snd sp)), classFields.
    + by left.
  - by intros ?%elem_of_nil.
Qed.

(** X21. The aggregator invents nothing: when the storage does not
    fail, every entry it returns is built from a subject document that
    exists in the database, and its [parentClass] is null or the data of
    a class document that exists, with that document's id. *)
Theorem fetchEnrolled_entries_stored E uid st userData entries st' entry :
  never_throws E ->
  users st !! uid = Some userData ->
  fetchEnrolledClassesWithParents E uid st = (inr entries, st') ->
  entry ∈ entries ->
  exists subject subjectData,
    documents st !! subject = Some subjectData
    /\ exists classData,
         entry = subject_entry (Snapshot subject (Some subjectData))
                   subjectData classData
         /\ field_of "parentClass" entry = classData
         /\ (classData = VNull
             \/ exists parent classFields,
                  documents st !! parent = Some classFields
                  /\ classData
                     = class_data (Snapshot parent (Some classFields))
                         classFields).
Proof.
  intros HE Hu Hrun Hin.
  rewrite (fetchEnrolled_present E uid st userData HE Hu) in Hrun.
  injection Hrun as <- _.
  apply list_elem_of_omap in Hin as (v & Hv & Hl).
  apply list_elem_of_fmap in Hv as (sp & -> & _).
  destruct (judge_pair_listed (documents st) sp entry)
    as (subjectData & Hs & classData & -> & Hc).
  { cbn [fmap list_fmap omap list_omap]. rewrite Hl. apply list_elem_of_here. }
  exists (fst sp), subjectData. split; [done|].
  exists classData. split; [done|]. split; [|done].
  unfold subject_entry, field_of. apply get_field_set_field_eq.
Qed.

(** X22. Only a teacher or administrator on record can change a
    document through POST /timetable: whenever the route, guard
    included, leaves the documents different, the guard admitted a user
    whose stored profile carries one of the two roles. *)
Theorem timetable_post_authorised E set_throws req st r st' :
  timetable_post E set_throws req st = (r, st') ->
  documents st' <> documents st ->
  exists ident,
    authenticateToken E req st = (inr (inr ident), st)
    /\ users st !! req_userId ident = Some (req_user ident)
    /\ may_write_timetable (req_user ident).
Proof.
  unfold timetable_post, authenticated, bind. intros Hrun Hdocs.
  destruct (authenticateToken E req st) as [[e|[resp|ident]] st1] eqn:Hguard.
  - destruct (guard_effect _ _ _ _ _ Hguard) as ((g & Hg) & _). discriminate.
  - destruct (guard_effect _ _ _ _ _ Hguard) as (_ & _ & Hd & _).
    unfold ret in Hrun. injection Hrun as _ <-. done.
  - destruct (guard_effect _ _ _ _ _ Hguard) as (_ & _ & _ & _ & Hid).
    destruct (Hid ident eq_refl) as [-> Hu].
    exists ident. split; [done|]. split; [done|].
    destruct (timetable_post_effect _ _ _ _ _ _ _ Hrun)
      as [->|(school & class & Hrole & _)]; done.
Qed.



(* ===================================================================== *)
(** * The further properties on the example school *)
(* ===================================================================== *)

Ltac by_arith := first [by_running | cbn; lia | unfold SESSION_DURATION_MS; cbn; lia].

Lemma parent_path_prefix_witness :
  exists path subjectId,
    designated_path (VRef "school/school1/classes/FirstA/subjects/maths") = Some path
    /\ path_segments "/school/school1/classes/FirstA"
       = take (List.length (path_segments path) - 2) (path_segments path)
    /\ normalize_path path
       = normalize_path "/school/school1/classes/FirstA" +:+ "/subjects/" +:+ subjectId
    /\ subjectId <> "" /\ has_char "/" subjectId = false.
Proof.
  apply (parent_path_prefix (VRef "school/school1/classes/FirstA/subjects/maths")
           "/school/school1/classes/FirstA").
  by_running.
Defined.

Lemma reference_resolves_as_string_witness :
  getParentClassRefPath
    (VRef (normalize_path "/school/school1/classes/FirstA/subjects/maths"))
  = getParentClassRefPath (VStr "/school/school1/classes/FirstA/subjects/maths").
Proof. apply reference_resolves_as_string. by_running. Defined.

Lemma second_word_token_live : second_word "Token token-live and more" "token-live".
Proof.
  exists "Token", " and more". repeat split; try by_running.
  right. by exists "and more".
Defined.

Lemma second_word_empty : second_word "Bearer  token-live" "".
Proof.
  exists "Bearer", " token-live". repeat split; try by_running.
  right. by exists "token-live".
Defined.

Lemma guard_reads_second_word_witness :
  authenticateToken (quiet 1000 "")
    (Request (Some "Token token-live and more") []) school_open
  = (inr (inr (Identity teacher "u1")), school_open)
  /\ authenticateToken (quiet 1000 "")
       (Request (Some "Bearer  token-live") []) school_open
     = (inr (guard_response 401 "Authorization token required."), school_open)
  /\ authenticateToken (quiet 1000 "") (Request (Some "token-live") []) school_open
     = (inr (guard_response 401 "Authorization token required."), school_open).
Proof.
  split; [|split].
  - apply (proj2 (proj2 (proj1 (guard_reads_second_word (quiet 1000 "")
                                  school_open [])
                           "Token token-live and more" "token-live"
                           second_word_token_live))
             live_session "u1" teacher);
      first [exact live_not_expired | repeat split; by_running].
  - apply (proj1 (proj1 (guard_reads_second_word (quiet 1000 "") school_open [])
                    "Bearer  token-live" "" second_word_empty)).
    reflexivity.
  - apply (proj2 (guard_reads_second_word (quiet 1000 "") school_open [])).
    by_running.
Defined.

Lemma guard_writes_only_on_expiry_witness :
  snd (authenticateToken (quiet 1000 "") (bearer "token-old" []) school_open)
  = school_open
  \/ exists t session,
       finds (quiet 1000 "") (bearer "token-old" []) school_open t session
       /\ not_invalidated session /\ expired (quiet 1000 "") session
       /\ snd (authenticateToken (quiet 1000 "") (bearer "token-old" []) school_open)
          = expire_session t session school_open
       /\ fst (authenticateToken (quiet 1000 "") (bearer "token-old" []) school_open)
          = inr (guard_response 403 "Session expired due to inactivity.").
Proof.
  apply (guard_writes_only_on_expiry (quiet 1000 "") (bearer "token-old" [])
           school_open).
  apply surjective_pairing.
Defined.

Lemma teacher_logs_in :
  login (quiet 1000 "token-a") teacher_login school
  = (inr (login_success (quiet 1000 "token-a") "u1" teacher), after_login).
Proof. by_running. Defined.

Lemma issued_token_admitted_witness :
  exists uid user,
    users school !! uid = Some user
    /\ login_success (quiet 1000 "token-a") "u1" teacher
       = login_success (quiet 1000 "token-a") uid user
    /\ authenticateToken (quiet 2000 "") (bearer "token-a" []) after_login
       = (inr (inr (Identity user uid)), after_login).
Proof.
  apply (issued_token_admitted (quiet 1000 "token-a") (quiet 2000 "")
           teacher_login [] school _ after_login teacher_logs_in);
    by_arith.
Defined.

Lemma issued_token_expires_witness :
  exists st'',
    authenticateToken (quiet 90000000 "") (bearer "token-a" []) after_login
    = (inr (guard_response 403 "Session expired due to inactivity."), st'')
    /\ authenticateToken (quiet 2000 "") (bearer "token-a" []) st''
       = (inr (guard_response 403 "Session expired or invalidated."), st'').
Proof.
  apply (issued_token_expires (quiet 1000 "token-a") (quiet 90000000 "")
           (quiet 2000 "") teacher_login [] school _ after_login teacher_logs_in);
    by_arith.
Defined.

Lemma logout_invalidates_token_witness :
  exists uid user st'',
    login_success (quiet 1000 "token-a") "u1" teacher
    = login_success (quiet 1000 "token-a") uid user
    /\ logout (quiet 2000 "") (bearer "token-a" []) after_login
       = (inr (Response 200 (message_body "Logout successful. Session invalidated.")),
          st'')
    /\ authenticateToken (quiet 3000 "") (bearer "token-a" []) st''
       = (inr (guard_response 403 "Session expired or invalidated."), st'')
    /\ no_active st'' uid.
Proof.
  apply (logout_invalidates_token (quiet 1000 "token-a") (quiet 2000 "")
           (quiet 3000 "") teacher_login [] school _ after_login teacher_logs_in);
    by_arith.
Defined.

Lemma login_touches_only_own_sessions_witness :
  users (snd (login (quiet 1000 "token-a") teacher_login school_open))
  = users school_open
  /\ documents (snd (login (quiet 1000 "token-a") teacher_login school_open))
     = documents school_open
  /\ forall t d,
       t <> "token-a" -> sessions school_open !! t = Some d ->
       sessions (snd (login (quiet 1000 "token-a") teacher_login school_open)) !! t
       = Some d
       \/ exists uid user,
            users school_open !! uid = Some user
            /\ firestore_eq (get_field "email" user)
                            (get_field "email" (req_body teacher_login)) = true
            /\ strict_eq (get_field "password_hash" user)
                         (get_field "password" (req_body teacher_login)) = true
            /\ is_active_for uid d = true
            /\ sessions (snd (login (quiet 1000 "token-a") teacher_login school_open))
                 !! t
               = Some (merge_fields (deactivation (quiet 1000 "token-a")) d).
Proof.
  apply (login_touches_only_own_sessions (quiet 1000 "token-a") teacher_login
           school_open (login_success (quiet 1000 "token-a") "u1" teacher)).
  by_running.
Defined.

Lemma login_failed_write_logs_out_witness :
  exists st',
    login failing_session_write teacher_login school_open = (inr login_failure, st')
    /\ no_active st' "u1"
    /\ forall t d,
         sessions school_open !! t = Some d -> is_active_for "u1" d = true ->
         exists d', sessions st' !! t = Some d'
                    /\ get_field "isActive" d' = VBool false.
Proof.
  apply (login_failed_write_logs_out failing_session_write teacher_login
           school_open "u1" teacher []); by_running.
Defined.

Lemma email_unique_school_open :
  email_unique school_open (VStr "teacher@jpschool.com") "u1".
Proof.
  intros id u Hu _. unfold school_open, school in Hu. cbn [users] in Hu.
  by apply lookup_singleton_Some in Hu as [<- _].
Defined.

Lemma reset_then_login_witness :
  exists r st1 user',
    reset_password_handler (quiet 1000 "") (new_password_request (VStr "fresh"))
      (Identity teacher "u1") school_open
    = (inr r, st1)
    /\ status r = 200%nat
    /\ users st1 !! "u1" = Some user'
    /\ (get_field "password" (req_body fresh_login) = VStr "fresh" ->
        is_object (VStr "fresh") = false ->
        exists st2,
          login (quiet 2000 "token-b") fresh_login st1
          = (inr (login_success (quiet 2000 "token-b") "u1" user'), st2))
    /\ (truthy (get_field "password" (req_body fresh_login)) = true ->
        strict_eq (VStr "fresh") (get_field "password" (req_body fresh_login))
        = false ->
        login (quiet 2000 "token-b") fresh_login st1
        = (inr invalid_credentials, st1)).
Proof.
  apply (reset_then_login (quiet 1000 "") (quiet 2000 "token-b")
           (new_password_request (VStr "fresh")) (Identity teacher "u1")
           school_open teacher fresh_login);
    first [exact email_unique_school_open | by_running].
Defined.

Lemma object_password_locks_account_witness :
  exists r st1,
    reset_password_handler (quiet 1000 "") (new_password_request (VObj []))
      (Identity teacher "u1") school_open
    = (inr r, st1)
    /\ status r = 200%nat
    /\ forall req' user' rest,
         users_where_email (quiet 2000 "token-b")
           (get_field "email" (req_body req')) st1
         = (inr (("u1", user') :: rest), st1) ->
         exists r', login (quiet 2000 "token-b") req' st1 = (inr r', st1)
                    /\ (status r' = 400%nat \/ status r' = 401%nat).
Proof.
  apply (object_password_locks_account (quiet 1000 "") (quiet 2000 "token-b")
           (new_password_request (VObj [])) (Identity teacher "u1")
           school_open teacher); by_running.
Defined.

Lemma public_reset_takes_over_witness :
  exists st1 user' st2,
    reset_password_by_email (quiet 1000 "") public_reset_request school_open
    = (inr (Response 200
              (message_body
                 "Password successfully reset. Existing sessions are still active.")),
       st1)
    /\ sessions st1 = sessions school_open
    /\ users st1 !! "u1" = Some user'
    /\ get_field "password_hash" user' = VStr "fresh"
    /\ login (quiet 2000 "token-b") fresh_login st1
       = (inr (login_success (quiet 2000 "token-b") "u1" user'), st2).
Proof.
  apply (public_reset_takes_over (quiet 1000 "") (quiet 2000 "token-b")
           public_reset_request school_open "u1" teacher fresh_login);
    first [exact email_unique_school_open | by_running].
Defined.

Lemma plain_school1 : plain_id "school1".
Proof. split; by_running. Defined.

Lemma plain_school2 : plain_id "school2".
Proof. split; by_running. Defined.

Lemma plain_FirstA : plain_id "FirstA".
Proof. split; by_running. Defined.

Lemma plain_FirstB : plain_id "FirstB".
Proof. split; by_running. Defined.

Lemma timetable_path_injective_witness :
  normalize_path (timetable_path "school1" "FirstA")
  = timetable_path "school1" "FirstA"
  /\ (normalize_path (timetable_path "school1" "FirstA")
      = normalize_path (timetable_path "school1" "FirstB") ->
      "school1" = "school1" /\ "FirstA" = "FirstB").
Proof.
  exact (timetable_path_injective "school1" "FirstA" "school1" "FirstB"
           plain_school1 plain_FirstA plain_school1 plain_FirstB).
Defined.

Lemma pupil_may_not_write : ~ may_write_timetable pupil.
Proof. intros [H|H]; vm_compute in H; discriminate. Defined.

Lemma head_may_write : may_write_timetable head_teacher.
Proof. right. reflexivity. Defined.

Lemma timetable_post_forbidden_witness :
  timetable_post_handler (quiet 1000 "") set_succeeds timetable_request
    (Identity pupil "u3") staffed_school
  = (inr (Response 403
            (error_body
               "Forbidden: Only administrators and teachers can update the timetable.")),
     staffed_school).
Proof.
  apply (timetable_post_forbidden (quiet 1000 "") set_succeeds timetable_request
           (Identity pupil "u3") staffed_school).
  exact pupil_may_not_write.
Defined.

Lemma timetable_post_writes_one_witness :
  sessions (snd (timetable_post_handler (quiet 1000 "") set_succeeds
                   timetable_request (Identity head_teacher "u2") staffed_school))
  = sessions staffed_school
  /\ users (snd (timetable_post_handler (quiet 1000 "") set_succeeds
                   timetable_request (Identity head_teacher "u2") staffed_school))
     = users staffed_school
  /\ (documents (snd (timetable_post_handler (quiet 1000 "") set_succeeds
                        timetable_request (Identity head_teacher "u2")
                        staffed_school))
      = documents staffed_school
      \/ exists school class,
           may_write_timetable head_teacher
           /\ get_field "school_id" head_teacher = VStr school
           /\ get_field "class_id" (req_body timetable_request) = VStr class
           /\ (exists b,
                  fst (timetable_post_handler (quiet 1000 "") set_succeeds
                         timetable_request (Identity head_teacher "u2")
                         staffed_school)
                  = inr (Response 200 b))
           /\ documents (snd (timetable_post_handler (quiet 1000 "") set_succeeds
                                timetable_request (Identity head_teacher "u2")
                                staffed_school))
              = <[normalize_path (timetable_path school class) :=
                    timetable_data (quiet 1000 "")
                      (get_field "weekdays" (req_body timetable_request)) "u2"]>
                  (documents staffed_school)).
Proof.
  apply (timetable_post_writes_one (quiet 1000 "") set_succeeds timetable_request
           (Identity head_teacher "u2") staffed_school).
  apply surjective_pairing.
Defined.

Lemma timetable_round_trip_witness :
  exists r st' r' fields,
    timetable_post_handler (quiet 1000 "") set_succeeds timetable_request
      (Identity head_teacher "u2") staffed_school
    = (inr r, st')
    /\ status r = 200%nat
    /\ timetable_get_handler (quiet 2000 "") class_query (bearer "token-pupil" [])
         (Identity pupil "u3") st'
       = (inr r', st')
    /\ status r' = 200%nat
    /\ body r' = VObj fields
    /\ get_field "weekdays" fields = monday
    /\ get_field "updatedBy" fields = VStr "u2"
    /\ get_field "timetablePath" fields
       = VStr (normalize_path (timetable_path "school1" "FirstA")).
Proof.
  apply (timetable_round_trip (quiet 1000 "") (quiet 2000 "") set_succeeds
           timetable_request (Identity head_teacher "u2") class_query
           (bearer "token-pupil" []) (Identity pupil "u3") staffed_school
           "school1" "FirstA");
    first [exact head_may_write | by_running].
Defined.

Lemma timetable_school_isolation_witness :
  timetable_get_handler (quiet 2000 "") class_query (bearer "token-guest" [])
    (Identity visitor "u9")
    (snd (timetable_post_handler (quiet 1000 "") set_succeeds timetable_request
            (Identity head_teacher "u2") staffed_school))
  = (fst (timetable_get_handler (quiet 2000 "") class_query
            (bearer "token-guest" []) (Identity visitor "u9") staffed_school),
     snd (timetable_post_handler (quiet 1000 "") set_succeeds timetable_request
            (Identity head_teacher "u2") staffed_school)).
Proof.
  apply (timetable_school_isolation (quiet 1000 "") (quiet 2000 "") set_succeeds
           timetable_request (Identity head_teacher "u2") staffed_school
           (fst (timetable_post_handler (quiet 1000 "") set_succeeds
                   timetable_request (Identity head_teacher "u2") staffed_school))
           _ class_query (bearer "token-guest" []) (Identity visitor "u9")
           "school1" "school2" "FirstA");
    first [ apply surjective_pairing | exact plain_school1 | exact plain_school2
          | exact plain_FirstA | by_running ].
Defined.

Lemma role_config_sound_witness :
  snd (role_config_handler (quiet 1000 "") "user_role" (bearer "token-head" [])
         (Identity head_teacher "u2") staffed_school)
  = staffed_school
  /\ exists resp,
       fst (role_config_handler (quiet 1000 "") "user_role" (bearer "token-head" [])
              (Identity head_teacher "u2") staffed_school)
       = inr resp
       /\ (status resp = 200%nat ->
           exists role config,
             get_field "user_role" head_teacher = VStr role
             /\ role <> ""
             /\ documents staffed_school !! ("roles/" +:+ role) = Some config
             /\ body resp
                = VObj [("message",
                         VStr ("Configuration retrieved for role: " +:+ role));
                        ("role_config", VObj config)]).
Proof.
  apply (role_config_sound (quiet 1000 "") "user_role" (bearer "token-head" [])
           (Identity head_teacher "u2") staffed_school).
  apply surjective_pairing.
Defined.

Lemma unique_keys_maths : unique_keys [("title", VStr "Maths")].
Proof. apply NoDup_singleton. Defined.

Lemma subject_entry_fields_witness :
  field_of "parentClass"
    (subject_entry (Snapshot "school/school1/classes/FirstA/subjects/maths" None)
       [("title", VStr "Maths")] VNull)
  = VNull
  /\ (forall k, k <> "parentClass" ->
        has_field k [("title", VStr "Maths")] = true ->
        field_of k
          (subject_entry (Snapshot "school/school1/classes/FirstA/subjects/maths" None)
             [("title", VStr "Maths")] VNull)
        = get_field k [("title", VStr "Maths")])
  /\ (has_field "id" [("title", VStr "Maths")] = false ->
      field_of "id"
        (subject_entry (Snapshot "school/school1/classes/FirstA/subjects/maths" None)
           [("title", VStr "Maths")] VNull)
      = VStr (snap_id (Snapshot "school/school1/classes/FirstA/subjects/maths" None)))
  /\ (has_field "refPath" [("title", VStr "Maths")] = false ->
      field_of "refPath"
        (subject_entry (Snapshot "school/school1/classes/FirstA/subjects/maths" None)
           [("title", VStr "Maths")] VNull)
      = VStr "school/school1/classes/FirstA/subjects/maths").
Proof.
  exact (subject_entry_fields
           (Snapshot "school/school1/classes/FirstA/subjects/maths" None)
           [("title", VStr "Maths")] VNull unique_keys_maths).
Defined.

Lemma teacher_fetch :
  fetchEnrolledClassesWithParents (quiet 0 "") "u1" school
  = (inr teacher_entries,
     snd (fetchEnrolledClassesWithParents (quiet 0 "") "u1" school)).
Proof. by_running. Defined.

Lemma teacher_on_record : users school !! "u1" = Some teacher.
Proof. by_running. Defined.


Lemma maths_listed : maths_entry ∈ teacher_entries.
Proof. vm_compute. constructor. Defined.

Lemma fetchEnrolled_entries_stored_witness :
  exists subject subjectData,
    documents school !! subject = Some subjectData
    /\ exists classData,
         maths_entry = subject_entry (Snapshot subject (Some subjectData))
                         subjectData classData
         /\ field_of "parentClass" maths_entry = classData
         /\ (classData = VNull
             \/ exists parent classFields,
                  documents school !! parent = Some classFields
                  /\ classData
                     = class_data (Snapshot parent (Some classFields))
                         classFields).
Proof.
  exact (fetchEnrolled_entries_stored (quiet 0 "") "u1" school teacher
           teacher_entries _ maths_entry (never_throws_quiet 0 "")
           teacher_on_record teacher_fetch maths_listed).
Defined.

Lemma timetable_changes_documents :
  documents (snd (timetable_post (quiet 1000 "") set_succeeds timetable_request
                    staffed_school))
  <> documents staffed_school.
Proof.
  intros Heq.
  apply (f_equal (fun m => m !! timetable_path "school1" "FirstA")) in Heq.
  vm_compute in Heq. discriminate Heq.
Defined.

Lemma timetable_post_authorised_witness :
  exists ident,
    authenticateToken (quiet 1000 "") timetable_request staffed_school
    = (inr (inr ident), staffed_school)
    /\ users staffed_school !! req_userId ident = Some (req_user ident)
    /\ may_write_timetable (req_user ident).
Proof.
  apply (timetable_post_authorised (quiet 1000 "") set_succeeds timetable_request
           staffed_school
           (fst (timetable_post (quiet 1000 "") set_succeeds timetable_request
                   staffed_school))
           (snd (timetable_post (quiet 1000 "") set_succeeds timetable_request
                   staffed_school))).
  - apply surjective_pairing.
  - exact timetable_changes_documents.
Defined.

